(** * Compligator normalizer: a shallow embedding of [compligator/normalizer.py]

    The development follows the layout of the Python module: the string
    primitives the code relies on, the section model, the three extractors
    (PDF, HTML, OSCAL JSON), the two writers, the per-file step
    [_normalize_file] and the walk [normalize_all].  Definitions come first,
    the statements about them afterwards. *)

From stdpp Require Import gmap strings list.
From Stdlib Require Import String Ascii ZArith Lia DecimalString Sorted.
From Stdlib Require DecimalPos DecimalN DecimalZ.
Import ListNotations.
Set Warnings "-register-all".
Set Default Proof Using "Type".
Local Open Scope string_scope.
Local Open Scope list_scope.

(* ===================================================================== *)
(** ** Python strings                                                     *)
(* ===================================================================== *)

(** Strings are modelled as [string], one [ascii] per character, for text
    in 7-bit ASCII: the character classes below are those of
    [str.isspace], [str.upper] and [str.lower] on the codes 0 to 127, and
    codes above 127 are taken as uncased and not white space. *)
Module Py.

(** [str.isspace] on one character: TAB, LF, VT, FF, CR, the four
    separators FS, GS, RS, US, and the space. *)
Definition is_space (c : ascii) : bool :=
  let n := nat_of_ascii c in
  ((9 <=? n) && (n <=? 13) || (28 <=? n) && (n <=? 32))%nat.

Fixpoint lstrip (s : string) : string :=
  match s with
  | EmptyString => EmptyString
  | String c rest => if is_space c then lstrip rest else s
  end.

Fixpoint rev_onto (s acc : string) : string :=
  match s with
  | EmptyString => acc
  | String c rest => rev_onto rest (String c acc)
  end.

Definition rev (s : string) : string := rev_onto s EmptyString.

Definition rstrip (s : string) : string := rev (lstrip (rev s)).

(** [s.strip()] *)
Definition strip (s : string) : string := rstrip (lstrip s).

(** Truthiness of a string: [if s:] *)
Definition truthy (s : string) : bool :=
  match s with EmptyString => false | String _ _ => true end.

Definition is_lower (c : ascii) : bool :=
  let n := nat_of_ascii c in ((97 <=? n) && (n <=? 122))%nat.

Definition is_upper (c : ascii) : bool :=
  let n := nat_of_ascii c in ((65 <=? n) && (n <=? 90))%nat.

Definition upper_char (c : ascii) : ascii :=
  if is_lower c then ascii_of_nat (nat_of_ascii c - 32) else c.

Definition lower_char (c : ascii) : ascii :=
  if is_upper c then ascii_of_nat (nat_of_ascii c + 32) else c.

(** [s.upper()] *)
Fixpoint upper (s : string) : string :=
  match s with
  | EmptyString => EmptyString
  | String c rest => String (upper_char c) (upper rest)
  end.

(** [s.title()]: a cased character is uppercased when it follows an
    uncased one (or starts the string), lowercased otherwise. *)
Fixpoint title_from (prev_cased : bool) (s : string) : string :=
  match s with
  | EmptyString => EmptyString
  | String c rest =>
      let cased := is_lower c || is_upper c in
      String (if prev_cased then lower_char c else upper_char c)
             (title_from cased rest)
  end.

Definition title (s : string) : string := title_from false s.

(** [sep.join(parts)] *)
Fixpoint join (sep : string) (parts : list string) : string :=
  match parts with
  | [] => EmptyString
  | [p] => p
  | p :: rest => p +:+ sep +:+ join sep rest
  end.

(** [s.split(c)[0]]: the part of [s] before the first occurrence of the
    separator character (all of [s] when it does not occur). *)
Fixpoint split_head (c : ascii) (s : string) : string :=
  match s with
  | EmptyString => EmptyString
  | String d rest => if Ascii.eqb d c then EmptyString else String d (split_head c rest)
  end.

(** [s.startswith(p)] *)
Definition startswith (p s : string) : bool := String.prefix p s.

(** [needle in s] for two strings *)
Fixpoint contains (needle s : string) : bool :=
  String.prefix needle s
  || match s with
     | EmptyString => false
     | String _ rest => contains needle rest
     end.

(** [str(n)] for a non-negative integer *)
Definition str_nat (n : nat) : string := NilZero.string_of_uint (Nat.to_uint n).

(** [str(z)] for an integer *)
Definition str_int (z : Z) : string := NilZero.string_of_int (Z.to_int z).

(** [sorted(l)] on strings: code-point order.  Insertion sort; equal
    strings are indistinguishable, so every sort gives this list. *)
Fixpoint insert_sorted (x : string) (l : list string) : list string :=
  match l with
  | [] => [x]
  | y :: rest => if String.leb x y then x :: l else y :: insert_sorted x rest
  end.

Fixpoint sorted (l : list string) : list string :=
  match l with
  | [] => []
  | x :: rest => insert_sorted x (sorted rest)
  end.

Definition lower_string (s : string) : string :=
  string_of_list_ascii (List.map lower_char (list_ascii_of_string s)).

(** [s.rfind(c)]: index of the last occurrence, if any *)
Fixpoint rfind (c : ascii) (s : string) : option nat :=
  match s with
  | EmptyString => None
  | String d rest =>
      match rfind c rest with
      | Some i => Some (S i)
      | None => if Ascii.eqb d c then Some 0 else None
      end
  end.

(** [s * n]: repetition, empty for a count that is not positive *)
Fixpoint repeat_string (s : string) (n : nat) : string :=
  match n with
  | O => EmptyString
  | S m => s +:+ repeat_string s m
  end.

Definition nl : string := String (ascii_of_nat 10) EmptyString.
Definition quote : string := String (ascii_of_nat 34) EmptyString.

End Py.

(* ===================================================================== *)
(** ** Exceptions and results                                             *)
(* ===================================================================== *)

(** The exception classes that occur in the module, each with the text
    [str(exc)] gives.  [_UnsupportedOscalType] derives from [Exception]
    directly; the others are Python's own, except [OutsideSchema], which
    marks a JSON document whose catalog or profile does not have the shape
    of the OSCAL dictionaries below: what the dynamically typed code does
    with such a value is not part of this model. *)
Inductive exn : Type :=
| RuntimeError (msg : string)
| _UnsupportedOscalType (msg : string)
| OSError (msg : string)
| TypeError (msg : string)
| AttributeError (msg : string)
| KeyError (msg : string)
| ValueError (msg : string)
| OutsideSchema (msg : string).

Definition str_exc (e : exn) : string :=
  match e with
  | RuntimeError m | _UnsupportedOscalType m | OSError m
  | TypeError m | AttributeError m | KeyError m | ValueError m
  | OutsideSchema m => m
  end.

(** A computation either returns or raises. *)
Inductive result (A : Type) : Type :=
| Ok (a : A)
| Raise (e : exn).
Arguments Ok {A} a.
Arguments Raise {A} e.

(** Sequencing: the first exception raised ends the computation. *)
#[global] Instance result_bind : MBind result := fun A B k r =>
  match r with
  | Ok a => k a
  | Raise e => Raise e
  end.

#[global] Instance result_ret : MRet result := fun A a => Ok a.

(* ===================================================================== *)
(** ** Section model                                                      *)
(* ===================================================================== *)

(** The dictionaries [{"heading": ..., "level": ..., "content": ...}]. *)
Record section : Type := mkSection {
  heading : string;
  level : Z;
  content : string;
}.

(* ===================================================================== *)
(** ** Documents as the libraries hand them to the module                 *)
(* ===================================================================== *)

(** What pymupdf makes of a file: [fitz.open] raises or gives the pages,
    and [page.get_text()] raises or gives the page's raw text. *)
Definition pdf_view : Type := result (list (result string)).

(** The tree BeautifulSoup builds.  [Text] is a [NavigableString];
    [Comment] stands for the string kinds [get_text] leaves out (comments,
    doctypes, declarations); [Tag] carries its name, attributes and
    contents. *)
Inductive node : Type :=
| Text (s : string)
| Comment (s : string)
| Tag (name : string) (attrs : list (string * string)) (contents : list node).

(** [path.read_text] raises or gives markup, which is parsed into the
    top-level contents of the soup. *)
Definition html_view : Type := result (list node).

(** A value returned by [json.loads]. *)
Inductive json : Type :=
| JNull
| JBool (b : bool)
| JNumber (n : Z)
| JString (s : string)
| JArray (items : list json)
| JObject (members : list (string * json)).

(** [path.read_text] followed by [json.loads]: raises or gives a value. *)
Definition json_view : Type := result json.

(** A source path: its final component and what each library reads from
    the bytes behind it. *)
Record source_file : Type := mkSource {
  name : string;
  pdf : pdf_view;
  html : html_view;
  loaded : json_view;
}.

(** [PurePath.suffix] and [PurePath.stem]: the name is cut at its last dot,
    unless that dot is the first or the last character. *)
Definition suffix (nm : string) : string :=
  match Py.rfind "."%char nm with
  | Some i =>
      if ((0 <? i) && (i <? String.length nm - 1))%nat
      then String.substring i (String.length nm - i) nm
      else EmptyString
  | None => EmptyString
  end.

Definition stem (nm : string) : string :=
  match Py.rfind "."%char nm with
  | Some i =>
      if ((0 <? i) && (i <? String.length nm - 1))%nat
      then String.substring 0 i nm
      else nm
  | None => nm
  end.

(** Membership in a set of strings, such as [ext in PDF_EXTENSIONS]. *)
Definition mem (x : string) (s : list string) : bool :=
  existsb (String.eqb x) s.

(* ===================================================================== *)
(** ** PDF extraction                                                     *)
(* ===================================================================== *)

(** The loop [for page_num, page in enumerate(doc, 1)], with the list
    [sections] it appends to. *)
Fixpoint pdf_pages (page_num : nat) (doc : list (result string))
    (sections : list section) : result (list section) :=
  match doc with
  | [] => Ok sections
  | page :: rest =>
      raw ← page;
      let text := Py.strip raw in
      if Py.truthy text
      then pdf_pages (S page_num) rest
             (sections ++ [mkSection ("Page " +:+ Py.str_nat page_num) 1 text])
      else pdf_pages (S page_num) rest sections
  end.

Definition _extract_pdf (path : source_file) : result (list section) :=
  match (doc ← pdf path; pdf_pages 1 doc []) with
  | Ok sections => Ok sections
  | Raise exc => Raise (RuntimeError ("pymupdf failed: " +:+ str_exc exc))
  end.

(* ===================================================================== *)
(** ** HTML extraction                                                    *)
(* ===================================================================== *)

Module Soup.

(** Every node below [n], in document order. *)
Fixpoint descendants (n : node) : list node :=
  match n with
  | Tag _ _ kids => flat_map (fun k => k :: descendants k) kids
  | _ => []
  end.

(** The descendants of the soup object itself. *)
Definition all (roots : list node) : list node :=
  flat_map (fun k => k :: descendants k) roots.

(** The strings [get_text] sees below a node, in document order. *)
Fixpoint strings (n : node) : list string :=
  match n with
  | Text s => [s]
  | Comment _ => []
  | Tag _ _ kids => flat_map strings kids
  end.

(** [get_text(separator=sep, strip=True)] over some contents: every
    string is stripped, the empty ones are dropped, the rest joined. *)
Definition get_text (sep : string) (roots : list node) : string :=
  Py.join sep (List.filter Py.truthy (List.map Py.strip (flat_map strings roots))).

(** [element.get_text(separator=sep, strip=True)] *)
Definition element_text (sep : string) (element : node) : string :=
  get_text sep [element].

Definition tag_name (n : node) : option string :=
  match n with
  | Tag nm _ _ => Some nm
  | _ => None
  end.

Definition named (nm : string) (n : node) : bool :=
  match n with
  | Tag t _ _ => String.eqb t nm
  | _ => false
  end.

Fixpoint attr (k : string) (attrs : list (string * string)) : option string :=
  match attrs with
  | [] => None
  | (k', v) :: rest => if String.eqb k k' then Some v else attr k rest
  end.

Definition has_attr (k v : string) (n : node) : bool :=
  match n with
  | Tag _ attrs _ =>
      match attr k attrs with
      | Some v' => String.eqb v' v
      | None => false
      end
  | _ => false
  end.

(** [soup.find(...)]: the first match in document order. *)
Definition find (p : node -> bool) (roots : list node) : option node :=
  List.find p (all roots).

(** [container.find_all(names)]: every tag below the container whose
    name is in the set, in document order. *)
Definition find_all (names : list string) (container : node) : list node :=
  List.filter
    (fun n => match tag_name n with Some t => mem t names | None => false end)
    (descendants container).

End Soup.

Definition HEADING_TAGS : list string := ["h1"; "h2"; "h3"; "h4"].
Definition CONTENT_TAGS : list string :=
  ["p"; "li"; "td"; "th"; "figcaption"; "blockquote"].

(** [a or b]: a tag is always truthy, so the first one found wins. *)
Definition or_else {A : Type} (a b : option A) : option A :=
  match a with
  | Some _ => a
  | None => b
  end.

(** The local variables of the walk in [_extract_html]. *)
Record walk : Type := mkWalk {
  sections : list section;
  current_heading : string;
  current_level : Z;
  current_lines : list string;
}.

(** "Flush previous section": the sections after the conditional append. *)
Definition flush (w : walk) : list section :=
  let body := Py.strip (Py.join Py.nl (current_lines w)) in
  if Py.truthy body
  then sections w ++ [mkSection (current_heading w) (current_level w) body]
  else sections w.

(** [int(element.name[1])] *)
Definition heading_rank (nm : string) : Z :=
  match nm with
  | String _ (String d _) => Z.of_nat (nat_of_ascii d) - 48
  | _ => 0
  end.

(** [element.name] *)
Definition element_name (element : node) : string :=
  default EmptyString (Soup.tag_name element).

(** One iteration of [for element in container.find_all(...)]. *)
Definition walk_step (w : walk) (element : node) : walk :=
  if mem (element_name element) HEADING_TAGS
  then
    mkWalk (flush w) (Soup.element_text " " element)
      (heading_rank (element_name element)) []
  else
    let text := Soup.element_text " " element in
    if Py.truthy text
    then mkWalk (sections w) (current_heading w) (current_level w)
           (current_lines w ++ [text])
    else w.

(** The most specific content container available: [<main>], else
    [role="main"], else [<article>], else [<body>]. *)
Definition find_container (soup : list node) : option node :=
  or_else (Soup.find (Soup.named "main") soup)
    (or_else (Soup.find (Soup.has_attr "role" "main") soup)
       (or_else (Soup.find (Soup.named "article") soup)
          (Soup.find (Soup.named "body") soup))).

Definition _extract_html (path : source_file) : result (list section) :=
  match html path with
  | Raise (OSError m) =>
      Raise (RuntimeError ("Could not read " +:+ name path +:+ ": " +:+ m))
  | Raise e => Raise e
  | Ok soup =>
      match find_container soup with
      | None =>
          let raw := Soup.get_text Py.nl soup in
          Ok [mkSection (stem (name path)) 1 raw]
      | Some container =>
          let w :=
            fold_left walk_step
              (Soup.find_all (HEADING_TAGS ++ CONTENT_TAGS) container)
              (mkWalk [] (stem (name path)) 1 []) in
          let sections := flush w in
          match sections with
          | [] =>
              let raw := Soup.element_text Py.nl container in
              if Py.truthy raw
              then Ok [mkSection (stem (name path)) 1 raw]
              else Ok sections
          | _ => Ok sections
          end
      end
  end.

(* ===================================================================== *)
(** ** OSCAL JSON extraction                                              *)
(* ===================================================================== *)

(** The dictionaries of an OSCAL document, with the keys the module reads.
    An absent key is [None] (or the empty list); [prose] is also [None]
    for a falsy value, which the [or] after [part.get("prose")] replaces
    by the empty string. *)
Inductive part : Type :=
| Part (part_name : option string) (prose : option string) (parts : list part).

Inductive control : Type :=
| Control (id : option string) (title : option string)
    (parts : list part) (controls : list control).

Record group : Type := mkGroup { group_controls : list control }.
Record catalog : Type := mkCatalog { groups : list group }.

Record include_controls : Type := mkInclude { with_ids : list string }.
Record import : Type := mkImport { include : list include_controls }.
Record profile : Type := mkProfile {
  metadata_title : option string;
  imports : list import;
}.

(** [lines.append(x)] under [if x:] *)
Definition append_if_truthy (lines : list string) (x : string) : list string :=
  if Py.truthy x then lines ++ [x] else lines.

Fixpoint _collect_prose (p : part) : string :=
  match p with
  | Part _ prose parts =>
      let lines := [] in
      let prose := Py.strip (default EmptyString prose) in
      let lines := append_if_truthy lines prose in
      let lines :=
        fold_left (fun lines subpart => append_if_truthy lines (_collect_prose subpart))
          parts lines in
      Py.join Py.nl lines
  end.

(** The body of [for part in control.get("parts", [])]. *)
Definition text_parts_step (text_parts : list string) (p : part) : list string :=
  match p with
  | Part part_name _ _ =>
      let name := default EmptyString part_name in
      if mem name ["statement"; "guidance"]
      then
        let prose := _collect_prose p in
        if Py.truthy prose
        then text_parts ++ ["**" +:+ Py.title name +:+ "**" +:+ Py.nl +:+ prose]
        else text_parts
      else text_parts
  end.

Fixpoint _extract_control_sections (c : control) (level : Z) : list section :=
  match c with
  | Control id title parts controls =>
      let sections := [] in
      let cid := Py.upper (default EmptyString id) in
      let title := default EmptyString title in
      let heading := if Py.truthy cid then cid +:+ ": " +:+ title else title in
      let text_parts := fold_left text_parts_step parts [] in
      let content := Py.join (Py.nl +:+ Py.nl) text_parts in
      let sections :=
        if Py.truthy heading && Py.truthy content
        then sections ++ [mkSection heading level content]
        else sections in
      fold_left
        (fun sections enhancement =>
           sections ++ _extract_control_sections enhancement (level + 1))
        controls sections
  end.

Definition _extract_catalog (c : catalog) : list section :=
  fold_left
    (fun sections g =>
       fold_left
         (fun sections ctl => sections ++ _extract_control_sections ctl 2)
         (group_controls g) sections)
    (groups c) [].

(** [families.setdefault(family, []).append(cid)] on a dictionary kept in
    insertion order. *)
Fixpoint setdefault_append (family cid : string)
    (families : list (string * list string)) : list (string * list string) :=
  match families with
  | [] => [(family, [cid])]
  | (k, ids) :: rest =>
      if String.eqb k family
      then (k, ids ++ [cid]) :: rest
      else (k, ids) :: setdefault_append family cid rest
  end.

(** [sorted(families.items())]: keys are distinct, so the order of the
    pairs is the order of their keys. *)
Fixpoint insert_item (x : string * list string)
    (l : list (string * list string)) : list (string * list string) :=
  match l with
  | [] => [x]
  | y :: rest =>
      if String.leb (fst x) (fst y) then x :: l else y :: insert_item x rest
  end.

Fixpoint sorted_items (l : list (string * list string))
    : list (string * list string) :=
  match l with
  | [] => []
  | x :: rest => insert_item x (sorted_items rest)
  end.

Definition _extract_profile (p : profile) : list section :=
  let title := default "Unknown Profile" (metadata_title p) in
  let all_ids :=
    fold_left
      (fun all_ids imp =>
         fold_left (fun all_ids ic => all_ids ++ with_ids ic) (include imp) all_ids)
      (imports p) [] in
  match all_ids with
  | [] => [mkSection title 1 "No control IDs found in profile."]
  | _ =>
      let families :=
        fold_left
          (fun families cid =>
             let family := Py.upper (Py.split_head "-"%char cid) in
             setdefault_append family cid families)
          (Py.sorted all_ids) [] in
      let sections :=
        [mkSection title 1
           ("Total controls: " +:+ Py.str_nat (List.length all_ids) +:+ Py.nl
            +:+ "Families: " +:+ Py.join ", " (Py.sorted (List.map fst families)))] in
      fold_left
        (fun sections item =>
           sections ++ [mkSection (fst item +:+ " Controls") 2 (Py.join ", " (snd item))])
        (sorted_items families) sections
  end.

(** *** Reading the dictionaries out of a loaded JSON value *)

Module Json.

Section Members.
Context {A : Type} (f : json -> A) (k : string).

(** The value stored under [k], seen through [f]. *)
Fixpoint get_with (members : list (string * json)) : option A :=
  match members with
  | [] => None
  | (k', v) :: rest => if String.eqb k k' then Some (f v) else get_with rest
  end.
End Members.

(** [d.get(k)] *)
Definition get (k : string) (members : list (string * json)) : option json :=
  get_with (fun v => v) k members.

(** Truthiness of a value, as tested by [v or default]. *)
Definition truthy (v : json) : bool :=
  match v with
  | JNull => false
  | JBool b => b
  | JNumber n => negb (n =? 0)%Z
  | JString s => Py.truthy s
  | JArray items => match items with [] => false | _ => true end
  | JObject members => match members with [] => false | _ => true end
  end.

(** [key in data] *)
Definition contains (key : string) (data : json) : result bool :=
  match data with
  | JObject members => Ok (bool_decide (is_Some (get key members)))
  | JArray items =>
      Ok (existsb (fun v => match v with JString s => String.eqb s key | _ => false end) items)
  | JString s => Ok (Py.contains key s)
  | JNull => Raise (TypeError "argument of type 'NoneType' is not iterable")
  | JBool _ => Raise (TypeError "argument of type 'bool' is not iterable")
  | JNumber _ => Raise (TypeError "argument of type 'int' is not iterable")
  end.

(** [data[key]] for a string key *)
Definition getitem (key : string) (data : json) : result json :=
  match data with
  | JObject members =>
      match get key members with
      | Some v => Ok v
      | None => Raise (KeyError key)
      end
  | JArray _ => Raise (TypeError "list indices must be integers or slices, not str")
  | JString _ => Raise (TypeError "string indices must be integers, not 'str'")
  | JNull => Raise (TypeError "'NoneType' object is not subscriptable")
  | JBool _ => Raise (TypeError "'bool' object is not subscriptable")
  | JNumber _ => Raise (TypeError "'int' object is not subscriptable")
  end.

Fixpoint sequence {A : Type} (l : list (option A)) : option (list A) :=
  match l with
  | [] => Some []
  | x :: rest => a ← x; r ← sequence rest; Some (a :: r)
  end.

(** An optional string-valued key. *)
Definition string_field (k : string) (members : list (string * json))
    : option (option string) :=
  match get k members with
  | None => Some None
  | Some (JString s) => Some (Some s)
  | Some _ => None
  end.

(** An optional list-valued key whose items are read by [f]. *)
Definition list_field {A : Type} (f : json -> option A) (k : string)
    (members : list (string * json)) : option (list A) :=
  match
    get_with
      (fun v => match v with JArray items => Some (List.map f items) | _ => None end)
      k members
  with
  | None => Some []
  | Some None => None
  | Some (Some l) => sequence l
  end.

Definition as_string (v : json) : option string :=
  match v with
  | JString s => Some s
  | _ => None
  end.

Fixpoint as_part (v : json) : option part :=
  match v with
  | JObject members =>
      part_name ← string_field "name" members;
      prose ←
        match get "prose" members with
        | None => Some None
        | Some p => if truthy p then Some <$> as_string p else Some None
        end;
      parts ← list_field as_part "parts" members;
      Some (Part part_name prose parts)
  | _ => None
  end.

Fixpoint as_control (v : json) : option control :=
  match v with
  | JObject members =>
      id ← string_field "id" members;
      title ← string_field "title" members;
      parts ← list_field as_part "parts" members;
      controls ← list_field as_control "controls" members;
      Some (Control id title parts controls)
  | _ => None
  end.

Definition as_group (v : json) : option group :=
  match v with
  | JObject members => mkGroup <$> list_field as_control "controls" members
  | _ => None
  end.

Definition as_catalog (v : json) : option catalog :=
  match v with
  | JObject members => mkCatalog <$> list_field as_group "groups" members
  | _ => None
  end.

Definition as_include (v : json) : option include_controls :=
  match v with
  | JObject members => mkInclude <$> list_field as_string "with-ids" members
  | _ => None
  end.

Definition as_import (v : json) : option import :=
  match v with
  | JObject members => mkImport <$> list_field as_include "include-controls" members
  | _ => None
  end.

Definition as_profile (v : json) : option profile :=
  match v with
  | JObject members =>
      title ←
        match get "metadata" members with
        | None => Some None
        | Some (JObject metadata) => string_field "title" metadata
        | Some _ => None
        end;
      imports ← list_field as_import "imports" members;
      Some (mkProfile title imports)
  | _ => None
  end.

End Json.

(** The argument of [_extract_catalog] (of [_extract_profile]) as the
    dictionary it is annotated to be.  A document that departs from it (a
    title that is not a string, groups that are not a list) is outside
    what is modelled: [OutsideSchema] stands for whatever the code does
    with it, of which the statements below say nothing. *)
Definition catalog_of (v : json) : result catalog :=
  match Json.as_catalog v with
  | Some c => Ok c
  | None => Raise (OutsideSchema "catalog")
  end.

Definition profile_of (v : json) : result profile :=
  match Json.as_profile v with
  | Some p => Ok p
  | None => Raise (OutsideSchema "profile")
  end.

Definition _extract_oscal_json (path : source_file) : result (list section) :=
  match loaded path with
  | Raise exc => Raise (RuntimeError ("JSON parse failed: " +:+ str_exc exc))
  | Ok data =>
      has_catalog ← Json.contains "catalog" data;
      if has_catalog : bool
      then
        v ← Json.getitem "catalog" data;
        c ← catalog_of v;
        Ok (_extract_catalog c)
      else
        has_profile ← Json.contains "profile" data;
        if has_profile : bool
        then
          v ← Json.getitem "profile" data;
          p ← profile_of v;
          Ok (_extract_profile p)
        else
          Raise (_UnsupportedOscalType
                   ("not a recognized OSCAL catalog or profile: " +:+ name path))
  end.

(* ===================================================================== *)
(** ** Output writers                                                     *)
(* ===================================================================== *)

(** Destination paths, component by component; [p / x] is [p ++ [x]]. *)
Abbreviation path := (list string) (only parsing).

(** The calls whose occurrence the statements below talk about. *)
Inductive call : Type :=
| ExtractPdf (nm : string)
| ExtractOscalJson (nm : string)
| ExtractHtml (nm : string)
| Mkdir (dir : path)
| WriteMarkdown (dest : path)
| WriteJson (dest : path)
| Progress (key nm : string).

(** The destination tree (which files exist, and their text) and the calls
    made so far. *)
Record world : Type := mkWorld {
  files : gmap path string;
  calls : list call;
}.

(** What the run does not control: whether a write or a directory
    creation fails with an [OSError], and the clock read for a file.  A
    write that fails gives the message of the error and what it leaves
    behind: [None] when the file could not be opened and is as it was,
    [Some n] when the file was created or emptied and the first [n]
    characters of the text reached it. *)
Record env : Type := mkEnv {
  write_fault : path -> option (string * option nat);
  mkdir_fault : path -> option string;
  now : source_file -> string;
}.

Definition record_call (c : call) (w : world) : world :=
  mkWorld (files w) (calls w ++ [c]).

(** [p.exists()], on a destination tree that can be read: the call does
    not fail. *)
Definition exists_ (p : path) (w : world) : bool :=
  bool_decide (is_Some (files w !! p)).

(** [dest.write_text(text, encoding="utf-8")]: the file is opened for
    writing, which creates or empties it, and the text is written.  The
    texts here are 7-bit, so that encoding them cannot fail. *)
Definition write_text (e : env) (dest : path) (text : string) (w : world)
    : result unit * world :=
  match write_fault e dest with
  | Some (m, None) => (Raise (OSError m), w)
  | Some (m, Some n) =>
      (Raise (OSError m),
       mkWorld (<[dest := String.substring 0 n text]> (files w)) (calls w))
  | None => (Ok tt, mkWorld (<[dest := text]> (files w)) (calls w))
  end.

(** [output_subdir.mkdir(parents=True, exist_ok=True)] *)
Definition mkdir (e : env) (dir : path) (w : world) : result unit * world :=
  let w := record_call (Mkdir dir) w in
  match mkdir_fault e dir with
  | Some m => (Raise (OSError m), w)
  | None => (Ok tt, w)
  end.

(** The text [_write_markdown] writes. *)
Definition markdown_text (sections : list section)
    (framework source_file extracted_at : string) : string :=
  let lines :=
    [ "---";
      "source_file: " +:+ source_file;
      "framework: " +:+ framework;
      "extracted_at: " +:+ Py.quote +:+ extracted_at +:+ Py.quote;
      "---";
      EmptyString;
      "# " +:+ stem source_file;
      EmptyString ] in
  let lines :=
    fold_left
      (fun lines s =>
         let prefix := Py.repeat_string "#" (Z.to_nat (Z.min (level s + 1) 6)) in
         lines ++ [prefix +:+ " " +:+ heading s; EmptyString; content s; EmptyString])
      sections lines in
  Py.join Py.nl lines.

Definition _write_markdown (e : env) (sections : list section)
    (framework source_file extracted_at : string) (dest : path) (w : world)
    : result unit * world :=
  write_text e dest (markdown_text sections framework source_file extracted_at)
    (record_call (WriteMarkdown dest) w).

(** *** [json.dumps(payload, indent=2, ensure_ascii=False)] *)

Module Dumps.

Definition hex_digit (n : nat) : ascii :=
  if (n <? 10)%nat then ascii_of_nat (48 + n) else ascii_of_nat (87 + n).

(** One character of a string literal: the two-character escapes, the
    six-character escape for the other control characters, or itself. *)
Definition escape (c : ascii) : string :=
  let n := nat_of_ascii c in
  let bs := String (ascii_of_nat 92) EmptyString in
  if (n =? 34)%nat then bs +:+ Py.quote
  else if (n =? 92)%nat then bs +:+ bs
  else if (n =? 10)%nat then bs +:+ "n"
  else if (n =? 13)%nat then bs +:+ "r"
  else if (n =? 9)%nat then bs +:+ "t"
  else if (n =? 8)%nat then bs +:+ "b"
  else if (n =? 12)%nat then bs +:+ "f"
  else if (n <? 32)%nat
       then bs +:+ "u00"
            +:+ String (hex_digit (n / 16)) (String (hex_digit (n mod 16)) EmptyString)
  else String c EmptyString.

Fixpoint escape_all (s : string) : string :=
  match s with
  | EmptyString => EmptyString
  | String c rest => escape c +:+ escape_all rest
  end.

Definition str (s : string) : string := Py.quote +:+ escape_all s +:+ Py.quote.

Definition pad (depth : nat) : string := Py.repeat_string "  " depth.

Fixpoint value (depth : nat) (v : json) : string :=
  match v with
  | JNull => "null"
  | JBool true => "true"
  | JBool false => "false"
  | JNumber n => Py.str_int n
  | JString s => str s
  | JArray [] => "[]"
  | JArray items =>
      "[" +:+ Py.nl
      +:+ Py.join ("," +:+ Py.nl)
            (List.map (fun v => pad (S depth) +:+ value (S depth) v) items)
      +:+ Py.nl +:+ pad depth +:+ "]"
  | JObject [] => "{}"
  | JObject members =>
      "{" +:+ Py.nl
      +:+ Py.join ("," +:+ Py.nl)
            (List.map
               (fun kv => pad (S depth) +:+ str (fst kv) +:+ ": "
                          +:+ value (S depth) (snd kv))
               members)
      +:+ Py.nl +:+ pad depth +:+ "}"
  end.

Definition dumps (v : json) : string := value 0 v.

End Dumps.

Definition section_json (s : section) : json :=
  JObject [("heading", JString (heading s));
           ("level", JNumber (level s));
           ("content", JString (content s))].

(** The dictionary [payload] of [_write_json]. *)
Definition payload (sections : list section)
    (framework source_file extracted_at : string) : json :=
  let full_text := Py.join (Py.nl +:+ Py.nl) (List.map content sections) in
  JObject [("source_file", JString source_file);
           ("framework", JString framework);
           ("extracted_at", JString extracted_at);
           ("sections", JArray (List.map section_json sections));
           ("full_text", JString full_text)].

Definition json_text (sections : list section)
    (framework source_file extracted_at : string) : string :=
  Dumps.dumps (payload sections framework source_file extracted_at).

Definition _write_json (e : env) (sections : list section)
    (framework source_file extracted_at : string) (dest : path) (w : world)
    : result unit * world :=
  write_text e dest (json_text sections framework source_file extracted_at)
    (record_call (WriteJson dest) w).

(* ===================================================================== *)
(** ** Per-file normalization                                             *)
(* ===================================================================== *)

Definition SKIP_SUBDIRS : list string := ["disa-stigs"].

Definition PDF_EXTENSIONS : list string := [".pdf"].
Definition HTML_EXTENSIONS : list string := [".html"; ".htm"].
Definition JSON_EXTENSIONS : list string := [".json"].
Definition SUPPORTED_EXTENSIONS : list string :=
  PDF_EXTENSIONS ++ HTML_EXTENSIONS ++ JSON_EXTENSIONS.

Definition KNOWN_UNSUPPORTED : list string :=
  [".zip"; ".doc"; ".docx"; ".xlsx"; ".xls"; ".xml"].

Definition IGNORE_NAMES : list string := [".compligator-state.json"; "README.md"].

(** The [try] block of [_normalize_file]: the extractor chosen by the
    extension. *)
Definition extract (ext : string) (source_path : source_file) (w : world)
    : result (list section) * world :=
  if mem ext PDF_EXTENSIONS
  then (_extract_pdf source_path, record_call (ExtractPdf (name source_path)) w)
  else if mem ext JSON_EXTENSIONS
  then (_extract_oscal_json source_path,
        record_call (ExtractOscalJson (name source_path)) w)
  else (_extract_html source_path, record_call (ExtractHtml (name source_path)) w).

(** The second [try] block: both writers, the JSON one only when the
    Markdown one returned. *)
Definition write_both (e : env) (sections : list section)
    (framework nm extracted_at : string) (md_dest json_dest : path) (w : world)
    : result unit * world :=
  match _write_markdown e sections framework nm extracted_at md_dest w with
  | (Raise exc, w) => (Raise exc, w)
  | (Ok _, w) => _write_json e sections framework nm extracted_at json_dest w
  end.

(** Returns [(status, message)], or lets an exception through. *)
Definition _normalize_file (e : env) (source_path : source_file)
    (output_subdir : path) (framework : string) (force : bool) (w : world)
    : result (string * string) * world :=
  let nm := name source_path in
  let ext := Py.lower_string (suffix nm) in
  if mem ext KNOWN_UNSUPPORTED then (Ok ("unsupported", nm), w)
  else if negb (mem ext SUPPORTED_EXTENSIONS) then (Ok ("unsupported", nm), w)
  else
    let stem := stem nm in
    let md_dest := output_subdir ++ [stem +:+ ".md"] in
    let json_dest := output_subdir ++ [stem +:+ ".json"] in
    if negb force && exists_ md_dest w && exists_ json_dest w
    then (Ok ("skipped", nm), w)
    else
      match extract ext source_path w with
      | (Raise (_UnsupportedOscalType _), w) => (Ok ("unsupported", nm), w)
      | (Raise (RuntimeError m), w) => (Ok ("error", m), w)
      | (Raise exc, w) => (Raise exc, w)
      | (Ok [], w) => (Ok ("error", "no text content extracted"), w)
      | (Ok sections, w) =>
          let extracted_at := now e source_path in
          match mkdir e output_subdir w with
          | (Raise exc, w) => (Raise exc, w)
          | (Ok _, w) =>
              match write_both e sections framework nm extracted_at md_dest json_dest w with
              | (Raise (OSError m), w) => (Ok ("error", "write failed: " +:+ m), w)
              | (Raise exc, w) => (Raise exc, w)
              | (Ok _, w) => (Ok ("processed", nm), w)
              end
          end
      end.

(* ===================================================================== *)
(** ** Main entry point                                                   *)
(* ===================================================================== *)

Record NormalizeResult : Type := mkResult {
  processed : list string;
  skipped : list string;
  errors : list (string * string);
  unsupported : list string;
}.

Definition total (r : NormalizeResult) : nat :=
  List.length (processed r) + List.length (skipped r) + List.length (errors r).

(** An entry of the framework registry [SERVICES]. *)
Record service : Type := mkService {
  key : string;
  label : string;
  subdir : string;
}.

(** A path found under a framework directory: its components below that
    directory, whether it is a regular file, and the file behind it. *)
Record entry : Type := mkEntry {
  components : path;
  is_file : bool;
  file : source_file;
}.

(** The source root: for a framework subdirectory, [None] when it does not
    exist, otherwise what [rglob("*")] gives, or the error it raises. *)
Definition source_tree : Type := string -> option (result (list entry)).

(** Paths compare as the lists of their components. *)
Fixpoint path_leb (p q : path) : bool :=
  match p, q with
  | [], _ => true
  | _ :: _, [] => false
  | a :: p', b :: q' =>
      if String.eqb a b then path_leb p' q' else String.leb a b
  end.

Fixpoint insert_entry (x : entry) (l : list entry) : list entry :=
  match l with
  | [] => [x]
  | y :: rest =>
      if path_leb (components x) (components y)
      then x :: l
      else y :: insert_entry x rest
  end.

(** [sorted(svc_source.rglob("*"))] *)
Fixpoint sorted_entries (l : list entry) : list entry :=
  match l with
  | [] => []
  | x :: rest => insert_entry x (sorted_entries rest)
  end.

(** The [if]/[elif] chain that files an outcome in its list. *)
Definition record_outcome (r : NormalizeResult) (nm status msg : string)
    : NormalizeResult :=
  if String.eqb status "processed"
  then mkResult (processed r ++ [msg]) (skipped r) (errors r) (unsupported r)
  else if String.eqb status "skipped"
  then mkResult (processed r) (skipped r ++ [msg]) (errors r) (unsupported r)
  else if String.eqb status "unsupported"
  then mkResult (processed r) (skipped r) (errors r) (unsupported r ++ [msg])
  else mkResult (processed r) (skipped r) (errors r ++ [(nm, msg)]) (unsupported r).

(** The inner loop [for source_path in sorted(...)]. *)
Fixpoint walk_files (e : env) (svc : service) (svc_output : path)
    (force progress_callback : bool) (paths : list entry)
    (r : NormalizeResult) (w : world) : result NormalizeResult * world :=
  match paths with
  | [] => (Ok r, w)
  | source_path :: rest =>
      let nm := name (file source_path) in
      if negb (is_file source_path)
      then walk_files e svc svc_output force progress_callback rest r w
      else if mem nm IGNORE_NAMES || Py.startswith "." nm
      then walk_files e svc svc_output force progress_callback rest r w
      else
        let w :=
          if progress_callback then record_call (Progress (key svc) nm) w else w in
        match _normalize_file e (file source_path) svc_output (key svc) force w with
        | (Raise exc, w) => (Raise exc, w)
        | (Ok (status, msg), w) =>
            walk_files e svc svc_output force progress_callback rest
              (record_outcome r nm status msg) w
        end
  end.

(** The outer loop [for svc in SERVICES]. *)
Fixpoint walk_services (e : env) (source_dir : source_tree) (output_dir : path)
    (force progress_callback : bool) (services : list service)
    (r : NormalizeResult) (w : world) : result NormalizeResult * world :=
  match services with
  | [] => (Ok r, w)
  | svc :: rest =>
      if mem (subdir svc) SKIP_SUBDIRS
      then walk_services e source_dir output_dir force progress_callback rest r w
      else
        match source_dir (subdir svc) with
        | None => walk_services e source_dir output_dir force progress_callback rest r w
        | Some (Raise exc) => (Raise exc, w)
        | Some (Ok found) =>
            let svc_output := output_dir ++ [subdir svc] in
            match
              walk_files e svc svc_output force progress_callback
                (sorted_entries found) r w
            with
            | (Raise exc, w) => (Raise exc, w)
            | (Ok r, w) =>
                walk_services e source_dir output_dir force progress_callback rest r w
            end
        end
  end.

Definition normalize_all (SERVICES : list service) (e : env)
    (source_dir : source_tree) (output_dir : path)
    (force progress_callback : bool) (w : world) : result NormalizeResult * world :=
  walk_services e source_dir output_dir force progress_callback SERVICES
    (mkResult [] [] [] []) w.

(* ===================================================================== *)
(** ** The behaviour the extractors are expected to have                  *)
(* ===================================================================== *)

(** *** Pages *)

(** [enumerate(l, start)] *)
Fixpoint enumerate {A : Type} (start : nat) (l : list A) : list (nat * A) :=
  match l with
  | [] => []
  | x :: rest => (start, x) :: enumerate (S start) rest
  end.

(** The section of a numbered page, and whether the page has text. *)
Definition page_section (p : nat * string) : section :=
  mkSection ("Page " +:+ Py.str_nat (fst p)) 1 (Py.strip (snd p)).

Definition page_has_text (p : nat * string) : bool := Py.truthy (Py.strip (snd p)).

(** *** Catalog controls *)

(** Every non-empty trimmed prose of a part and of its sub-parts, depth
    first. *)
Fixpoint prose_lines (p : part) : list string :=
  match p with
  | Part _ prose parts =>
      let own := Py.strip (default EmptyString prose) in
      (if Py.truthy own then [own] else []) ++ flat_map prose_lines parts
  end.

(** The labelled block of a part: only for a part named "statement" or
    "guidance" that has prose. *)
Definition labelled_block (p : part) : list string :=
  match p with
  | Part part_name _ _ =>
      let prose := Py.join Py.nl (prose_lines p) in
      let label :=
        if String.eqb (default EmptyString part_name) "statement"
        then Some "**Statement**"
        else if String.eqb (default EmptyString part_name) "guidance"
        then Some "**Guidance**"
        else None in
      match label, prose with
      | Some l, String _ _ => [l +:+ Py.nl +:+ prose]
      | _, _ => []
      end
  end.

(** Uppercased id, colon, title; the title alone without an id. *)
Definition control_heading (id title : option string) : string :=
  match Py.upper (default EmptyString id) with
  | EmptyString => default EmptyString title
  | cid => cid +:+ ": " +:+ default EmptyString title
  end.

(** The blocks of the included parts, a blank line between them. *)
Definition control_content (parts : list part) : string :=
  Py.join (Py.nl +:+ Py.nl) (flat_map labelled_block parts).

(** The section of the control itself when it has both a heading and
    content, then those of its enhancements one level down. *)
Fixpoint control_sections (c : control) (lvl : Z) : list section :=
  match c with
  | Control id title parts controls =>
      let h := control_heading id title in
      let body := control_content parts in
      (match h, body with
       | String _ _, String _ _ => [mkSection h lvl body]
       | _, _ => []
       end)
      ++ flat_map (fun enhancement => control_sections enhancement (lvl + 1)) controls
  end.

(** The control of the worked example. *)
Definition ac_1 : control :=
  Control (Some "ac-1") (Some "Policy and Procedures")
    [Part (Some "statement") (Some "Do X.") [];
     Part (Some "guidance") (Some "Additional guidance.") []]
    [].

(** *** Induction over nested parts and controls *)

Section PartInduction.
Variable P : part -> Prop.
Hypothesis step : forall name prose parts,
    Forall P parts -> P (Part name prose parts).

Fixpoint part_nested_ind (p : part) : P p :=
  match p with
  | Part name prose parts =>
      step name prose parts
        ((fix all (l : list part) : Forall P l :=
            match l with
            | [] => List.Forall_nil P
            | x :: rest => @List.Forall_cons _ P x rest (part_nested_ind x) (all rest)
            end) parts)
  end.
End PartInduction.

Section ControlInduction.
Variable P : control -> Prop.
Hypothesis step : forall id title parts controls,
    Forall P controls -> P (Control id title parts controls).

Fixpoint control_nested_ind (c : control) : P c :=
  match c with
  | Control id title parts controls =>
      step id title parts controls
        ((fix all (l : list control) : Forall P l :=
            match l with
            | [] => List.Forall_nil P
            | x :: rest => @List.Forall_cons _ P x rest (control_nested_ind x) (all rest)
            end) controls)
  end.
End ControlInduction.

(** *** Profiles *)

(** The family of a control id: what precedes its first hyphen, in upper
    case. *)
Definition family (cid : string) : string :=
  Py.upper (Py.split_head "-"%char cid).

(** Every id referenced by the imports, occurrence by occurrence. *)
Definition referenced_ids (p : profile) : list string :=
  flat_map (fun imp => flat_map with_ids (include imp)) (imports p).

(** The elements of a list without repetition, by first occurrence. *)
Fixpoint distinct (l : list string) : list string :=
  match l with
  | [] => []
  | x :: rest => x :: List.filter (fun y => negb (String.eqb y x)) (distinct rest)
  end.

(** The ids of one family, in the order of the list. *)
Definition members (fam : string) (ids : list string) : list string :=
  List.filter (fun cid => String.eqb (family cid) fam) ids.

Definition profile_title (p : profile) : string :=
  default "Unknown Profile" (metadata_title p).

(** Summary first, then one section per family in sorted key order; one
    informational section when no id is referenced. *)
Definition profile_sections (p : profile) : list section :=
  match referenced_ids p with
  | [] => [mkSection (profile_title p) 1 "No control IDs found in profile."]
  | ids =>
      let sorted_ids := Py.sorted ids in
      let families := Py.sorted (distinct (List.map family sorted_ids)) in
      mkSection (profile_title p) 1
        ("Total controls: " +:+ Py.str_nat (List.length ids) +:+ Py.nl
         +:+ "Families: " +:+ Py.join ", " families)
      :: List.map
           (fun fam =>
              mkSection (fam +:+ " Controls") 2 (Py.join ", " (members fam sorted_ids)))
           families
  end.

(** The profile of the worked example. *)
Definition three_ids : profile :=
  mkProfile (Some "Baseline") [mkImport [mkInclude ["ac-2"; "ac-1"; "au-3"]]].

(** The dictionary built by [setdefault] and [append]: the distinct keys
    in order of first occurrence, each with the items of that key. *)
Definition grouped (ids : list string) : list (string * list string) :=
  List.map (fun k => (k, members k ids)) (distinct (List.map family ids)).

(** *** The heading walk *)

Definition is_heading (element : node) : bool := mem (element_name element) HEADING_TAGS.
Definition is_block_content (element : node) : bool :=
  mem (element_name element) CONTENT_TAGS.

(** The heading and block-content elements below the container, in
    document order. *)
Definition considered (container : node) : list node :=
  List.filter (fun n => is_heading n || is_block_content n)
    (Soup.descendants container).

(** The rank of a heading tag. *)
Definition rank (element : node) : Z :=
  let nm := element_name element in
  if String.eqb nm "h1" then 1
  else if String.eqb nm "h2" then 2
  else if String.eqb nm "h3" then 3
  else if String.eqb nm "h4" then 4
  else 0.

(** An accumulator flushed: one section when its joined, trimmed lines are
    non-empty, nothing otherwise. *)
Definition flushed (h : string) (lvl : Z) (lines : list string) : list section :=
  match Py.strip (Py.join Py.nl lines) with
  | EmptyString => []
  | body => [mkSection h lvl body]
  end.

(** The line a content element contributes. *)
Definition line_of (element : node) : list string :=
  match Soup.element_text " " element with
  | EmptyString => []
  | text => [text]
  end.

(** The sections of a run of elements met with the accumulator
    [(h, lvl, lines)]. *)
Fixpoint sections_from (h : string) (lvl : Z) (lines : list string)
    (elements : list node) : list section :=
  match elements with
  | [] => flushed h lvl lines
  | element :: rest =>
      if is_heading element
      then flushed h lvl lines
           ++ sections_from (Soup.element_text " " element) (rank element) [] rest
      else sections_from h lvl (lines ++ line_of element) rest
  end.

(** All visible text of the container under the fallback title, when the
    walk produced nothing. *)
Definition or_whole_text (title : string) (container : node)
    (found : list section) : list section :=
  match found with
  | [] =>
      match Soup.element_text Py.nl container with
      | EmptyString => []
      | raw => [mkSection title 1 raw]
      end
  | _ => found
  end.

(** Views of a file that its extension never leads to. *)
Definition not_a_pdf : pdf_view := Raise (RuntimeError "Failed to open file").
Definition not_json : json_view := Raise (ValueError "Expecting value").

Definition pdf_file (nm : string) (doc : pdf_view) : source_file :=
  mkSource nm doc (Ok []) not_json.
Definition html_file (nm : string) (soup : list node) : source_file :=
  mkSource nm not_a_pdf (Ok soup) not_json.
Definition json_file (nm : string) (data : json) : source_file :=
  mkSource nm not_a_pdf (Ok []) (Ok data).

(** [<main><h1>Intro</h1><p>Hello</p><h2>Details</h2><p>World</p></main>] *)
Definition intro_details : list node :=
  [Tag "main" []
     [Tag "h1" [] [Text "Intro"]; Tag "p" [] [Text "Hello"];
      Tag "h2" [] [Text "Details"]; Tag "p" [] [Text "World"]]].

(** *** Nested block content *)

Section NodeInduction.
Variable P : node -> Prop.
Hypothesis text_case : forall s, P (Text s).
Hypothesis comment_case : forall s, P (Comment s).
Hypothesis tag_case : forall nm attrs kids, Forall P kids -> P (Tag nm attrs kids).

Fixpoint node_nested_ind (n : node) : P n :=
  match n with
  | Text s => text_case s
  | Comment s => comment_case s
  | Tag nm attrs kids =>
      tag_case nm attrs kids
        ((fix all (l : list node) : Forall P l :=
            match l with
            | [] => List.Forall_nil P
            | x :: rest => @List.Forall_cons _ P x rest (node_nested_ind x) (all rest)
            end) kids)
  end.
End NodeInduction.

(** A string that begins with a character that is not white space. *)
Definition starts_clean (s : string) : Prop :=
  match s with
  | EmptyString => False
  | String c _ => Py.is_space c = false
  end.

(** Non-empty, with no white space at either end. *)
Definition trimmed (s : string) : Prop := starts_clean s /\ starts_clean (Py.rev s).

(** Two occurrences of [t] in [s], one after the other. *)
Definition occurs_twice (t s : string) : Prop :=
  exists p1 p2 p3 : string, s = p1 +:+ t +:+ p2 +:+ t +:+ p3.

(** How often a character occurs in a string. *)
Fixpoint count_char (c : ascii) (s : string) : nat :=
  match s with
  | EmptyString => 0
  | String d rest => (if Ascii.eqb d c then 1 else 0) + count_char c rest
  end.

(** [<main><li><h2>H</h2><p>x</p></li></main>]: a heading between the
    list item and the paragraph inside it. *)
Definition paragraph_x : node := Tag "p" [] [Text "x"].
Definition item_with_heading : node :=
  Tag "li" [] [Tag "h2" [] [Text "H"]; paragraph_x].
Definition heading_inside_item : list node := [Tag "main" [] [item_with_heading]].

(** [<main><li><p>x</p></li></main>]: the paragraph directly in the item. *)
Definition item_with_paragraph : node := Tag "li" [] [paragraph_x].
Definition paragraph_inside_item : list node := [Tag "main" [] [item_with_paragraph]].

(** [<main><li><p></p></li></main>]: nested elements without text. *)
Definition empty_item : list node :=
  [Tag "main" [] [Tag "li" [] [Tag "p" [] []]]].

(** *** Skip and force *)

Definition extension (nm : string) : string := Py.lower_string (suffix nm).

(** A name whose extension leads to an extractor. *)
Definition supported (nm : string) : bool :=
  negb (mem (extension nm) KNOWN_UNSUPPORTED) && mem (extension nm) SUPPORTED_EXTENSIONS.

(** The two artifacts of a source name under an output directory. *)
Definition md_dest (output_subdir : path) (nm : string) : path :=
  output_subdir ++ [stem nm +:+ ".md"].
Definition json_dest (output_subdir : path) (nm : string) : path :=
  output_subdir ++ [stem nm +:+ ".json"].

(** Both artifacts exist. *)
Definition normalized (output_subdir : path) (nm : string) (w : world) : bool :=
  exists_ (md_dest output_subdir nm) w && exists_ (json_dest output_subdir nm) w.

(** The extractor call made for a name. *)
Definition extractor_call (nm : string) : call :=
  if mem (extension nm) PDF_EXTENSIONS then ExtractPdf nm
  else if mem (extension nm) JSON_EXTENSIONS then ExtractOscalJson nm
  else ExtractHtml nm.

(** Whether a call is one to an extractor or a writer. *)
Definition extracts_or_writes (c : call) : bool :=
  match c with
  | ExtractPdf _ | ExtractOscalJson _ | ExtractHtml _
  | WriteMarkdown _ | WriteJson _ => true
  | Mkdir _ | Progress _ _ => false
  end.

(** The files a run visits, in order: for each framework that is walked,
    its output directory, its key and every eligible file. *)
Record job : Type := mkJob {
  job_output : path;
  job_key : string;
  job_file : source_file;
}.

Definition eligible (x : entry) : bool :=
  is_file x
  && negb (mem (name (file x)) IGNORE_NAMES || Py.startswith "." (name (file x))).

Fixpoint jobs_of (source_dir : source_tree) (output_dir : path)
    (services : list service) : list job :=
  match services with
  | [] => []
  | svc :: rest =>
      if mem (subdir svc) SKIP_SUBDIRS then jobs_of source_dir output_dir rest
      else
        match source_dir (subdir svc) with
        | Some (Ok found) =>
            List.map (fun x => mkJob (output_dir ++ [subdir svc]) (key svc) (file x))
              (List.filter eligible (sorted_entries found))
            ++ jobs_of source_dir output_dir rest
        | _ => jobs_of source_dir output_dir rest
        end
  end.

(** No framework directory that is walked fails to enumerate. *)
Fixpoint enumerable (source_dir : source_tree) (services : list service) : bool :=
  match services with
  | [] => true
  | svc :: rest =>
      if mem (subdir svc) SKIP_SUBDIRS then enumerable source_dir rest
      else
        match source_dir (subdir svc) with
        | Some (Raise _) => false
        | _ => enumerable source_dir rest
        end
  end.

(** The visits one after the other, stopping at the first exception. *)
Fixpoint run_jobs (e : env) (force progress_callback : bool) (jobs : list job)
    (r : NormalizeResult) (w : world) : result NormalizeResult * world :=
  match jobs with
  | [] => (Ok r, w)
  | j :: rest =>
      let nm := name (job_file j) in
      let w := if progress_callback then record_call (Progress (job_key j) nm) w else w in
      match _normalize_file e (job_file j) (job_output j) (job_key j) force w with
      | (Raise exc, w) => (Raise exc, w)
      | (Ok (status, msg), w) =>
          run_jobs e force progress_callback rest (record_outcome r nm status msg) w
      end
  end.

(** The exception an attempt on a file lets through, if any: one raised
    by the extractor that is neither of the two caught, or the failure to
    create the output directory once there are sections to write. *)
Definition attempt_exn (e : env) (source_path : source_file) (output_subdir : path)
    : option exn :=
  let ext := extension (name source_path) in
  let extracted :=
    if mem ext PDF_EXTENSIONS then _extract_pdf source_path
    else if mem ext JSON_EXTENSIONS then _extract_oscal_json source_path
    else _extract_html source_path in
  match extracted with
  | Raise (_UnsupportedOscalType _) => None
  | Raise (RuntimeError _) => None
  | Raise exc => Some exc
  | Ok [] => None
  | Ok _ =>
      match mkdir_fault e output_subdir with
      | Some m => Some (OSError m)
      | None => None
      end
  end.

(** Every file of [w] still exists in [w']. *)
Definition keeps_files (w w' : world) : Prop :=
  forall p : path, is_Some (files w !! p) -> is_Some (files w' !! p).

(** The artifacts of every pair complete in [w] are the same in [w']. *)
Definition keeps_normalized (w w' : world) : Prop :=
  forall (dir : path) (nm : string),
    normalized dir nm w = true ->
    files w' !! md_dest dir nm = files w !! md_dest dir nm
    /\ files w' !! json_dest dir nm = files w !! json_dest dir nm.

(** *** A small source tree *)

(** No write or directory fault, a fixed clock. *)
Definition quiet : env :=
  mkEnv (fun _ => None) (fun _ => None) (fun _ => "2026-01-01T00:00:00").

Definition empty_world : world := mkWorld ∅ [].

Definition one_framework : list service := [mkService "nist" "NIST" "nist"].

Definition guide_pdf : source_file := pdf_file "guide.pdf" (Ok [Ok "hello"]).

Definition guide_tree : source_tree :=
  fun d =>
    if String.eqb d "nist"
    then Some (Ok [mkEntry ["guide.pdf"] true guide_pdf])
    else None.

(** The world after one run over [guide_tree]. *)
Definition after_first_run : world :=
  snd (normalize_all one_framework quiet guide_tree ["out"] false true empty_world).

(** *** Reading a JSON artifact back *)



(** *** Files that are not what the extractors expect *)

(** A JSON file holding the number 5, before a PDF in the same framework. *)
Definition scalar_json : source_file := json_file "a.json" (JNumber 5).

Definition scalar_tree : source_tree :=
  fun d =>
    if String.eqb d "nist"
    then Some (Ok [mkEntry ["guide.pdf"] true guide_pdf;
                   mkEntry ["a.json"] true scalar_json])
    else None.

(** The same tree with an empty JSON object instead. *)
Definition object_tree : source_tree :=
  fun d =>
    if String.eqb d "nist"
    then Some (Ok [mkEntry ["guide.pdf"] true guide_pdf;
                   mkEntry ["a.json"] true (json_file "a.json" (JObject []))])
    else None.

(** A JSON file holding [null]. *)
Definition null_json : source_file := json_file "null.json" JNull.

(** An HTML file without any markup, and one with an empty body. *)
Definition empty_html : source_file := html_file "empty.html" [].
Definition blank_body_html : source_file := html_file "blank.html" [Tag "body" [] []].

(** A profile whose only referenced id is the empty string. *)
Definition empty_id_profile : profile :=
  mkProfile (Some "Baseline") [mkImport [mkInclude [EmptyString]]].

(** An environment in which the output directory cannot be created. *)
Definition no_mkdir : env :=
  mkEnv (fun _ => None) (fun _ => Some "Permission denied")
    (fun _ => "2026-01-01T00:00:00").


(** How many outcomes a result holds, over its four lists. *)
Definition filed (r : NormalizeResult) : nat :=
  List.length (processed r) + List.length (skipped r)
  + List.length (errors r) + List.length (unsupported r).

(** *** The section invariant *)

(** Non-empty content and a level of at least 1. *)
Definition well_formed (s : section) : Prop :=
  content s <> EmptyString /\ (1 <= level s)%Z.

(** *** Outcomes of one attempt *)

(** What the extractor chosen by the extension returns for a file. *)
Definition extraction (source_path : source_file) : result (list section) :=
  if mem (extension (name source_path)) PDF_EXTENSIONS then _extract_pdf source_path
  else if mem (extension (name source_path)) JSON_EXTENSIONS
       then _extract_oscal_json source_path
       else _extract_html source_path.

(** A PDF with only blank pages, one that does not open, a JSON file that
    does not parse and an HTML file that cannot be read. *)
Definition blank_pdf : source_file := pdf_file "scan.pdf" (Ok [Ok "  "; Ok EmptyString]).
Definition broken_pdf : source_file :=
  pdf_file "broken.pdf" (Raise (ValueError "cannot open broken document")).
Definition bad_json : source_file :=
  mkSource "bad.json" not_a_pdf (Ok []) (Raise (ValueError "Expecting value")).
Definition unreadable_html : source_file :=
  mkSource "page.htm" not_a_pdf (Raise (OSError "Permission denied")) not_json.

(** An environment in which the disk is full once the Markdown artifact
    is written: the JSON artifact is created and cut after 40
    characters. *)
Definition no_json_write : env :=
  mkEnv (fun p => if bool_decide (p = ["out"; "nist"; "guide.json"])
                  then Some ("No space left on device", Some 40) else None)
    (fun _ => None) (fun _ => "2026-01-01T00:00:00").

(** An environment in which no file of the output tree can be opened for
    writing. *)
Definition read_only : env :=
  mkEnv (fun _ => Some ("Read-only file system", None))
    (fun _ => None) (fun _ => "2026-01-01T00:00:00").

(** An HTML page with the stem of [guide_pdf]. *)
Definition guide_html : source_file :=
  html_file "guide.html" [Tag "body" [] [Tag "p" [] [Text "Hello"]]].

(** *** What a run files and touches *)

(** Every file name a result holds, over its four lists. *)
Definition names (r : NormalizeResult) : list string :=
  processed r ++ skipped r ++ unsupported r ++ List.map fst (errors r).

(** The entry [x] is one the loops of a run over [SERVICES] get to: a
    regular file with a name that is not ignored, found under the source
    directory of a framework that is not excluded. *)
Definition visited (source_dir : source_tree) (SERVICES : list service)
    (svc : service) (x : entry) : Prop :=
  In svc SERVICES
  /\ mem (subdir svc) SKIP_SUBDIRS = false
  /\ (exists found, source_dir (subdir svc) = Some (Ok found) /\ In x found)
  /\ is_file x = true
  /\ mem (name (file x)) IGNORE_NAMES = false
  /\ Py.startswith "." (name (file x)) = false.

(** A tree with a directory, a hidden file, a README, an archive, a JSON
    object that is no OSCAL document, and [guide_pdf]. *)
Definition mixed_tree : source_tree :=
  fun d =>
    if String.eqb d "nist"
    then Some (Ok [mkEntry ["sub"] false (pdf_file "sub" not_a_pdf);
                   mkEntry [".hidden.pdf"] true (pdf_file ".hidden.pdf" (Ok [Ok "x"]));
                   mkEntry ["README.md"] true (html_file "README.md" []);
                   mkEntry ["sub"; "guide.pdf"] true guide_pdf;
                   mkEntry ["bundle.zip"] true (html_file "bundle.zip" []);
                   mkEntry ["a.json"] true (json_file "a.json" (JObject []))])
    else None.

(** The registry with the excluded framework, whose directory cannot be
    listed, in front. *)
Definition with_stigs : list service :=
  mkService "disa" "DISA STIGs" "disa-stigs" :: one_framework.

Definition stigs_unlistable (tree : source_tree) : source_tree :=
  fun d =>
    if String.eqb d "disa-stigs" then Some (Raise (OSError "Permission denied"))
    else tree d.

(** *** Levels *)

(** A section moved [k] levels down. *)
Definition deeper (k : Z) (s : section) : section :=
  mkSection (heading s) (level s + k) (content s).

(** A catalog object without groups, its controls directly below it. *)
Definition flat_catalog : source_file :=
  json_file "flat.json"
    (JObject
       [("catalog",
         JObject
           [("controls",
             JArray
               [JObject
                  [("id", JString "ac-1"); ("title", JString "Policy");
                   ("parts",
                    JArray [JObject [("name", JString "statement");
                                     ("prose", JString "Do X.")]])]])]);
        ("profile", JObject [])]).

(** *** Rendering and reporting *)

(** The hashes before a heading: one more than the level, six at most,
    none below level 0. *)
Definition heading_marks (lvl : Z) : string :=
  if (lvl <? 0)%Z then EmptyString
  else if (lvl =? 0)%Z then "#"
  else if (lvl =? 1)%Z then "##"
  else if (lvl =? 2)%Z then "###"
  else if (lvl =? 3)%Z then "####"
  else if (lvl =? 4)%Z then "#####"
  else "######".

(** The four lines a section adds to the Markdown text: the heading line,
    a blank line, the content, a blank line. *)
Definition markdown_block (s : section) : list string :=
  [heading_marks (level s) +:+ " " +:+ heading s; EmptyString; content s; EmptyString].

(** The front matter and the title of the Markdown text. *)
Definition markdown_front (framework source_file extracted_at : string) : list string :=
  [ "---";
    "source_file: " +:+ source_file;
    "framework: " +:+ framework;
    "extracted_at: " +:+ Py.quote +:+ extracted_at +:+ Py.quote;
    "---";
    EmptyString;
    "# " +:+ stem source_file;
    EmptyString ].

(** Two sections with the same heading and content, at the same level or
    both at level 5 or deeper. *)
Definition same_but_deep (s s' : section) : Prop :=
  heading s = heading s' /\ content s = content s'
  /\ (level s = level s' \/ (5 <= level s)%Z /\ (5 <= level s')%Z).

(** The progress reports among some calls, in order. *)
Definition reports (cs : list call) : list (string * string) :=
  flat_map (fun c => match c with Progress k nm => [(k, nm)] | _ => [] end) cs.

(** A page whose text is in headings and plain containers only. *)
Definition headings_only : source_file :=
  html_file "intro.html"
    [Tag "body" [] [Tag "h1" [] [Text "Title"]; Tag "div" [] [Text "Some text"]]].

(** *** Around the container *)

(** [<main><p>Hello</p></main>], alone and inside a page with a menu and
    a footer. *)
Definition main_hello : node := Tag "main" [] [Tag "p" [] [Text "Hello"]].

Definition main_alone : source_file := html_file "page.html" [main_hello].

Definition page_with_menu : source_file :=
  html_file "page.htm"
    [Tag "html" []
       [Tag "body" []
          [Tag "nav" [] [Tag "li" [] [Text "Menu"]];
           Tag "h1" [] [Text "Site"];
           main_hello;
           Tag "footer" [] [Tag "p" [] [Text "Contact"]]]]].

(** *** [json.loads] *)

(** The reader of the standard library on the texts the writer can
    produce: objects, arrays, strings with their escapes, integers and
    the three literals, with white space between tokens.  A number with a
    fraction or an exponent, and an escape for a character outside the
    7-bit range, have no value in [json] and are not read. *)
Module Loads.

(** The white space of JSON: space, TAB, LF, CR. *)
Definition is_ws (c : ascii) : bool :=
  let n := nat_of_ascii c in
  ((n =? 32) || (n =? 9) || (n =? 10) || (n =? 13))%nat.

Fixpoint skip_ws (s : string) : string :=
  match s with
  | EmptyString => EmptyString
  | String c rest => if is_ws c then skip_ws rest else s
  end.

(** A decimal digit, as the constructor it stands for. *)
Definition digit (c : ascii) : option (Decimal.uint -> Decimal.uint) :=
  let n := nat_of_ascii c in
  if (n =? 48)%nat then Some Decimal.D0
  else if (n =? 49)%nat then Some Decimal.D1
  else if (n =? 50)%nat then Some Decimal.D2
  else if (n =? 51)%nat then Some Decimal.D3
  else if (n =? 52)%nat then Some Decimal.D4
  else if (n =? 53)%nat then Some Decimal.D5
  else if (n =? 54)%nat then Some Decimal.D6
  else if (n =? 55)%nat then Some Decimal.D7
  else if (n =? 56)%nat then Some Decimal.D8
  else if (n =? 57)%nat then Some Decimal.D9
  else None.

(** The longest run of digits at the head of [s], and what follows. *)
Fixpoint read_uint (s : string) : Decimal.uint * string :=
  match s with
  | EmptyString => (Decimal.Nil, EmptyString)
  | String c rest =>
      match digit c with
      | Some d => let '(u, r) := read_uint rest in (d u, r)
      | None => (Decimal.Nil, s)
      end
  end.

(** Whether what follows the digits makes the number a float. *)
Definition starts_fraction (s : string) : bool :=
  match s with
  | EmptyString => false
  | String c _ =>
      let n := nat_of_ascii c in ((n =? 46) || (n =? 101) || (n =? 69))%nat
  end.

(** An integer: an optional minus sign, then digits without a leading
    zero unless the digits are the single zero. *)
Definition number (s : string) : option (Z * string) :=
  let '(negative, body) :=
    match s with
    | String c rest => if (nat_of_ascii c =? 45)%nat then (true, rest) else (false, s)
    | EmptyString => (false, s)
    end in
  let '(u, rest) := read_uint body in
  match u with
  | Decimal.Nil => None
  | _ =>
      if negb (Decimal.uint_beq (Decimal.unorm u) u) then None
      else if starts_fraction rest then None
      else Some (Z.of_int (if negative : bool then Decimal.Neg u else Decimal.Pos u),
                 rest)
  end.

Definition hex (c : ascii) : option nat :=
  let n := nat_of_ascii c in
  if ((48 <=? n) && (n <=? 57))%nat then Some (n - 48)
  else if ((97 <=? n) && (n <=? 102))%nat then Some (n - 87)
  else if ((65 <=? n) && (n <=? 70))%nat then Some (n - 55)
  else None.

Definition cons_to (c : ascii) (r : option (string * string))
    : option (string * string) :=
  '(t, rest) ← r; Some (String c t, rest).

(** The characters of a string after its opening quote, up to the closing
    quote, and what follows it.  A control character that is not escaped
    is refused. *)
Fixpoint chars (s : string) : option (string * string) :=
  match s with
  | EmptyString => None
  | String c rest =>
      let n := nat_of_ascii c in
      if (n =? 34)%nat then Some (EmptyString, rest)
      else if (n =? 92)%nat then
        match rest with
        | EmptyString => None
        | String e rest =>
            let k := nat_of_ascii e in
            if (k =? 34)%nat then cons_to (ascii_of_nat 34) (chars rest)
            else if (k =? 92)%nat then cons_to (ascii_of_nat 92) (chars rest)
            else if (k =? 47)%nat then cons_to (ascii_of_nat 47) (chars rest)
            else if (k =? 98)%nat then cons_to (ascii_of_nat 8) (chars rest)
            else if (k =? 102)%nat then cons_to (ascii_of_nat 12) (chars rest)
            else if (k =? 110)%nat then cons_to (ascii_of_nat 10) (chars rest)
            else if (k =? 114)%nat then cons_to (ascii_of_nat 13) (chars rest)
            else if (k =? 116)%nat then cons_to (ascii_of_nat 9) (chars rest)
            else if (k =? 117)%nat then
              match rest with
              | String h1 (String h2 (String h3 (String h4 rest))) =>
                  match hex h1, hex h2, hex h3, hex h4 with
                  | Some a, Some b, Some c, Some d =>
                      let code := ((a * 16 + b) * 16 + c) * 16 + d in
                      if (code <? 128)%nat
                      then cons_to (ascii_of_nat code) (chars rest)
                      else None
                  | _, _, _, _ => None
                  end
              | _ => None
              end
            else None
        end
      else if (n <? 32)%nat then None
      else cons_to c (chars rest)
  end.

(** [s] without the prefix [p], when it has it. *)
Fixpoint after (p s : string) : option string :=
  match p, s with
  | EmptyString, _ => Some s
  | String a p', String b s' => if Ascii.eqb a b then after p' s' else None
  | String _ _, EmptyString => None
  end.

(** [dict(pairs)]: a key met again keeps its place and takes the new
    value. *)
Fixpoint set_item (k : string) (v : json) (d : list (string * json))
    : list (string * json) :=
  match d with
  | [] => [(k, v)]
  | (k', v') :: rest =>
      if String.eqb k' k then (k', v) :: rest else (k', v') :: set_item k v rest
  end.

Definition as_dict (pairs : list (string * json)) : list (string * json) :=
  fold_left (fun d kv => set_item (fst kv) (snd kv) d) pairs [].

(** One value at the head of [s], after white space, and what follows
    it.  The fuel bounds the number of values and of items read. *)
Fixpoint value (fuel : nat) (s : string) {struct fuel} : option (json * string) :=
  match fuel with
  | O => None
  | S fuel =>
      match skip_ws s with
      | EmptyString => None
      | String c rest as s' =>
          let n := nat_of_ascii c in
          if (n =? 123)%nat then
            match skip_ws rest with
            | String c' rest' =>
                if (nat_of_ascii c' =? 125)%nat then Some (JObject [], rest')
                else '(pairs, r) ← members fuel rest; Some (JObject (as_dict pairs), r)
            | EmptyString => None
            end
          else if (n =? 91)%nat then
            match skip_ws rest with
            | String c' rest' =>
                if (nat_of_ascii c' =? 93)%nat then Some (JArray [], rest')
                else '(items, r) ← elements fuel rest; Some (JArray items, r)
            | EmptyString => None
            end
          else if (n =? 34)%nat then
            '(t, r) ← chars rest; Some (JString t, r)
          else
            match after "true" s', after "false" s', after "null" s' with
            | Some r, _, _ => Some (JBool true, r)
            | _, Some r, _ => Some (JBool false, r)
            | _, _, Some r => Some (JNull, r)
            | None, None, None => '(z, r) ← number s'; Some (JNumber z, r)
            end
      end
  end
with elements (fuel : nat) (s : string) {struct fuel} : option (list json * string) :=
  match fuel with
  | O => None
  | S fuel =>
      '(v, r) ← value fuel s;
      match skip_ws r with
      | String c r' =>
          if (nat_of_ascii c =? 44)%nat
          then '(vs, r'') ← elements fuel r'; Some (v :: vs, r'')
          else if (nat_of_ascii c =? 93)%nat then Some ([v], r')
          else None
      | EmptyString => None
      end
  end
with members (fuel : nat) (s : string) {struct fuel}
    : option (list (string * json) * string) :=
  match fuel with
  | O => None
  | S fuel =>
      match skip_ws s with
      | String q r =>
          if (nat_of_ascii q =? 34)%nat then
            '(k, r1) ← chars r;
            match skip_ws r1 with
            | String c r2 =>
                if (nat_of_ascii c =? 58)%nat then
                  '(v, r3) ← value fuel r2;
                  match skip_ws r3 with
                  | String c' r4 =>
                      if (nat_of_ascii c' =? 44)%nat
                      then '(ms, r5) ← members fuel r4; Some ((k, v) :: ms, r5)
                      else if (nat_of_ascii c' =? 125)%nat then Some ([(k, v)], r4)
                      else None
                  | EmptyString => None
                  end
                else None
            | EmptyString => None
            end
          else None
      | EmptyString => None
      end
  end.


End Loads.

(** *** Values a dictionary can hold *)





Section JsonInduction.
Variable P : json -> Prop.
Hypothesis null_step : P JNull.
Hypothesis bool_step : forall b, P (JBool b).
Hypothesis number_step : forall n, P (JNumber n).
Hypothesis string_step : forall s, P (JString s).
Hypothesis array_step : forall items, Forall P items -> P (JArray items).
Hypothesis object_step :
  forall members, Forall (fun kv => P (snd kv)) members -> P (JObject members).

End JsonInduction.

(** The lines the walk appends over a container, in order: those of its
    elements that are not headings. *)
Definition lines_appended (container : node) : list string :=
  flat_map line_of
    (List.filter (fun n => negb (is_heading n)) (considered container)).

(** *** White space inside a line *)

(** A text in which white space occurs only as single spaces between
    other characters. *)
Fixpoint collapsed_after (after_space : bool) (s : string) : bool :=
  match s with
  | EmptyString => negb after_space
  | String c rest =>
      if Py.is_space c
      then Ascii.eqb c " " && negb after_space && collapsed_after true rest
      else collapsed_after false rest
  end.

Definition collapsed (s : string) : bool :=
  match s with
  | EmptyString => true
  | String _ _ => collapsed_after true s
  end.

(** [<main><p>a  LF  b</p></main>]: a paragraph whose only string has two
    spaces, a line break and two spaces between its two letters. *)
Definition spaced_text : string := "a  " +:+ Py.nl +:+ "  b".
Definition spaced_paragraph : list node :=
  [Tag "main" [] [Tag "p" [] [Text spaced_text]]].

(* ===================================================================== *)
(** * Statements                                                          *)
(* ===================================================================== *)

(** ** PDF extraction *)

Lemma pdf_pages_read (texts : list string) :
  forall (page_num : nat) (acc : list section),
    pdf_pages page_num (List.map Ok texts) acc
    = Ok (acc ++ List.map page_section
                   (List.filter page_has_text (enumerate page_num texts))).
Proof.
  induction texts as [|t texts IH]; intros page_num acc; simpl.
  - by rewrite app_nil_r.
  - unfold mbind, result_bind. unfold page_has_text at 1. simpl.
    destruct (Py.truthy (Py.strip t)); rewrite IH; [|done].
    by rewrite <- app_assoc.
Qed.

Lemma pdf_pages_abort (before : list string) (exc : exn) (after : list (result string)) :
  forall (page_num : nat) (acc : list section),
    pdf_pages page_num (List.map Ok before ++ Raise exc :: after) acc = Raise exc.
Proof.
  induction before as [|t before IH]; intros page_num acc; simpl; [done|].
  unfold mbind, result_bind.
  destruct (Py.truthy (Py.strip t)); apply IH.
Qed.

Lemma enumerate_In {A : Type} (l : list A) :
  forall (start n : nat) (x : A),
    In (n, x) (enumerate start l) <-> start <= n /\ nth_error l (n - start) = Some x.
Proof.
  induction l as [|y l IH]; intros start n x; simpl.
  - split; [tauto|]. intros [_ H]. by destruct (n - start).
  - rewrite IH. split.
    + intros [H | [Hle Hn]].
      * injection H as -> ->. split; [lia|]. by rewrite Nat.sub_diag.
      * split; [lia|]. replace (n - start) with (S (n - S start)) by lia. done.
    + intros [Hle Hn]. destruct (decide (n = start)) as [-> | Hne].
      * left. rewrite Nat.sub_diag in Hn. simpl in Hn. congruence.
      * right. split; [lia|].
        replace (n - start) with (S (n - S start)) in Hn by lia. done.
Qed.

Lemma filter_enumerate_sorted {A : Type} (f : nat * A -> bool) (l : list A) :
  forall start : nat,
    StronglySorted lt (List.map fst (List.filter f (enumerate start l)))
    /\ Forall (fun n => start <= n) (List.map fst (List.filter f (enumerate start l))).
Proof.
  induction l as [|y l IH]; intros start; simpl.
  - split; constructor.
  - destruct (IH (S start)) as [Hs Hf].
    assert (Hf' : Forall (fun n => start <= n)
                    (List.map fst (List.filter f (enumerate (S start) l)))).
    { eapply Forall_impl; [exact Hf|]. simpl. intros; lia. }
    destruct (f (start, y)); simpl; [|done].
    split.
    + constructor; [done|]. eapply Forall_impl; [exact Hf|]. simpl. intros; lia.
    + constructor; [lia|done].
Qed.

Lemma filter_enumerate_length (l : list string) :
  forall start : nat,
    List.length (List.filter page_has_text (enumerate start l))
    = List.length (List.filter (fun t => Py.truthy (Py.strip t)) l).
Proof.
  induction l as [|y l IH]; intros start; simpl; [done|].
  unfold page_has_text at 1. simpl.
  destruct (Py.truthy (Py.strip y)); simpl; by rewrite IH.
Qed.

Lemma truthy_nonempty (s : string) : Py.truthy s = true <-> s <> EmptyString.
Proof. destruct s; simpl; split; congruence. Qed.

(** C7. A document whose pages all read, of which [k] have non-empty
    trimmed text, gives exactly [k] sections: those of the pages with text,
    in strictly increasing page number, each headed "Page n" at level 1
    with the trimmed text as content.  A failure to open the document, or
    to read any page, gives no sections at all but one [RuntimeError]
    wrapping the cause. *)
Theorem extract_pdf_one_section_per_page (path : source_file) :
  (forall texts : list string,
      pdf path = Ok (List.map Ok texts) ->
      exists pages : list (nat * string),
        _extract_pdf path = Ok (List.map page_section pages)
        /\ List.length (List.map page_section pages)
           = List.length (List.filter (fun t => Py.truthy (Py.strip t)) texts)
        /\ StronglySorted lt (List.map fst pages)
        /\ (forall n t,
              In (n, t) pages
              <-> 1 <= n /\ nth_error texts (n - 1) = Some t
                  /\ Py.strip t <> EmptyString)
        /\ Forall (fun s => level s = 1%Z) (List.map page_section pages))
  /\ (forall exc : exn,
        pdf path = Raise exc ->
        _extract_pdf path = Raise (RuntimeError ("pymupdf failed: " +:+ str_exc exc)))
  /\ (forall (before : list string) (exc : exn) (after : list (result string)),
        pdf path = Ok (List.map Ok before ++ Raise exc :: after) ->
        _extract_pdf path = Raise (RuntimeError ("pymupdf failed: " +:+ str_exc exc))).
Proof.
  repeat split.
  - intros texts Hdoc.
    exists (List.filter page_has_text (enumerate 1 texts)).
    repeat split.
    + unfold _extract_pdf. rewrite Hdoc. simpl.
      unfold mbind, result_bind. by rewrite pdf_pages_read.
    + rewrite length_map. apply filter_enumerate_length.
    + apply filter_enumerate_sorted.
    + rewrite filter_In, enumerate_In in H. tauto.
    + rewrite filter_In, enumerate_In in H. tauto.
    + rewrite filter_In, enumerate_In in H. destruct H as [_ H].
      by apply truthy_nonempty.
    + intros (Hn & Ht & Hs). rewrite filter_In, enumerate_In.
      split; [done|]. by apply truthy_nonempty.
    + apply Forall_forall. intros s Hs. apply list_elem_of_In, in_map_iff in Hs.
      by destruct Hs as (p & <- & _).
  - intros exc Hdoc. unfold _extract_pdf. by rewrite Hdoc.
  - intros before exc after Hdoc. unfold _extract_pdf. rewrite Hdoc. simpl.
    unfold mbind, result_bind. by rewrite pdf_pages_abort.
Qed.

Lemma extract_pdf_one_section_per_page_witness :
  (exists pages : list (nat * string),
      _extract_pdf (pdf_file "guide.pdf" (Ok [Ok " a "; Ok "  "; Ok "b"]))
      = Ok (List.map page_section pages)
      /\ List.length (List.map page_section pages)
         = List.length (List.filter (fun t => Py.truthy (Py.strip t)) [" a "; "  "; "b"])
      /\ StronglySorted lt (List.map fst pages)
      /\ (forall n t,
            In (n, t) pages
            <-> 1 <= n /\ nth_error [" a "; "  "; "b"] (n - 1) = Some t
                /\ Py.strip t <> EmptyString)
      /\ Forall (fun s => level s = 1%Z) (List.map page_section pages))
  /\ _extract_pdf (pdf_file "guide.pdf" (Raise (RuntimeError "cannot open broken document")))
     = Raise (RuntimeError "pymupdf failed: cannot open broken document")
  /\ _extract_pdf (pdf_file "guide.pdf" (Ok [Ok "a"; Raise (ValueError "bad page"); Ok "c"]))
     = Raise (RuntimeError "pymupdf failed: bad page").
Proof.
  split; [|split].
  - apply (proj1 (extract_pdf_one_section_per_page
                    (pdf_file "guide.pdf" (Ok [Ok " a "; Ok "  "; Ok "b"])))
             [" a "; "  "; "b"]).
    reflexivity.
  - apply (proj1 (proj2 (extract_pdf_one_section_per_page
                    (pdf_file "guide.pdf"
                       (Raise (RuntimeError "cannot open broken document")))))
             (RuntimeError "cannot open broken document")).
    reflexivity.
  - apply (proj2 (proj2 (extract_pdf_one_section_per_page
                    (pdf_file "guide.pdf"
                       (Ok [Ok "a"; Raise (ValueError "bad page"); Ok "c"]))))
             ["a"] (ValueError "bad page") [Ok "c"]).
    reflexivity.
Defined.

(** ** Strings and joins *)

Lemma string_app_cons (x : ascii) (a b : string) :
  String x a +:+ b = String x (a +:+ b).
Proof. reflexivity. Qed.

Lemma string_app_empty_l (b : string) : EmptyString +:+ b = b.
Proof. reflexivity. Qed.

Lemma string_app_assoc (a b c : string) : (a +:+ b) +:+ c = a +:+ b +:+ c.
Proof.
  induction a as [|x a IH]; [done|]. rewrite !string_app_cons. by f_equal.
Qed.

Lemma string_app_empty_r (a : string) : a +:+ EmptyString = a.
Proof.
  induction a as [|x a IH]; [done|]. rewrite string_app_cons. by f_equal.
Qed.

Lemma truthy_app_l (a b : string) : Py.truthy a = true -> Py.truthy (a +:+ b) = true.
Proof. by destruct a. Qed.

Lemma join_cons (sep x y : string) (l : list string) :
  Py.join sep (x :: y :: l) = x +:+ sep +:+ Py.join sep (y :: l).
Proof. done. Qed.

Lemma join_app (sep : string) (l1 l2 : list string) :
  l1 <> [] -> l2 <> [] ->
  Py.join sep (l1 ++ l2) = Py.join sep l1 +:+ sep +:+ Py.join sep l2.
Proof.
  intros H1 H2. induction l1 as [|x l1 IH]; [done|].
  destruct l1 as [|y l1].
  - destruct l2 as [|z l2]; [done|]. done.
  - change ((x :: y :: l1) ++ l2) with (x :: y :: (l1 ++ l2)).
    rewrite !join_cons. change (y :: l1 ++ l2) with ((y :: l1) ++ l2).
    rewrite IH by done. by rewrite !string_app_assoc.
Qed.

Lemma join_snoc (sep x : string) (l : list string) :
  l <> [] -> Py.join sep (l ++ [x]) = Py.join sep l +:+ sep +:+ x.
Proof. intros H. by rewrite join_app. Qed.

Lemma join_truthy (sep : string) (l : list string) :
  l <> [] -> Forall (fun s => Py.truthy s = true) l -> Py.truthy (Py.join sep l) = true.
Proof.
  intros Hne Hall. destruct l as [|x l]; [done|].
  apply Forall_cons in Hall as [Hx _].
  destruct l as [|y l]; [done|]. rewrite join_cons. by apply truthy_app_l.
Qed.

Lemma fold_left_extend {A B : Type} (f : A -> list B) (l : list A) :
  forall acc : list B,
    fold_left (fun acc x => acc ++ f x) l acc = acc ++ flat_map f l.
Proof.
  induction l as [|x l IH]; intros acc; simpl.
  - by rewrite app_nil_r.
  - by rewrite IH, <- app_assoc.
Qed.

(** ** Catalog controls *)

Lemma prose_lines_truthy (p : part) :
  Forall (fun s => Py.truthy s = true) (prose_lines p).
Proof.
  induction p as [name prose parts IH] using part_nested_ind. simpl.
  apply Forall_app. split.
  - destruct (Py.truthy (Py.strip (default EmptyString prose))) eqn:E; by repeat constructor.
  - induction IH as [|q parts Hq _ IHparts]; simpl; [constructor|].
    by apply Forall_app.
Qed.

(** The accumulated lines and the flat list of prose give the same text. *)
Lemma collect_prose_fold (parts : list part) :
  Forall (fun q => _collect_prose q = Py.join Py.nl (prose_lines q)) parts ->
  forall lines flat : list string,
    Py.join Py.nl lines = Py.join Py.nl flat ->
    (lines = [] <-> flat = []) ->
    Py.join Py.nl
      (fold_left (fun lines subpart => append_if_truthy lines (_collect_prose subpart))
         parts lines)
    = Py.join Py.nl (flat ++ flat_map prose_lines parts).
Proof.
  induction 1 as [|q parts Hq _ IH]; intros lines flat Hjoin Hnil; simpl.
  - by rewrite app_nil_r.
  - rewrite app_assoc. apply IH; rewrite Hq; unfold append_if_truthy.
    + destruct (prose_lines q) as [|s ss] eqn:E.
      * simpl. by rewrite app_nil_r.
      * rewrite join_truthy; [|done|rewrite <- E; apply prose_lines_truthy].
        destruct lines as [|x lines].
        -- assert (flat = []) as -> by tauto. done.
        -- assert (flat <> []) by (intros ->; destruct Hnil as [_ Hnil]; by specialize (Hnil eq_refl)).
           rewrite join_snoc by done. rewrite join_app by done. by rewrite Hjoin.
    + destruct (prose_lines q) as [|s ss] eqn:E.
      * simpl. by rewrite app_nil_r.
      * rewrite join_truthy; [|done|rewrite <- E; apply prose_lines_truthy].
        split; intros H0; by apply app_eq_nil in H0 as [_ ?].
Qed.

(** Prose is collected depth first from the part and its sub-parts. *)
Lemma collect_prose_depth_first (p : part) :
  _collect_prose p = Py.join Py.nl (prose_lines p).
Proof.
  induction p as [name prose parts IH] using part_nested_ind.
  simpl. unfold append_if_truthy at 2.
  destruct (Py.truthy (Py.strip (default EmptyString prose))) eqn:E.
  - by apply collect_prose_fold.
  - by apply (collect_prose_fold parts IH [] []).
Qed.

Lemma text_parts_step_block (text_parts : list string) (p : part) :
  text_parts_step text_parts p = text_parts ++ labelled_block p.
Proof.
  destruct p as [name prose parts]. unfold text_parts_step, labelled_block.
  rewrite <- collect_prose_depth_first.
  generalize (_collect_prose (Part name prose parts)). intros cp.
  unfold mem. simpl existsb.
  destruct (String.eqb_spec (default EmptyString name) "statement") as [-> | _].
  { destruct cp; [symmetry; apply app_nil_r|reflexivity]. }
  destruct (String.eqb_spec (default EmptyString name) "guidance") as [-> | _].
  { destruct cp; [symmetry; apply app_nil_r|reflexivity]. }
  symmetry; apply app_nil_r.
Qed.

Lemma text_parts_blocks (parts : list part) :
  forall text_parts : list string,
    fold_left text_parts_step parts text_parts
    = text_parts ++ flat_map labelled_block parts.
Proof.
  induction parts as [|p parts IH]; intros text_parts; simpl.
  - by rewrite app_nil_r.
  - by rewrite IH, text_parts_step_block, <- app_assoc.
Qed.

Lemma extract_control_sections_spec (c : control) :
  forall lvl : Z, _extract_control_sections c lvl = control_sections c lvl.
Proof.
  induction c as [id title parts controls IH] using control_nested_ind.
  intros lvl. simpl.
  rewrite text_parts_blocks. simpl.
  fold (control_content parts).
  assert (Hh : (if Py.truthy (Py.upper (default EmptyString id))
                then Py.upper (default EmptyString id) +:+ ": " +:+ default EmptyString title
                else default EmptyString title) = control_heading id title).
  { unfold control_heading. by destruct (Py.upper (default EmptyString id)). }
  rewrite Hh.
  assert (Hsec : (if Py.truthy (control_heading id title) && Py.truthy (control_content parts)
                  then [mkSection (control_heading id title) lvl (control_content parts)]
                  else [])
                 = match control_heading id title, control_content parts with
                   | String _ _, String _ _ =>
                       [mkSection (control_heading id title) lvl (control_content parts)]
                   | _, _ => []
                   end).
  { by destruct (control_heading id title), (control_content parts). }
  rewrite Hsec. clear Hh Hsec.
  generalize (match control_heading id title, control_content parts with
              | String _ _, String _ _ =>
                  [mkSection (control_heading id title) lvl (control_content parts)]
              | _, _ => []
              end).
  induction IH as [|e controls He _ IHc]; intros acc; simpl.
  - by rewrite app_nil_r.
  - rewrite IHc, He. by rewrite <- app_assoc.
Qed.

(** C5. A catalog control yields its own section (heading: uppercased id,
    colon, title, or the title alone without an id; content: the labelled
    blocks of its "statement" and "guidance" parts, prose collected depth
    first, a blank line between blocks) at the level given, only when
    heading and content are both non-empty, followed by the sections of its
    enhancements at the next level.  The control ac-1 of the example gives
    exactly one section. *)
Theorem extract_control_sections_correct :
  (forall (c : control) (lvl : Z),
      _extract_control_sections c lvl = control_sections c lvl)
  /\ (forall p : part, _collect_prose p = Py.join Py.nl (prose_lines p))
  /\ _extract_control_sections ac_1 2
     = [mkSection "AC-1: Policy and Procedures" 2
          ("**Statement**" +:+ Py.nl +:+ "Do X." +:+ Py.nl +:+ Py.nl
           +:+ "**Guidance**" +:+ Py.nl +:+ "Additional guidance.")].
Proof.
  split; [exact extract_control_sections_spec|].
  split; [exact collect_prose_depth_first|].
  reflexivity.
Qed.

(** ** Profiles *)

Lemma insert_sorted_perm (x : string) (l : list string) :
  Permutation (x :: l) (Py.insert_sorted x l).
Proof.
  induction l as [|y l IH]; simpl; [done|].
  destruct (String.leb x y); [done|].
  rewrite perm_swap. by constructor.
Qed.

(** [sorted] keeps every occurrence. *)
Lemma sorted_perm (l : list string) : Permutation l (Py.sorted l).
Proof.
  induction l as [|x l IH]; simpl; [done|].
  rewrite <- insert_sorted_perm. by constructor.
Qed.

Lemma insert_sorted_ordered (x : string) (l : list string) :
  StronglySorted String.le l -> StronglySorted String.le (Py.insert_sorted x l).
Proof.
  induction 1 as [|y l Hl IH Hy]; simpl.
  - repeat constructor.
  - destruct (String.leb x y) eqn:E.
    + constructor; [by constructor|].
      constructor; [unfold String.le; by rewrite E|].
      eapply Forall_impl; [exact Hy|]. intros z Hz. simpl in Hz.
      transitivity y; [|exact Hz]. unfold String.le. by rewrite E.
    + constructor; [done|].
      eapply Permutation_Forall; [apply insert_sorted_perm|].
      constructor; [|done].
      unfold String.le.
      destruct (String.leb_total x y) as [H|H]; [congruence|by rewrite H].
Qed.

(** [sorted] gives a list in code-point order. *)
Lemma sorted_ordered (l : list string) : StronglySorted String.le (Py.sorted l).
Proof.
  induction l as [|x l IH]; simpl; [constructor|].
  by apply insert_sorted_ordered.
Qed.

Lemma all_ids_referenced (p : profile) :
  fold_left
    (fun all_ids imp =>
       fold_left (fun all_ids ic => all_ids ++ with_ids ic) (include imp) all_ids)
    (imports p) []
  = referenced_ids p.
Proof.
  unfold referenced_ids.
  rewrite <- (app_nil_l (flat_map _ (imports p))).
  generalize (@nil string).
  induction (imports p) as [|imp imports IH]; intros acc; simpl.
  - by rewrite app_nil_r.
  - rewrite fold_left_extend, IH. by rewrite <- app_assoc.
Qed.

Lemma distinct_In (l : list string) (x : string) : In x (distinct l) <-> In x l.
Proof.
  induction l as [|y l IH]; simpl; [done|].
  rewrite filter_In, IH.
  destruct (String.eqb_spec x y) as [-> | Hne]; simpl; [tauto|].
  split; [tauto|]. intros [-> | H]; [done|]. right. done.
Qed.

Lemma distinct_NoDup (l : list string) : List.NoDup (distinct l).
Proof.
  induction l as [|y l IH]; simpl; constructor.
  - rewrite filter_In. intros [_ H]. by rewrite String.eqb_refl in H.
  - by apply List.NoDup_filter.
Qed.

Lemma distinct_snoc (l : list string) (x : string) :
  distinct (l ++ [x]) = if mem x l then distinct l else distinct l ++ [x].
Proof.
  induction l as [|y l IH]; simpl; [done|].
  rewrite IH. unfold mem in *. simpl.
  destruct (String.eqb_spec x y) as [-> | Hne]; simpl.
  - destruct (existsb (String.eqb y) l); [done|].
    rewrite List.filter_app. simpl. rewrite String.eqb_refl. simpl.
    by rewrite app_nil_r.
  - destruct (existsb (String.eqb x) l); [done|].
    rewrite List.filter_app. simpl.
    destruct (String.eqb_spec x y); [done|]. done.
Qed.

Lemma mem_In (x : string) (l : list string) : mem x l = true <-> In x l.
Proof.
  unfold mem. rewrite existsb_exists. split.
  - intros (y & Hy & E). apply String.eqb_eq in E. by subst.
  - intros H. exists x. split; [done|]. apply String.eqb_refl.
Qed.

Lemma setdefault_append_present (kc c : string) (g : string -> list string)
    (D : list string) :
  List.NoDup D -> In kc D ->
  setdefault_append kc c (List.map (fun k => (k, g k)) D)
  = List.map (fun k => (k, if String.eqb k kc then g k ++ [c] else g k)) D.
Proof.
  induction D as [|a D IH]; intros Hnd Hin; simpl; [done|].
  apply List.NoDup_cons_iff in Hnd as [Ha Hnd].
  destruct (String.eqb_spec a kc) as [-> | Hne].
  - f_equal. apply map_ext_in. intros k Hk.
    destruct (String.eqb_spec k kc) as [-> | _]; [done|done].
  - f_equal. apply IH; [done|]. destruct Hin; [done|done].
Qed.

Lemma setdefault_append_absent (kc c : string) (g : string -> list string)
    (D : list string) :
  ~ In kc D ->
  setdefault_append kc c (List.map (fun k => (k, g k)) D)
  = List.map (fun k => (k, g k)) D ++ [(kc, [c])].
Proof.
  induction D as [|a D IH]; intros Hin; simpl; [done|].
  destruct (String.eqb_spec a kc) as [-> | Hne].
  - exfalso. apply Hin. by left.
  - f_equal. apply IH. intros H. apply Hin. by right.
Qed.

Lemma members_snoc (k c : string) (ids : list string) :
  members k (ids ++ [c])
  = members k ids ++ (if String.eqb (family c) k then [c] else []).
Proof. unfold members. by rewrite List.filter_app. Qed.

Lemma members_none (k : string) (ids : list string) :
  ~ In k (List.map family ids) -> members k ids = [].
Proof.
  intros H. unfold members. induction ids as [|x ids IH]; simpl; [done|].
  destruct (String.eqb_spec (family x) k) as [E|_].
  - exfalso. apply H. left. done.
  - apply IH. intros H'. apply H. by right.
Qed.

Lemma grouped_snoc (ids : list string) (c : string) :
  setdefault_append (family c) c (grouped ids) = grouped (ids ++ [c]).
Proof.
  unfold grouped. rewrite List.map_app. simpl. rewrite distinct_snoc.
  destruct (mem (family c) (List.map family ids)) eqn:E.
  - apply mem_In in E.
    rewrite setdefault_append_present;
      [|apply distinct_NoDup|by apply distinct_In].
    apply map_ext. intros k. rewrite members_snoc.
    rewrite (String.eqb_sym k).
    destruct (String.eqb (family c) k); [done|by rewrite app_nil_r].
  - assert (Hn : ~ In (family c) (List.map family ids)).
    { intros H. apply mem_In in H. congruence. }
    rewrite setdefault_append_absent by (by rewrite distinct_In).
    rewrite List.map_app. simpl. f_equal.
    + apply map_ext_in. intros k Hk. rewrite members_snoc.
      apply (proj1 (distinct_In _ _)) in Hk.
      destruct (String.eqb_spec (family c) k) as [<- | _]; [by destruct Hn|].
      by rewrite app_nil_r.
    + rewrite members_snoc, members_none by done.
      by rewrite String.eqb_refl.
Qed.

Lemma families_grouped (ids : list string) :
  forall seen : list string,
    fold_left
      (fun families cid =>
         let family := Py.upper (Py.split_head "-"%char cid) in
         setdefault_append family cid families)
      ids (grouped seen)
    = grouped (seen ++ ids).
Proof.
  induction ids as [|c ids IH]; intros seen; simpl.
  - by rewrite app_nil_r.
  - change (Py.upper (Py.split_head "-"%char c)) with (family c).
    rewrite grouped_snoc, IH. by rewrite <- app_assoc.
Qed.

Lemma insert_item_map (g : string -> list string) (x : string) (l : list string) :
  insert_item (x, g x) (List.map (fun k => (k, g k)) l)
  = List.map (fun k => (k, g k)) (Py.insert_sorted x l).
Proof.
  induction l as [|y l IH]; simpl; [done|].
  destruct (String.leb x y); simpl; [done|]. by rewrite IH.
Qed.

Lemma sorted_items_map (g : string -> list string) (l : list string) :
  sorted_items (List.map (fun k => (k, g k)) l)
  = List.map (fun k => (k, g k)) (Py.sorted l).
Proof.
  induction l as [|x l IH]; simpl; [done|].
  by rewrite IH, insert_item_map.
Qed.

Lemma fold_left_snoc_map {A B : Type} (f : A -> B) (l : list A) :
  forall acc : list B,
    fold_left (fun acc x => acc ++ [f x]) l acc = acc ++ List.map f l.
Proof.
  induction l as [|x l IH]; intros acc; simpl.
  - by rewrite app_nil_r.
  - by rewrite IH, <- app_assoc.
Qed.

Lemma extract_profile_spec (p : profile) : _extract_profile p = profile_sections p.
Proof.
  unfold _extract_profile, profile_sections.
  rewrite all_ids_referenced.
  destruct (referenced_ids p) as [|c ids]; [done|].
  set (all := c :: ids).
  change (@nil (string * list string)) with (grouped []).
  rewrite families_grouped. simpl app.
  unfold grouped.
  rewrite (sorted_items_map (fun k => members k (Py.sorted all))).
  rewrite fold_left_snoc_map. rewrite !List.map_map. simpl.
  rewrite List.map_id. reflexivity.
Qed.

(** C4. Profile extraction collects every referenced id, occurrence by
    occurrence, sorts the list, groups it by family keeping the sorted
    order inside a family, and returns the summary section (total count,
    sorted family keys) followed by one level-2 section per family in
    sorted key order; without ids it returns the single informational
    section.  For the ids ac-2, ac-1, au-3 this is the summary, then
    "AC Controls" with "ac-1, ac-2", then "AU Controls" with "au-3". *)
Theorem extract_profile_correct :
  (forall p : profile, _extract_profile p = profile_sections p)
  /\ (forall l : list string,
        Permutation l (Py.sorted l) /\ StronglySorted String.le (Py.sorted l))
  /\ _extract_profile three_ids
     = [mkSection "Baseline" 1
          ("Total controls: 3" +:+ Py.nl +:+ "Families: AC, AU");
        mkSection "AC Controls" 2 "ac-1, ac-2";
        mkSection "AU Controls" 2 "au-3"].
Proof.
  split; [exact extract_profile_spec|].
  split; [|reflexivity].
  intros l. split; [apply sorted_perm|apply sorted_ordered].
Qed.

(** ** The heading walk *)

Lemma flush_flushed (w : walk) :
  flush w = sections w ++ flushed (current_heading w) (current_level w) (current_lines w).
Proof.
  unfold flush, flushed.
  destruct (Py.strip (Py.join Py.nl (current_lines w))); simpl; [by rewrite app_nil_r|done].
Qed.

Lemma heading_rank_rank (element : node) :
  is_heading element = true -> heading_rank (element_name element) = rank element.
Proof.
  unfold is_heading, rank, mem, HEADING_TAGS. simpl existsb.
  destruct (String.eqb_spec (element_name element) "h1") as [-> | _]; [done|].
  destruct (String.eqb_spec (element_name element) "h2") as [-> | _]; [done|].
  destruct (String.eqb_spec (element_name element) "h3") as [-> | _]; [done|].
  destruct (String.eqb_spec (element_name element) "h4") as [-> | _]; [done|].
  done.
Qed.

(** The loop and the run-by-run description give the same sections. *)
Lemma walk_sections_from (elements : list node) :
  forall w : walk,
    flush (fold_left walk_step elements w)
    = sections w
      ++ sections_from (current_heading w) (current_level w) (current_lines w) elements.
Proof.
  induction elements as [|element rest IH]; intros w; simpl.
  - apply flush_flushed.
  - rewrite IH. unfold walk_step. fold (is_heading element).
    destruct (is_heading element) eqn:E; simpl.
    + rewrite heading_rank_rank by done. rewrite flush_flushed. by rewrite <- app_assoc.
    + unfold line_of.
      destruct (Soup.element_text " " element); simpl; [by rewrite app_nil_r|done].
Qed.

Lemma mem_app (x : string) (s t : list string) : mem x (s ++ t) = mem x s || mem x t.
Proof. unfold mem. apply existsb_app. Qed.

Lemma find_all_considered (container : node) :
  Soup.find_all (HEADING_TAGS ++ CONTENT_TAGS) container = considered container.
Proof.
  unfold Soup.find_all, considered. apply filter_ext. intros n.
  unfold is_heading, is_block_content, element_name.
  destruct n as [s|s|nm attrs kids]; [reflexivity|reflexivity|].
  apply mem_app.
Qed.

Lemma extract_html_with_container (path : source_file) (soup : list node)
    (container : node) :
  html path = Ok soup ->
  find_container soup = Some container ->
  _extract_html path
  = Ok (or_whole_text (stem (name path)) container
          (sections_from (stem (name path)) 1 [] (considered container))).
Proof.
  intros Hsoup Hc. unfold _extract_html.
  rewrite Hsoup, Hc. rewrite walk_sections_from, find_all_considered. simpl.
  unfold or_whole_text.
  destruct (sections_from _ _ _ _); [|done].
  by destruct (Soup.element_text Py.nl container).
Qed.

(** ** Trimmed strings *)

Lemma rev_onto_app (s acc : string) : Py.rev_onto s acc = Py.rev s +:+ acc.
Proof.
  unfold Py.rev. revert acc.
  induction s as [|c s IH]; intros acc; simpl; [done|].
  rewrite IH, (IH (String c EmptyString)). by rewrite string_app_assoc.
Qed.

Lemma rev_cons (c : ascii) (s : string) :
  Py.rev (String c s) = Py.rev s +:+ String c EmptyString.
Proof. unfold Py.rev at 1. simpl. apply rev_onto_app. Qed.

Lemma rev_app (a b : string) : Py.rev (a +:+ b) = Py.rev b +:+ Py.rev a.
Proof.
  induction a as [|c a IH].
  - by rewrite string_app_empty_l, string_app_empty_r.
  - rewrite string_app_cons, !rev_cons, IH. by rewrite string_app_assoc.
Qed.

Lemma rev_involutive (s : string) : Py.rev (Py.rev s) = s.
Proof.
  induction s as [|c s IH]; [done|].
  rewrite rev_cons, rev_app, IH. reflexivity.
Qed.

Lemma starts_clean_app (a b : string) : starts_clean a -> starts_clean (a +:+ b).
Proof. by destruct a. Qed.

Lemma starts_clean_truthy (s : string) : starts_clean s -> Py.truthy s = true.
Proof. by destruct s. Qed.

Lemma lstrip_clean (s : string) : starts_clean s -> Py.lstrip s = s.
Proof. destruct s as [|c s]; simpl; [done|]. by intros ->. Qed.

Lemma lstrip_result (s : string) :
  Py.lstrip s = EmptyString \/ starts_clean (Py.lstrip s).
Proof.
  induction s as [|c s IH]; simpl; [by left|].
  destruct (Py.is_space c) eqn:E; [done|]. right. done.
Qed.

(** What [lstrip] removes: a prefix. *)
Lemma lstrip_suffix (s : string) : exists ws : string, s = ws +:+ Py.lstrip s.
Proof.
  induction s as [|c s [ws IH]]; simpl.
  - by exists EmptyString.
  - destruct (Py.is_space c).
    + exists (String c ws). rewrite string_app_cons. by f_equal.
    + by exists EmptyString.
Qed.

Lemma strip_trimmed (s : string) : trimmed s -> Py.strip s = s.
Proof.
  intros [H1 H2]. unfold Py.strip, Py.rstrip.
  rewrite (lstrip_clean s) by done. rewrite (lstrip_clean (Py.rev s)) by done.
  apply rev_involutive.
Qed.

Lemma strip_result (s : string) : Py.strip s = EmptyString \/ trimmed (Py.strip s).
Proof.
  unfold Py.strip, Py.rstrip.
  set (u := Py.lstrip s).
  destruct (lstrip_result (Py.rev u)) as [E | Hv]; [left; by rewrite E|].
  right. split; [|by rewrite rev_involutive].
  destruct (lstrip_suffix (Py.rev u)) as [ws Hws].
  assert (Hu : u = Py.rev (Py.lstrip (Py.rev u)) +:+ Py.rev ws).
  { rewrite <- rev_app, <- Hws. symmetry. apply rev_involutive. }
  destruct (Py.rev (Py.lstrip (Py.rev u))) as [|c r] eqn:Er.
  - apply (f_equal Py.rev) in Er. rewrite rev_involutive in Er.
    rewrite Er in Hv. done.
  - destruct (lstrip_result s) as [E | Hs]; fold u in E || fold u in Hs.
    + rewrite E in Hu. done.
    + rewrite Hu in Hs. exact Hs.
Qed.

Lemma join_starts_clean (sep : string) (l : list string) :
  l <> [] -> Forall starts_clean l -> starts_clean (Py.join sep l).
Proof.
  intros Hne Hall. destruct l as [|x l]; [done|].
  apply Forall_cons in Hall as [Hx _].
  destruct l as [|y l]; [done|]. rewrite join_cons. by apply starts_clean_app.
Qed.

Lemma rev_join (sep : string) (l : list string) :
  Py.rev (Py.join sep l) = Py.join (Py.rev sep) (List.rev (List.map Py.rev l)).
Proof.
  induction l as [|x l IH]; [done|].
  destruct l as [|y l]; [done|].
  rewrite join_cons, !rev_app, IH.
  change (List.map Py.rev (x :: y :: l)) with (Py.rev x :: List.map Py.rev (y :: l)).
  change (List.rev (Py.rev x :: List.map Py.rev (y :: l)))
    with (List.rev (List.map Py.rev (y :: l)) ++ [Py.rev x]).
  rewrite join_snoc; [by rewrite string_app_assoc|].
  simpl. intros H. by apply app_eq_nil in H as [_ ?].
Qed.

Lemma join_trimmed (sep : string) (l : list string) :
  l <> [] -> Forall trimmed l -> trimmed (Py.join sep l).
Proof.
  intros Hne Hall. split.
  - apply join_starts_clean; [done|].
    eapply Forall_impl; [exact Hall|]. by intros s [? _].
  - rewrite rev_join. apply join_starts_clean.
    + intros H. apply (f_equal (@List.length string)) in H.
      rewrite length_rev, length_map in H. by destruct l.
    + apply Forall_rev, Forall_map.
      eapply Forall_impl; [exact Hall|]. by intros s [_ ?].
Qed.

(** The visible text of an element is empty or trimmed. *)
Lemma get_text_result (sep : string) (roots : list node) :
  Soup.get_text sep roots = EmptyString \/ trimmed (Soup.get_text sep roots).
Proof.
  unfold Soup.get_text.
  set (l := List.filter Py.truthy (List.map Py.strip (flat_map Soup.strings roots))).
  destruct l as [|x l'] eqn:E; [by left|].
  right. rewrite <- E. apply join_trimmed; [by rewrite E|].
  apply Forall_forall. intros s Hs. subst l.
  apply list_elem_of_In, filter_In in Hs as [Hin Hs].
  apply in_map_iff in Hin as (r & <- & _).
  destruct (strip_result r) as [E0 | Ht]; [|done].
  rewrite E0 in Hs. done.
Qed.

Lemma line_of_trimmed (element : node) : Forall trimmed (line_of element).
Proof.
  unfold line_of, Soup.element_text.
  destruct (get_text_result " " [element]) as [E | Ht].
  - rewrite E. constructor.
  - destruct (Soup.get_text " " [element]) eqn:E; [constructor|].
    constructor; [exact Ht|constructor].
Qed.

(** Lines that are all trimmed are flushed as they are. *)
Lemma flushed_trimmed (h : string) (lvl : Z) (lines : list string) :
  lines <> [] -> Forall trimmed lines ->
  flushed h lvl lines = [mkSection h lvl (Py.join Py.nl lines)].
Proof.
  intros Hne Hall. unfold flushed.
  pose proof (join_trimmed Py.nl lines Hne Hall) as Ht.
  rewrite strip_trimmed by done.
  destruct Ht as [Ht _]. by destruct (Py.join Py.nl lines).
Qed.

Lemma line_of_strings (element : node) :
  line_of element
  = match
      Py.join " " (List.filter Py.truthy (List.map Py.strip (Soup.strings element)))
    with
    | EmptyString => []
    | text => [text]
    end.
Proof.
  unfold line_of, Soup.element_text, Soup.get_text. simpl. by rewrite app_nil_r.
Qed.

Lemma line_of_one_string (nm : string) (attrs : list (string * string)) (s : string) :
  trimmed s -> line_of (Tag nm attrs [Text s]) = [s].
Proof.
  intros Hs. rewrite line_of_strings. simpl.
  rewrite (strip_trimmed s Hs).
  destruct Hs as [Hs _]. destruct s as [|c s]; [done|]. done.
Qed.

(** C6 (as amended).  With a content container, the extractor walks the
    container's heading and block-content elements in document order,
    keeps the visible text of each content element as one entry under the
    current heading (the fallback title at level 1 to begin with), and at
    each heading, and at the end, flushes the entries as a section exactly
    when their joined, trimmed text is non-empty, before restarting from
    the heading's text and rank.  The visible text of an element is made
    of its strings, each one trimmed, the empty ones dropped, the others
    joined by single spaces: it has no white space at either end, and the
    white space inside a string is kept as it is, so that a string that is
    trimmed already is the entry of the element that holds it alone.  The
    markup of the example gives the sections "Intro" (level 1, "Hello")
    and "Details" (level 2, "World"). *)
Theorem extract_html_heading_walk :
  (forall (path : source_file) (soup : list node) (container : node),
      html path = Ok soup ->
      find_container soup = Some container ->
      _extract_html path
      = Ok (or_whole_text (stem (name path)) container
              (sections_from (stem (name path)) 1 [] (considered container))))
  /\ (forall element : node, Forall trimmed (line_of element))
  /\ _extract_html (html_file "page.html" intro_details)
     = Ok [mkSection "Intro" 1 "Hello"; mkSection "Details" 2 "World"]
  /\ (forall element : node,
        line_of element
        = match
            Py.join " "
              (List.filter Py.truthy (List.map Py.strip (Soup.strings element)))
          with
          | EmptyString => []
          | text => [text]
          end)
  /\ (forall (nm : string) (attrs : list (string * string)) (s : string),
        trimmed s -> line_of (Tag nm attrs [Text s]) = [s]).
Proof.
  split_and!;
    [exact extract_html_with_container|exact line_of_trimmed|reflexivity
    |exact line_of_strings|exact line_of_one_string].
Qed.

Lemma extract_html_heading_walk_witness :
  _extract_html (html_file "page.html" intro_details)
  = Ok (or_whole_text "page" (Tag "main" []
          [Tag "h1" [] [Text "Intro"]; Tag "p" [] [Text "Hello"];
           Tag "h2" [] [Text "Details"]; Tag "p" [] [Text "World"]])
          (sections_from "page" 1 []
             (considered (Tag "main" []
                [Tag "h1" [] [Text "Intro"]; Tag "p" [] [Text "Hello"];
                 Tag "h2" [] [Text "Details"]; Tag "p" [] [Text "World"]])))).
Proof.
  apply (proj1 extract_html_heading_walk
           (html_file "page.html" intro_details) intro_details); reflexivity.
Defined.

(** C6 as stated fails where it has the text of a content element
    collapsed: in [<main><p>a  LF  b</p></main>] the entry of the
    paragraph keeps the two spaces, the line break and the two spaces
    between the letters, and so does the content of the section. *)
Lemma inner_white_space_is_kept :
  find_container spaced_paragraph = Some (Tag "main" [] [Tag "p" [] [Text spaced_text]])
  /\ is_block_content (Tag "p" [] [Text spaced_text]) = true
  /\ line_of (Tag "p" [] [Text spaced_text]) = [spaced_text]
  /\ collapsed spaced_text = false
  /\ collapsed "a b" = true
  /\ _extract_html (html_file "page.html" spaced_paragraph)
     = Ok [mkSection "page" 1 spaced_text]
  /\ ~ (forall element : node,
          Forall (fun line => collapsed line = true) (line_of element)).
Proof.
  split_and!; try reflexivity.
  intros Hall. specialize (Hall (Tag "p" [] [Text spaced_text])).
  apply List.Forall_inv in Hall. vm_compute in Hall. discriminate.
Qed.

(** ** Nested block content *)

Lemma descendants_split (n : node) :
  forall x : node,
    In x (Soup.descendants n) ->
    exists pre post : list node,
      Soup.descendants n = pre ++ x :: Soup.descendants x ++ post.
Proof.
  induction n as [s|s|nm attrs kids IH] using node_nested_ind; intros x Hx;
    [done|done|].
  simpl in Hx |- *. apply in_flat_map in Hx as (k & Hk & Hx).
  destruct (in_split _ _ Hk) as (k1 & k2 & ->).
  rewrite flat_map_app. simpl.
  destruct Hx as [-> | Hx].
  - by exists (flat_map (fun k => k :: Soup.descendants k) k1),
              (flat_map (fun k => k :: Soup.descendants k) k2).
  - apply Forall_app in IH as [_ IH]. apply Forall_cons in IH as [IH _].
    destruct (IH x Hx) as (pre & post & ->).
    exists (flat_map (fun k => k :: Soup.descendants k) k1 ++ k :: pre), 
           (post ++ flat_map (fun k => k :: Soup.descendants k) k2).
    rewrite <- !app_assoc. simpl. rewrite <- !app_assoc. reflexivity.
Qed.

(** The strings of a nested element are among those of the outer one. *)
Lemma strings_split (n : node) :
  forall x : node,
    In x (Soup.descendants n) ->
    exists sa sb : list string, Soup.strings n = sa ++ Soup.strings x ++ sb.
Proof.
  induction n as [s|s|nm attrs kids IH] using node_nested_ind; intros x Hx;
    [done|done|].
  simpl in Hx |- *. apply in_flat_map in Hx as (k & Hk & Hx).
  destruct (in_split _ _ Hk) as (k1 & k2 & ->).
  rewrite flat_map_app. simpl.
  destruct Hx as [-> | Hx].
  - by exists (flat_map Soup.strings k1), (flat_map Soup.strings k2).
  - apply Forall_app in IH as [_ IH]. apply Forall_cons in IH as [IH _].
    destruct (IH x Hx) as (sa & sb & ->).
    exists (flat_map Soup.strings k1 ++ sa), (sb ++ flat_map Soup.strings k2).
    by rewrite <- !app_assoc.
Qed.

Lemma join_infix (sep : string) (X Y Z : list string) :
  Y <> [] ->
  exists p q : string, Py.join sep (X ++ Y ++ Z) = p +:+ Py.join sep Y +:+ q.
Proof.
  intros HY.
  assert (HYZ : exists q, Py.join sep (Y ++ Z) = Py.join sep Y +:+ q).
  { destruct Z as [|z Z].
    - exists EmptyString. by rewrite app_nil_r, string_app_empty_r.
    - exists (sep +:+ Py.join sep (z :: Z)). by apply join_app. }
  destruct HYZ as (q & Hq).
  destruct X as [|x X].
  - exists EmptyString, q. by rewrite string_app_empty_l.
  - exists (Py.join sep (x :: X) +:+ sep), q.
    rewrite join_app; [|done|by destruct Y].
    by rewrite Hq, !string_app_assoc.
Qed.

(** The text of the outer element contains that of the nested one. *)
Lemma nested_text_inside (outer inner : node) :
  In inner (Soup.descendants outer) ->
  Soup.element_text " " inner <> EmptyString ->
  exists a b : string,
    Soup.element_text " " outer = a +:+ Soup.element_text " " inner +:+ b.
Proof.
  intros Hin Hne. unfold Soup.element_text, Soup.get_text in *. simpl in *.
  rewrite !app_nil_r in *.
  destruct (strings_split outer inner Hin) as (sa & sb & ->).
  rewrite !List.map_app, !List.filter_app.
  apply join_infix. intros E. rewrite E in Hne. done.
Qed.

Lemma content_not_heading (n : node) : is_block_content n = true -> is_heading n = false.
Proof.
  unfold is_block_content, is_heading, mem, CONTENT_TAGS. simpl existsb.
  generalize (element_name n). intros nm H.
  destruct (String.eqb_spec nm "p") as [E | _]; [by subst nm|].
  destruct (String.eqb_spec nm "li") as [E | _]; [by subst nm|].
  destruct (String.eqb_spec nm "td") as [E | _]; [by subst nm|].
  destruct (String.eqb_spec nm "th") as [E | _]; [by subst nm|].
  destruct (String.eqb_spec nm "figcaption") as [E | _]; [by subst nm|].
  destruct (String.eqb_spec nm "blockquote") as [E | _]; [by subst nm|].
  done.
Qed.

(** Elements that are not headings only add lines. *)
Lemma sections_from_content (M : list node) :
  Forall (fun n => is_heading n = false) M ->
  forall (h : string) (lvl : Z) (lines : list string) (rest : list node),
    sections_from h lvl lines (M ++ rest)
    = sections_from h lvl (lines ++ flat_map line_of M) rest.
Proof.
  induction 1 as [|n M Hn _ IH]; intros h lvl lines rest; simpl.
  - by rewrite app_nil_r.
  - rewrite Hn, IH. by rewrite <- app_assoc.
Qed.

Lemma flat_map_line_of_trimmed (M : list node) : Forall trimmed (flat_map line_of M).
Proof.
  induction M as [|n M IH]; simpl; [constructor|].
  apply Forall_app. split; [apply line_of_trimmed|done].
Qed.

(** After a prefix of the elements: some finished sections, and an
    accumulator whose lines are trimmed. *)
Lemma sections_from_prefix (A B : list node) :
  forall (h : string) (lvl : Z) (lines : list string),
    Forall trimmed lines ->
    exists (done_ : list section) (h' : string) (lvl' : Z) (lines' : list string),
      sections_from h lvl lines (A ++ B) = done_ ++ sections_from h' lvl' lines' B
      /\ Forall trimmed lines'.
Proof.
  induction A as [|n A IH]; intros h lvl lines Hl; simpl.
  - by exists [], h, lvl, lines.
  - destruct (is_heading n).
    + destruct (IH (Soup.element_text " " n) (rank n) []) as (d & h' & lvl' & l' & -> & Hl');
        [constructor|].
      exists (flushed h lvl lines ++ d), h', lvl', l'. by rewrite <- app_assoc.
    + apply IH. apply Forall_app. split; [done|apply line_of_trimmed].
Qed.

(** The accumulator is flushed with the lines it had, and maybe more. *)
Lemma sections_from_head (B : list node) :
  forall (h : string) (lvl : Z) (lines : list string),
    exists (more : list string) (later : list section),
      sections_from h lvl lines B = flushed h lvl (lines ++ more) ++ later
      /\ Forall trimmed more.
Proof.
  induction B as [|n B IH]; intros h lvl lines; simpl.
  - exists [], []. rewrite !app_nil_r. split; [done|constructor].
  - destruct (is_heading n).
    + exists [], (sections_from (Soup.element_text " " n) (rank n) [] B).
      rewrite app_nil_r. split; [reflexivity|constructor].
    + destruct (IH h lvl (lines ++ line_of n)) as (more & later & -> & Hm).
      exists (line_of n ++ more), later. rewrite <- app_assoc. split; [done|].
      apply Forall_app. split; [apply line_of_trimmed|done].
Qed.

Lemma line_of_text (n : node) :
  Soup.element_text " " n <> EmptyString -> line_of n = [Soup.element_text " " n].
Proof. unfold line_of. by destruct (Soup.element_text " " n). Qed.

Lemma count_char_app (c : ascii) (a b : string) :
  count_char c (a +:+ b) = count_char c a + count_char c b.
Proof.
  induction a as [|d a IH]; [done|].
  rewrite string_app_cons. simpl. rewrite IH. lia.
Qed.

Lemma occurs_twice_count (c : ascii) (s : string) :
  occurs_twice (String c EmptyString) s -> 2 <= count_char c s.
Proof.
  intros (p1 & p2 & p3 & ->). rewrite !count_char_app. simpl.
  rewrite Ascii.eqb_refl. lia.
Qed.

(** The walk over a container in which [inner] follows [outer] with no
    heading in between gives a section holding both lines. *)
Lemma nested_lines_same_section (title : string)
    (A M R : list node) (outer inner : node) :
  is_block_content outer = true ->
  is_block_content inner = true ->
  Forall (fun n => is_heading n = false) M ->
  Soup.element_text " " outer <> EmptyString ->
  Soup.element_text " " inner <> EmptyString ->
  exists (s : section) (before middle rest : list string),
    In s (sections_from title 1 [] (A ++ outer :: M ++ inner :: R))
    /\ content s
       = Py.join Py.nl
           (before ++ [Soup.element_text " " outer] ++ middle
            ++ [Soup.element_text " " inner] ++ rest).
Proof.
  intros Ho Hi HM Hto Hti.
  destruct (sections_from_prefix A (outer :: M ++ inner :: R) title 1 [])
    as (d & h & lvl & lines & -> & Hl); [constructor|].
  simpl sections_from. rewrite (content_not_heading outer Ho).
  rewrite sections_from_content by done.
  simpl sections_from. rewrite (content_not_heading inner Hi).
  destruct (sections_from_head R h lvl
              (((lines ++ line_of outer) ++ flat_map line_of M) ++ line_of inner))
    as (more & later & -> & Hm).
  rewrite !line_of_text by done.
  rewrite flushed_trimmed.
  - eexists _, lines, (flat_map line_of M), more. split.
    + apply in_or_app. right. apply in_or_app. left. left. reflexivity.
    + simpl content. by rewrite <- !app_assoc.
  - intros E. apply app_eq_nil in E as [E _]. apply app_eq_nil in E as [_ E]. done.
  - repeat (apply Forall_app; split); try done.
    + rewrite <- (line_of_text outer) by done. apply line_of_trimmed.
    + apply flat_map_line_of_trimmed.
    + rewrite <- (line_of_text inner) by done. apply line_of_trimmed.
Qed.

Lemma two_lines_twice (before middle rest : list string) (t_out t_in a b : string) :
  t_out = a +:+ t_in +:+ b ->
  occurs_twice t_in
    (Py.join Py.nl (before ++ [t_out] ++ middle ++ [t_in] ++ rest)).
Proof.
  intros ->.
  rewrite app_assoc.
  rewrite join_app; [|by destruct before|by destruct middle].
  destruct (join_infix Py.nl before [a +:+ t_in +:+ b] []) as (p & q & Hp); [done|].
  rewrite app_nil_r in Hp. rewrite Hp.
  destruct (join_infix Py.nl middle [t_in] rest) as (p' & q' & Hq); [done|].
  rewrite Hq. simpl Py.join.
  exists (p +:+ a), (b +:+ q +:+ Py.nl +:+ p'), q'.
  by rewrite !string_app_assoc.
Qed.

(** The line of a content element with visible text is in the content of
    a section. *)
Lemma line_in_a_section (title : string) (A R : list node) (x : node) :
  is_block_content x = true ->
  Soup.element_text " " x <> EmptyString ->
  exists (s : section) (before rest : list string),
    In s (sections_from title 1 [] (A ++ x :: R))
    /\ content s = Py.join Py.nl (before ++ [Soup.element_text " " x] ++ rest).
Proof.
  intros Hx Htx.
  destruct (sections_from_prefix A (x :: R) title 1 [])
    as (d & h & lvl & lines & -> & Hl); [constructor|].
  simpl sections_from. rewrite (content_not_heading x Hx).
  destruct (sections_from_head R h lvl (lines ++ line_of x))
    as (more & later & -> & Hm).
  rewrite !line_of_text by done.
  rewrite flushed_trimmed.
  - eexists _, lines, more. split.
    + apply in_or_app. right. apply in_or_app. left. left. reflexivity.
    + simpl content. by rewrite <- !app_assoc.
  - intros E. apply app_eq_nil in E as [E _]. apply app_eq_nil in E as [_ E]. done.
  - repeat (apply Forall_app; split); try done.
    rewrite <- (line_of_text x) by done. apply line_of_trimmed.
Qed.

Lemma lines_of_content (x : node) (M : list node) :
  is_block_content x = true ->
  Soup.element_text " " x <> EmptyString ->
  flat_map line_of (List.filter (fun n => negb (is_heading n)) (x :: M))
  = Soup.element_text " " x
    :: flat_map line_of (List.filter (fun n => negb (is_heading n)) M).
Proof.
  intros Hx Htx. simpl. rewrite (content_not_heading x Hx). simpl.
  by rewrite line_of_text.
Qed.

(** C10 (as amended).  When, below the chosen container, a block-content
    element with non-empty visible text is nested in another block-content
    element, the extractor appends a line for the outer element, whose
    text includes that of the inner one, and later a separate line for
    the inner element, and each of the two lines is in the content of a
    section returned; when no heading element lies between the two in
    document order, both lines are in the same section, whose content
    therefore holds the inner element's text at least twice. *)
Theorem nested_block_content_repeated
    (path : source_file) (soup : list node) (container outer inner : node)
    (between after : list node) :
  html path = Ok soup ->
  find_container soup = Some container ->
  In outer (Soup.descendants container) ->
  Soup.descendants outer = between ++ inner :: after ->
  is_block_content outer = true ->
  is_block_content inner = true ->
  Soup.element_text " " inner <> EmptyString ->
  exists found : list section,
    _extract_html path = Ok found
    /\ (exists a b : string,
          Soup.element_text " " outer = a +:+ Soup.element_text " " inner +:+ b)
    /\ (exists earlier middle later : list string,
          lines_appended container
          = earlier ++ [Soup.element_text " " outer] ++ middle
            ++ [Soup.element_text " " inner] ++ later)
    /\ (exists (s : section) (before rest : list string),
          In s found
          /\ content s
             = Py.join Py.nl (before ++ [Soup.element_text " " outer] ++ rest))
    /\ (exists (s : section) (before rest : list string),
          In s found
          /\ content s
             = Py.join Py.nl (before ++ [Soup.element_text " " inner] ++ rest))
    /\ (Forall (fun n => is_heading n = false) between ->
        exists (s : section) (before middle rest : list string),
          In s found
          /\ content s
             = Py.join Py.nl
                 (before ++ [Soup.element_text " " outer] ++ middle
                  ++ [Soup.element_text " " inner] ++ rest)
          /\ occurs_twice (Soup.element_text " " inner) (content s)).
Proof.
  intros Hsoup Hc Hout Hin Ho Hi Hti.
  assert (Hnest : In inner (Soup.descendants outer)).
  { rewrite Hin. apply in_or_app. right. by left. }
  destruct (nested_text_inside outer inner Hnest Hti) as (a & b & Hab).
  assert (Hto : Soup.element_text " " outer <> EmptyString).
  { rewrite Hab. intros E. destruct a; [|done].
    rewrite string_app_empty_l in E.
    destruct (Soup.element_text " " inner); done. }
  destruct (descendants_split container outer Hout) as (pre & post & Hd).
  set (f := fun n => is_heading n || is_block_content n).
  assert (Hcons : considered container
                  = List.filter f pre
                    ++ outer :: List.filter f between
                    ++ inner :: (List.filter f after ++ List.filter f post)).
  { unfold considered. fold f. rewrite Hd, Hin.
    rewrite List.filter_app. simpl. unfold f at 2. rewrite Ho, orb_true_r.
    rewrite !List.filter_app. simpl. unfold f at 3. rewrite Hi, orb_true_r.
    by rewrite <- !app_assoc. }
  exists (sections_from (stem (name path)) 1 [] (considered container)).
  split_and!.
  - rewrite (extract_html_with_container path soup container Hsoup Hc).
    unfold or_whole_text.
    destruct (line_in_a_section (stem (name path)) (List.filter f pre)
                (List.filter f between
                 ++ inner :: (List.filter f after ++ List.filter f post))
                outer Ho Hto) as (s & _ & _ & Hs & _).
    rewrite <- Hcons in Hs.
    by destruct (sections_from (stem (name path)) 1 [] (considered container)).
  - by exists a, b.
  - unfold lines_appended. rewrite Hcons.
    set (g := fun n => negb (is_heading n)).
    rewrite List.filter_app, flat_map_app.
    rewrite (lines_of_content outer _ Ho Hto). fold g.
    rewrite List.filter_app, flat_map_app.
    rewrite (lines_of_content inner _ Hi Hti). fold g.
    by eexists _, _, _.
  - destruct (line_in_a_section (stem (name path)) (List.filter f pre)
                (List.filter f between
                 ++ inner :: (List.filter f after ++ List.filter f post))
                outer Ho Hto) as (s & before & rest & Hs & Hcontent).
    rewrite <- Hcons in Hs. by exists s, before, rest.
  - destruct (line_in_a_section (stem (name path))
                (List.filter f pre ++ outer :: List.filter f between)
                (List.filter f after ++ List.filter f post)
                inner Hi Hti) as (s & before & rest & Hs & Hcontent).
    rewrite <- app_assoc in Hs. simpl in Hs. rewrite <- Hcons in Hs.
    by exists s, before, rest.
  - intros Hbetween.
    destruct (nested_lines_same_section (stem (name path)) (List.filter f pre)
                (List.filter f between) (List.filter f after ++ List.filter f post)
                outer inner Ho Hi)
      as (s & before & middle & rest & Hs & Hcontent); [|done|done|].
    { apply Forall_forall. intros n Hn.
      apply list_elem_of_In, filter_In in Hn as [Hn _].
      rewrite Forall_forall in Hbetween. apply Hbetween. by apply list_elem_of_In. }
    rewrite <- Hcons in Hs.
    exists s, before, middle, rest. split_and!; [done|done|].
    rewrite Hcontent. by apply (two_lines_twice _ _ _ _ _ a b).
Qed.

Lemma nested_block_content_repeated_witness :
  exists found : list section,
    _extract_html (html_file "page.html" paragraph_inside_item) = Ok found
    /\ (exists a b : string,
          Soup.element_text " " item_with_paragraph
          = a +:+ Soup.element_text " " paragraph_x +:+ b)
    /\ (exists earlier middle later : list string,
          lines_appended (Tag "main" [] [item_with_paragraph])
          = earlier ++ [Soup.element_text " " item_with_paragraph] ++ middle
            ++ [Soup.element_text " " paragraph_x] ++ later)
    /\ (exists (s : section) (before rest : list string),
          In s found
          /\ content s
             = Py.join Py.nl
                 (before ++ [Soup.element_text " " item_with_paragraph] ++ rest))
    /\ (exists (s : section) (before rest : list string),
          In s found
          /\ content s
             = Py.join Py.nl (before ++ [Soup.element_text " " paragraph_x] ++ rest))
    /\ (Forall (fun n => is_heading n = false) [] ->
        exists (s : section) (before middle rest : list string),
          In s found
          /\ content s
             = Py.join Py.nl
                 (before ++ [Soup.element_text " " item_with_paragraph] ++ middle
                  ++ [Soup.element_text " " paragraph_x] ++ rest)
          /\ occurs_twice (Soup.element_text " " paragraph_x) (content s)).
Proof.
  apply (nested_block_content_repeated
           (html_file "page.html" paragraph_inside_item) paragraph_inside_item
           (Tag "main" [] [item_with_paragraph]) item_with_paragraph paragraph_x
           [] [Text "x"]).
  - reflexivity.
  - reflexivity.
  - simpl. left. reflexivity.
  - reflexivity.
  - reflexivity.
  - reflexivity.
  - vm_compute. discriminate.
Defined.

(** C10 as stated fails when a heading lies between the two elements: in
    [<main><li><h2>H</h2><p>x</p></li></main>] the paragraph is nested in
    the list item, yet the line of the item is flushed at the heading and
    the line of the paragraph lands in the next section, so that no
    section holds the text of the paragraph twice. *)
Lemma nested_text_split_by_heading :
  find_container heading_inside_item = Some (Tag "main" [] [item_with_heading])
  /\ In item_with_heading (Soup.descendants (Tag "main" [] [item_with_heading]))
  /\ In paragraph_x (Soup.descendants item_with_heading)
  /\ is_block_content item_with_heading = true
  /\ is_block_content paragraph_x = true
  /\ Soup.element_text " " paragraph_x = "x"
  /\ _extract_html (html_file "page.html" heading_inside_item)
     = Ok [mkSection "page" 1 "H x"; mkSection "H" 2 "x"]
  /\ ~ (exists s : section,
          In s [mkSection "page" 1 "H x"; mkSection "H" 2 "x"]
          /\ occurs_twice "x" (content s)).
Proof.
  repeat split.
  - simpl. left. reflexivity.
  - simpl. right. right. left. reflexivity.
  - intros (s & Hs & Htwice). apply occurs_twice_count in Htwice.
    destruct Hs as [<- | [<- | []]]; vm_compute in Htwice; lia.
Qed.

(** Nested elements without visible text add no line at all. *)
Lemma nested_without_text_adds_nothing :
  _extract_html (html_file "page.html" empty_item) = Ok [].
Proof. reflexivity. Qed.

(** ** Skip and force *)

Lemma exists_true (p : path) (w : world) : exists_ p w = true <-> is_Some (files w !! p).
Proof. unfold exists_. apply bool_decide_eq_true. Qed.

(** What the two writers do to the world. *)
Lemma write_both_cases (e : env) (sections : list section)
    (framework nm extracted_at : string) (md js : path) (w : world) :
  exists (res : result unit) (w' : world) (later : list call),
    write_both e sections framework nm extracted_at md js w = (res, w')
    /\ calls w' = calls w ++ later
    /\ (forall p, p <> md -> p <> js -> files w' !! p = files w !! p)
    /\ (forall p, is_Some (files w !! p) -> is_Some (files w' !! p))
    /\ match res with
       | Ok _ => is_Some (files w' !! md) /\ is_Some (files w' !! js)
       | Raise exc => exists m, exc = OSError m
       end.
Proof.
  unfold write_both, _write_markdown, _write_json, write_text, record_call. simpl.
  destruct (write_fault e md) as [[m [n|]]|] eqn:Emd; simpl.
  { eexists (Raise (OSError m)), _, [WriteMarkdown md]. simpl.
    split; [reflexivity|]. simpl. split_and!; [done| | |by exists m].
    - intros p Hmd _. by rewrite lookup_insert_ne.
    - intros p Hp. apply lookup_insert_is_Some.
      destruct (decide (md = p)); [by left|by right]. }
  { exists (Raise (OSError m)), (mkWorld (files w) (calls w ++ [WriteMarkdown md])),
      [WriteMarkdown md].
    repeat split; eauto. }
  destruct (write_fault e js) as [[m [n|]]|] eqn:Ejs; simpl.
  - eexists (Raise (OSError m)), _, [WriteMarkdown md; WriteJson js]. simpl.
    split; [reflexivity|]. rewrite <- app_assoc. simpl.
    split_and!; [done| | |by exists m].
    + intros p Hmd Hjs. by rewrite !lookup_insert_ne.
    + intros p Hp. apply lookup_insert_is_Some.
      destruct (decide (js = p)); [by left|right; split; [done|]].
      apply lookup_insert_is_Some.
      destruct (decide (md = p)); [by left|by right].
  - eexists (Raise (OSError m)), _, [WriteMarkdown md; WriteJson js]. simpl.
    split; [reflexivity|]. rewrite <- app_assoc. simpl.
    split_and!; [done| | |by exists m].
    + intros p Hmd _. by rewrite lookup_insert_ne.
    + intros p Hp. apply lookup_insert_is_Some.
      destruct (decide (md = p)); [by left|by right].
  - eexists (Ok tt), _, [WriteMarkdown md; WriteJson js]. simpl.
    split; [reflexivity|]. rewrite <- app_assoc. simpl.
    repeat split.
    + intros p Hmd Hjs. by rewrite !lookup_insert_ne.
    + intros p Hp. apply lookup_insert_is_Some.
      destruct (decide (js = p)); [by left|right; split; [done|]].
      apply lookup_insert_is_Some.
      destruct (decide (md = p)); [by left|by right].
    + apply lookup_insert_is_Some.
      destruct (decide (js = md)); [by left|right; split; [done|]].
      rewrite lookup_insert_eq. eauto.
    + rewrite lookup_insert_eq. eauto.
Qed.

(** A file whose extension leads to no extractor. *)
Lemma normalize_file_unsupported_ext (e : env) (f : source_file) (out : path)
    (framework : string) (force : bool) (w : world) :
  supported (name f) = false ->
  _normalize_file e f out framework force w = (Ok ("unsupported", name f), w).
Proof.
  unfold supported, _normalize_file. fold (extension (name f)).
  destruct (mem (extension (name f)) KNOWN_UNSUPPORTED); [done|].
  cbn [negb andb]. by intros ->.
Qed.

(** A supported file whose two artifacts exist, without force. *)
Lemma normalize_file_skipped (e : env) (f : source_file) (out : path)
    (framework : string) (w : world) :
  supported (name f) = true ->
  normalized out (name f) w = true ->
  _normalize_file e f out framework false w = (Ok ("skipped", name f), w).
Proof.
  unfold supported, normalized, md_dest, json_dest, _normalize_file.
  fold (extension (name f)).
  destruct (mem (extension (name f)) KNOWN_UNSUPPORTED); [done|].
  cbn [negb andb]. intros -> ->. done.
Qed.

(** A supported file that is not skipped: the extractor is called first,
    only the two artifacts can change, nothing disappears, and the outcome
    is as [attempt_exn] says. *)
Lemma normalize_file_attempted (e : env) (f : source_file) (out : path)
    (framework : string) (force : bool) (w : world) :
  supported (name f) = true ->
  force = true \/ normalized out (name f) w = false ->
  exists (res : result (string * string)) (w' : world) (later : list call),
    _normalize_file e f out framework force w = (res, w')
    /\ calls w' = calls w ++ extractor_call (name f) :: later
    /\ (forall p, p <> md_dest out (name f) -> p <> json_dest out (name f) ->
                  files w' !! p = files w !! p)
    /\ (forall p, is_Some (files w !! p) -> is_Some (files w' !! p))
    /\ match res with
       | Raise exc => attempt_exn e f out = Some exc
       | Ok (status, msg) =>
           attempt_exn e f out = None
           /\ (status = "processed" /\ msg = name f /\ normalized out (name f) w' = true
               \/ status = "unsupported" /\ msg = name f
               \/ status = "error")
       end.
Proof.
  intros Hsup Hatt.
  unfold supported in Hsup. unfold _normalize_file. fold (extension (name f)).
  destruct (mem (extension (name f)) KNOWN_UNSUPPORTED); [done|].
  cbn [negb andb] in Hsup. rewrite Hsup. cbn [negb].
  fold (md_dest out (name f)) (json_dest out (name f)).
  assert (Hskip : negb force && exists_ (md_dest out (name f)) w
                  && exists_ (json_dest out (name f)) w = false).
  { destruct Hatt as [-> | Hn]; [done|]. unfold normalized in Hn.
    rewrite <- andb_assoc, Hn. apply andb_false_r. }
  rewrite Hskip. clear Hskip Hatt.
  unfold extract, attempt_exn, extractor_call.
  set (extracted :=
         if mem (extension (name f)) PDF_EXTENSIONS then _extract_pdf f
         else if mem (extension (name f)) JSON_EXTENSIONS then _extract_oscal_json f
         else _extract_html f).
  set (c := if mem (extension (name f)) PDF_EXTENSIONS then ExtractPdf (name f)
            else if mem (extension (name f)) JSON_EXTENSIONS
                 then ExtractOscalJson (name f)
                 else ExtractHtml (name f)).
  assert (Hex : (if mem (extension (name f)) PDF_EXTENSIONS
                 then (_extract_pdf f, record_call (ExtractPdf (name f)) w)
                 else if mem (extension (name f)) JSON_EXTENSIONS
                      then (_extract_oscal_json f,
                            record_call (ExtractOscalJson (name f)) w)
                      else (_extract_html f, record_call (ExtractHtml (name f)) w))
                = (extracted, record_call c w)).
  { subst extracted c.
    destruct (mem (extension (name f)) PDF_EXTENSIONS); [done|].
    by destruct (mem (extension (name f)) JSON_EXTENSIONS). }
  rewrite Hex. clear Hex.
  destruct extracted as [[|s secs]|exc].
  - eexists _, _, []. split; [reflexivity|]. simpl. repeat split; eauto.
  - unfold mkdir.
    destruct (mkdir_fault e out) as [m|] eqn:Emk.
    + eexists _, _, [Mkdir out]. split; [reflexivity|]. simpl.
      rewrite <- app_assoc. repeat split; eauto.
    + destruct (write_both_cases e (s :: secs) framework (name f) (now e f)
                  (md_dest out (name f)) (json_dest out (name f))
                  (record_call (Mkdir out) (record_call c w)))
        as (res & w' & later & -> & Hcalls & Hframe & Hmono & Hres).
      simpl in Hcalls, Hframe, Hmono.
      rewrite <- !app_assoc in Hcalls. simpl in Hcalls.
      destruct res as [[]|exc].
      * eexists _, _, _. split; [reflexivity|].
        repeat split; eauto. left. repeat split.
        unfold normalized. destruct Hres as [H1 H2].
        apply andb_true_iff. split; by apply exists_true.
      * destruct Hres as (m & ->).
        eexists _, _, _. split; [reflexivity|]. repeat split; eauto.
  - destruct exc; eexists _, _, []; (split; [reflexivity|]); simpl;
      repeat split; eauto.
Qed.

(** ** Runs as sequences of visits *)

Local Arguments mem : simpl never.

Lemma walk_files_jobs (e : env) (svc : service) (out : path)
    (force progress_callback : bool) (paths : list entry) :
  forall (r : NormalizeResult) (w : world),
    walk_files e svc out force progress_callback paths r w
    = run_jobs e force progress_callback
        (List.map (fun x => mkJob out (key svc) (file x)) (List.filter eligible paths))
        r w.
Proof.
  induction paths as [|x paths IH]; intros r w; simpl; [done|].
  unfold eligible at 1.
  destruct (is_file x); simpl; [|apply IH].
  destruct (mem (name (file x)) IGNORE_NAMES || Py.startswith "." (name (file x)));
    simpl; [apply IH|].
  destruct (_normalize_file e (file x) out (key svc) force _) as [[[status msg]|exc] w'];
    [apply IH|done].
Qed.

Lemma run_jobs_app (e : env) (force progress_callback : bool) (l1 l2 : list job) :
  forall (r : NormalizeResult) (w : world),
    run_jobs e force progress_callback (l1 ++ l2) r w
    = match run_jobs e force progress_callback l1 r w with
      | (Ok r', w') => run_jobs e force progress_callback l2 r' w'
      | (Raise exc, w') => (Raise exc, w')
      end.
Proof.
  induction l1 as [|j l1 IH]; intros r w; simpl; [done|].
  destruct (_normalize_file e (job_file j) (job_output j) (job_key j) force _)
    as [[[status msg]|exc] w']; [apply IH|done].
Qed.

(** With an enumerable source root the run is the sequence of its visits. *)
Lemma walk_services_jobs (e : env) (source_dir : source_tree) (output_dir : path)
    (force progress_callback : bool) (services : list service) :
  enumerable source_dir services = true ->
  forall (r : NormalizeResult) (w : world),
    walk_services e source_dir output_dir force progress_callback services r w
    = run_jobs e force progress_callback (jobs_of source_dir output_dir services) r w.
Proof.
  induction services as [|svc services IH]; intros Hen r w; simpl in *; [done|].
  destruct (mem (subdir svc) SKIP_SUBDIRS); [by apply IH|].
  destruct (source_dir (subdir svc)) as [[found|exc]|]; [|done|by apply IH].
  rewrite run_jobs_app, walk_files_jobs.
  destruct (run_jobs e force progress_callback _ r w) as [[r'|exc] w']; [|done].
  by apply IH.
Qed.

(** A framework directory that fails to enumerate ends the run. *)
Lemma walk_services_not_enumerable (e : env) (source_dir : source_tree)
    (output_dir : path) (force progress_callback : bool) (services : list service) :
  enumerable source_dir services = false ->
  forall (r : NormalizeResult) (w : world),
    exists (exc : exn) (w' : world),
      walk_services e source_dir output_dir force progress_callback services r w
      = (Raise exc, w').
Proof.
  induction services as [|svc services IH]; intros Hen r w; simpl in *; [done|].
  destruct (mem (subdir svc) SKIP_SUBDIRS); [by apply IH|].
  destruct (source_dir (subdir svc)) as [[found|exc]|]; [|by eauto|by apply IH].
  destruct (walk_files e svc _ force progress_callback _ r w) as [[r'|exc] w'];
    [by apply IH|by eauto].
Qed.

Lemma string_app_inv_tail (s s' t : string) : s +:+ t = s' +:+ t -> s = s'.
Proof.
  intros H. apply (f_equal Py.rev) in H. rewrite !rev_app in H.
  apply (inj (String.append (Py.rev t))) in H.
  apply (f_equal Py.rev) in H. by rewrite !rev_involutive in H.
Qed.

Lemma md_is_not_json (s s' : string) : s +:+ ".md" <> s' +:+ ".json".
Proof.
  intros H. apply (f_equal Py.rev) in H. rewrite !rev_app in H.
  vm_compute (Py.rev ".md") in H. vm_compute (Py.rev ".json") in H.
  rewrite !string_app_cons in H. discriminate.
Qed.

(** Distinct pairs of artifacts share no path. *)
Lemma artifacts_apart (dir dir' : path) (nm nm' : string) (w : world) :
  normalized dir' nm' w = true ->
  normalized dir nm w = false ->
  md_dest dir' nm' <> md_dest dir nm /\ md_dest dir' nm' <> json_dest dir nm
  /\ json_dest dir' nm' <> md_dest dir nm /\ json_dest dir' nm' <> json_dest dir nm.
Proof.
  intros Hn' Hn. unfold md_dest, json_dest.
  assert (Hsame : dir' = dir -> stem nm' = stem nm -> False).
  { intros Hd Hs. unfold normalized, md_dest, json_dest in *.
    rewrite Hd, Hs in Hn'. congruence. }
  repeat split; intros H; apply app_inj_tail in H as [Hd Hs].
  - apply string_app_inv_tail in Hs. by apply Hsame.
  - by apply md_is_not_json in Hs.
  - symmetry in Hs. by apply md_is_not_json in Hs.
  - apply string_app_inv_tail in Hs. by apply Hsame.
Qed.

Lemma normalized_kept (dir : path) (nm : string) (w w' : world) :
  keeps_files w w' -> normalized dir nm w = true -> normalized dir nm w' = true.
Proof.
  intros Hk. unfold normalized. rewrite !andb_true_iff, !exists_true.
  intros [H1 H2]. split; by apply Hk.
Qed.

Lemma record_outcome_processed (r : NormalizeResult) (nm status msg : string) :
  processed (record_outcome r nm status msg)
  = if String.eqb status "processed" then processed r ++ [msg] else processed r.
Proof.
  unfold record_outcome.
  destruct (String.eqb status "processed"); [done|].
  destruct (String.eqb status "skipped"); [done|].
  by destruct (String.eqb status "unsupported").
Qed.

Lemma record_outcome_skipped (r : NormalizeResult) (nm status msg : string) :
  skipped (record_outcome r nm status msg)
  = if String.eqb status "skipped" then skipped r ++ [msg] else skipped r.
Proof.
  unfold record_outcome.
  destruct (String.eqb_spec status "processed") as [-> | _]; [done|].
  destruct (String.eqb status "skipped"); [done|].
  by destruct (String.eqb status "unsupported").
Qed.

Lemma normalized_progress (dir : path) (nm : string) (b : bool) (c : call) (w : world) :
  normalized dir nm (if b then record_call c w else w) = normalized dir nm w.
Proof. by destruct b. Qed.

Lemma files_progress (b : bool) (c : call) (w : world) :
  files (if b then record_call c w else w) = files w.
Proof. by destruct b. Qed.

Lemma keeps_files_trans (w1 w2 w3 : world) :
  keeps_files w1 w2 -> keeps_files w2 w3 -> keeps_files w1 w3.
Proof. intros H1 H2 p Hp. by apply H2, H1. Qed.

(** What a completed run leaves behind: nothing has disappeared, every
    name filed as processed belongs to a visited file whose two artifacts
    exist, and every visited file either has its two artifacts or is one
    whose attempt lets no exception through. *)
Lemma run_jobs_completed (e : env) (force progress_callback : bool) (jobs : list job) :
  forall (r : NormalizeResult) (w : world) (r' : NormalizeResult) (w' : world),
    run_jobs e force progress_callback jobs r w = (Ok r', w') ->
    keeps_files w w'
    /\ (forall nm,
          In nm (processed r') ->
          In nm (processed r)
          \/ exists j, In j jobs /\ name (job_file j) = nm
                       /\ supported nm = true
                       /\ normalized (job_output j) nm w' = true)
    /\ (forall j,
          In j jobs -> supported (name (job_file j)) = true ->
          normalized (job_output j) (name (job_file j)) w' = true
          \/ attempt_exn e (job_file j) (job_output j) = None).
Proof.
  induction jobs as [|j jobs IH]; intros r w r' w' Hrun; simpl in Hrun.
  { injection Hrun as <- <-. split_and!; [by intros p|by left|by intros j []]. }
  set (nm := name (job_file j)) in *.
  set (wp := if progress_callback then record_call (Progress (job_key j) nm) w else w) in *.
  assert (Hwp : files wp = files w) by apply files_progress.
  destruct (supported nm) eqn:Hsup.
  - assert (Hcase : force = false /\ normalized (job_output j) nm wp = true
                    \/ (force = true \/ normalized (job_output j) nm wp = false)).
    { destruct force; [by right; left|].
      destruct (normalized (job_output j) nm wp); [by left|by right; right]. }
    destruct Hcase as [[-> Hnorm] | Hatt].
    + rewrite normalize_file_skipped in Hrun by done.
      destruct (IH _ _ _ _ Hrun) as (Hk & Hp & Ha).
      split_and!.
      * intros p Hpp. apply Hk. by rewrite Hwp.
      * intros x Hx. destruct (Hp x Hx) as [Hin | (j' & ? & ? & ? & ?)].
        -- left. by rewrite record_outcome_processed in Hin.
        -- right. exists j'. split_and!; try done. by right.
      * intros j' [<- | Hj'] Hs; [|by apply Ha].
        left. by apply (normalized_kept _ _ wp).
    + destruct (normalize_file_attempted e (job_file j) (job_output j) (job_key j)
                  force wp Hsup Hatt)
        as (res & w'' & later & Hnf & _ & _ & Hmono & Hres).
      fold nm in Hnf. rewrite Hnf in Hrun.
      destruct res as [[status msg]|exc]; [|done].
      destruct Hres as (Hexn & Hstatus).
      destruct (IH _ _ _ _ Hrun) as (Hk & Hp & Ha).
      split_and!.
      * intros p Hpp. apply Hk, Hmono. by rewrite Hwp.
      * intros x Hx. destruct (Hp x Hx) as [Hin | (j' & ? & ? & ? & ?)].
        -- rewrite record_outcome_processed in Hin.
           destruct (String.eqb_spec status "processed") as [-> | _]; [|by left].
           apply in_app_or in Hin as [Hin | [<- | []]]; [by left|].
           destruct Hstatus as [(_ & -> & Hn) | [(? & _) | ?]]; [|done|done].
           right. exists j. split_and!; try done; [by left|].
           by apply (normalized_kept _ _ w'').
        -- right. exists j'. split_and!; try done. by right.
      * intros j' [<- | Hj'] Hs; [by right|by apply Ha].
  - rewrite normalize_file_unsupported_ext in Hrun by done.
    destruct (IH _ _ _ _ Hrun) as (Hk & Hp & Ha).
    split_and!.
    + intros p Hpp. apply Hk. by rewrite Hwp.
    + intros x Hx. destruct (Hp x Hx) as [Hin | (j' & ? & ? & ? & ?)].
      * left. by rewrite record_outcome_processed in Hin.
      * right. exists j'. split_and!; try done. by right.
    + intros j' [<- | Hj'] Hs; [unfold nm in Hsup; congruence|by apply Ha].
Qed.

(** A run without force from a world that holds at least the files of
    [w1]: the artifacts of the pairs complete in [w1] stay as they are; if
    the run completes, every visited file with its two artifacts in [w1]
    is filed as skipped; if it does not, the exception is the one that the
    attempt on a visited file without its two artifacts lets through. *)
Lemma run_jobs_again (e : env) (progress_callback : bool) (w1 : world)
    (jobs : list job) :
  forall (r : NormalizeResult) (w : world),
    keeps_files w1 w -> keeps_normalized w1 w ->
    exists (res : result NormalizeResult) (w' : world),
      run_jobs e false progress_callback jobs r w = (res, w')
      /\ keeps_files w1 w' /\ keeps_normalized w1 w'
      /\ match res with
         | Ok r' =>
             (forall nm, In nm (skipped r) -> In nm (skipped r'))
             /\ (forall j,
                   In j jobs -> supported (name (job_file j)) = true ->
                   normalized (job_output j) (name (job_file j)) w1 = true ->
                   In (name (job_file j)) (skipped r'))
         | Raise exc =>
             exists j,
               In j jobs /\ supported (name (job_file j)) = true
               /\ normalized (job_output j) (name (job_file j)) w1 = false
               /\ attempt_exn e (job_file j) (job_output j) = Some exc
         end.
Proof.
  induction jobs as [|j jobs IH]; intros r w Hkf Hkn; simpl.
  { exists (Ok r), w. split_and!; done. }
  set (nm := name (job_file j)) in *.
  set (wp := if progress_callback then record_call (Progress (job_key j) nm) w else w) in *.
  assert (Hwp : files wp = files w) by apply files_progress.
  assert (Hkf' : keeps_files w1 wp) by (intros p Hp; rewrite Hwp; by apply Hkf).
  assert (Hkn' : keeps_normalized w1 wp).
  { intros dir x Hx. rewrite Hwp. by apply Hkn. }
  destruct (supported nm) eqn:Hsup.
  - destruct (normalized (job_output j) nm wp) eqn:Hnorm.
    + rewrite normalize_file_skipped by done. fold nm.
      destruct (IH (record_outcome r nm "skipped" nm) wp Hkf' Hkn')
        as (res & w' & -> & Hkf2 & Hkn2 & Hres).
      exists res, w'. split_and!; try done.
      destruct res as [r'|exc].
      * destruct Hres as [Hsk Hall]. split.
        -- intros x Hx. apply Hsk. rewrite record_outcome_skipped. simpl.
           apply in_or_app. by left.
        -- intros j' [<- | Hj'] Hs Hn; [|by apply Hall].
           apply Hsk. rewrite record_outcome_skipped. simpl.
           apply in_or_app. right. by left.
      * destruct Hres as (j' & ? & ? & ? & ?). exists j'. split_and!; try done.
        by right.
    + assert (Hnot : normalized (job_output j) nm w1 = false).
      { destruct (normalized (job_output j) nm w1) eqn:E; [|done].
        apply (normalized_kept _ _ _ wp Hkf') in E. congruence. }
      destruct (normalize_file_attempted e (job_file j) (job_output j) (job_key j)
                  false wp Hsup (or_intror Hnorm))
        as (res & w'' & later & Hnf & _ & Hframe & Hmono & Hres).
      fold nm in Hnf, Hframe. rewrite Hnf.
      assert (Hkf2 : keeps_files w1 w'') by (intros p Hp; by apply Hmono, Hkf').
      assert (Hkn2 : keeps_normalized w1 w'').
      { intros dir x Hx.
        destruct (artifacts_apart (job_output j) dir nm x w1 Hx Hnot)
          as (H1 & H2 & H3 & H4).
        destruct (Hkn' dir x Hx) as [<- <-].
        split; by apply Hframe. }
      destruct res as [[status msg]|exc].
      * destruct Hres as (_ & Hstatus).
        destruct (IH (record_outcome r nm status msg) w'' Hkf2 Hkn2)
          as (res & w' & -> & Hkf3 & Hkn3 & Hres).
        assert (Hns : String.eqb status "skipped" = false).
        { by destruct Hstatus as [(-> & _) | [(-> & _) | ->]]. }
        exists res, w'. split_and!; try done.
        destruct res as [r'|exc].
        -- destruct Hres as [Hsk Hall]. split.
           ++ intros x Hx. apply Hsk. by rewrite record_outcome_skipped, Hns.
           ++ intros j' [<- | Hj'] Hs Hn; [unfold nm in *; congruence|by apply Hall].
        -- destruct Hres as (j' & ? & ? & ? & ?). exists j'. split_and!; try done.
           by right.
      * exists (Raise exc), w''. split_and!; try done.
        exists j. split_and!; try done. by left.
  - rewrite normalize_file_unsupported_ext by done. fold nm.
    destruct (IH (record_outcome r nm "unsupported" nm) wp Hkf' Hkn')
      as (res & w' & -> & Hkf2 & Hkn2 & Hres).
    exists res, w'. split_and!; try done.
    destruct res as [r'|exc].
    + destruct Hres as [Hsk Hall]. split.
      * intros x Hx. apply Hsk. by rewrite record_outcome_skipped.
      * intros j' [<- | Hj'] Hs Hn; [unfold nm in *; congruence|by apply Hall].
    + destruct Hres as (j' & ? & ? & ? & ?). exists j'. split_and!; try done.
      by right.
Qed.

Lemma attempt_exn_mkdir (e1 e2 : env) (f : source_file) (out : path) :
  (forall dir, mkdir_fault e1 dir = None -> mkdir_fault e2 dir = None) ->
  attempt_exn e1 f out = None -> attempt_exn e2 f out = None.
Proof.
  intros Hmk. unfold attempt_exn.
  destruct (if mem _ PDF_EXTENSIONS then _ else _) as [[|s l]|exc]; try done.
  destruct (mkdir_fault e1 out) eqn:E; [done|]. by rewrite (Hmk out E).
Qed.

Lemma normalize_all_enumerable (SERVICES : list service) (e : env)
    (source_dir : source_tree) (output_dir : path) (force progress_callback : bool)
    (w : world) (r : NormalizeResult) (w' : world) :
  normalize_all SERVICES e source_dir output_dir force progress_callback w = (Ok r, w') ->
  enumerable source_dir SERVICES = true.
Proof.
  intros Hrun. destruct (enumerable source_dir SERVICES) eqn:E; [done|].
  destruct (walk_services_not_enumerable e source_dir output_dir force
              progress_callback SERVICES E (mkResult [] [] [] []) w) as (exc & w2 & H).
  unfold normalize_all in Hrun. congruence.
Qed.

(** C8. A supported file whose two artifacts exist is, without force,
    given the status skipped, which files its name in the skipped list,
    with the world left as it is: no extractor or writer is called and no
    artifact changes.  Hence a run without force after a
    completed run over the same source tree leaves the artifacts of every
    complete pair as they are, files every previously processed name as
    skipped, and completes whenever the output directories the first run
    could create can still be created.  With force, the extractor of a
    supported file is called whatever exists already. *)
Theorem skip_is_idempotent_force_reextracts :
  (forall (e : env) (f : source_file) (out : path) (framework : string) (w : world),
      supported (name f) = true ->
      normalized out (name f) w = true ->
      _normalize_file e f out framework false w = (Ok ("skipped", name f), w)
      /\ forall r : NormalizeResult,
           record_outcome r (name f) "skipped" (name f)
           = mkResult (processed r) (skipped r ++ [name f]) (errors r) (unsupported r))
  /\ (forall (SERVICES : list service) (e1 e2 : env) (source_dir : source_tree)
             (output_dir : path) (force1 callback1 callback2 : bool)
             (w0 w1 : world) (r1 : NormalizeResult),
        normalize_all SERVICES e1 source_dir output_dir force1 callback1 w0 = (Ok r1, w1) ->
        exists (res2 : result NormalizeResult) (w2 : world),
          normalize_all SERVICES e2 source_dir output_dir false callback2 w1 = (res2, w2)
          /\ keeps_normalized w1 w2
          /\ (forall r2, res2 = Ok r2 ->
                 forall nm, In nm (processed r1) -> In nm (skipped r2))
          /\ ((forall dir, mkdir_fault e1 dir = None -> mkdir_fault e2 dir = None) ->
              exists r2, res2 = Ok r2))
  /\ (forall (e : env) (f : source_file) (out : path) (framework : string) (w : world),
        supported (name f) = true ->
        exists (res : result (string * string)) (w' : world) (later : list call),
          _normalize_file e f out framework true w = (res, w')
          /\ calls w' = calls w ++ extractor_call (name f) :: later).
Proof.
  split_and!.
  - intros. split; [by apply normalize_file_skipped|done].
  - intros SERVICES e1 e2 source_dir output_dir force1 callback1 callback2 w0 w1 r1 Hrun1.
    pose proof (normalize_all_enumerable _ _ _ _ _ _ _ _ _ Hrun1) as Hen.
    unfold normalize_all in *.
    rewrite walk_services_jobs in Hrun1 by done.
    rewrite walk_services_jobs by done.
    set (jobs := jobs_of source_dir output_dir SERVICES) in *.
    destruct (run_jobs_completed _ _ _ _ _ _ _ _ Hrun1) as (_ & Hproc & Hatt).
    destruct (run_jobs_again e2 callback2 w1 jobs (mkResult [] [] [] []) w1)
      as (res2 & w2 & Hrun2 & _ & Hkn & Hres); [by intros p|by intros dir nm|].
    exists res2, w2. split_and!; try done.
    + intros r2 -> nm Hnm. destruct Hres as [_ Hall].
      destruct (Hproc nm Hnm) as [[] | (j & Hj & <- & Hs & Hn)].
      by apply Hall.
    + intros Hmk. destruct res2 as [r2|exc]; [by exists r2|].
      destruct Hres as (j & Hj & Hs & Hn & Hexn).
      destruct (Hatt j Hj Hs) as [Hn' | Hnone]; [congruence|].
      apply (attempt_exn_mkdir e1 e2 _ _ Hmk) in Hnone. congruence.
  - intros e f out framework w Hsup.
    destruct (normalize_file_attempted e f out framework true w Hsup (or_introl eq_refl))
      as (res & w' & later & Hnf & Hcalls & _).
    by exists res, w', later.
Qed.

Lemma skip_is_idempotent_force_reextracts_witness :
  (_normalize_file quiet guide_pdf ["out"; "nist"] "nist" false after_first_run
   = (Ok ("skipped", name guide_pdf), after_first_run)
   /\ forall r : NormalizeResult,
        record_outcome r (name guide_pdf) "skipped" (name guide_pdf)
        = mkResult (processed r) (skipped r ++ [name guide_pdf]) (errors r)
            (unsupported r))
  /\ (exists (res2 : result NormalizeResult) (w2 : world),
        normalize_all one_framework quiet guide_tree ["out"] false false after_first_run
        = (res2, w2)
        /\ keeps_normalized after_first_run w2
        /\ (forall r2, res2 = Ok r2 ->
               forall nm, In nm (processed (mkResult ["guide.pdf"] [] [] [])) ->
                          In nm (skipped r2))
        /\ ((forall dir, mkdir_fault quiet dir = None -> mkdir_fault quiet dir = None) ->
            exists r2, res2 = Ok r2))
  /\ (exists (res : result (string * string)) (w' : world) (later : list call),
        _normalize_file quiet guide_pdf ["out"; "nist"] "nist" true after_first_run
        = (res, w')
        /\ calls w' = calls after_first_run ++ extractor_call (name guide_pdf) :: later).
Proof.
  split; [|split].
  - apply (proj1 skip_is_idempotent_force_reextracts); vm_compute; reflexivity.
  - apply (proj1 (proj2 skip_is_idempotent_force_reextracts)
             one_framework quiet quiet guide_tree ["out"] false true false
             empty_world after_first_run (mkResult ["guide.pdf"] [] [] [])).
    vm_compute. reflexivity.
  - apply (proj2 (proj2 skip_is_idempotent_force_reextracts)). vm_compute. reflexivity.
Defined.

(** ** The JSON artifact *)




(** *** Reading the JSON artifact back *)


Lemma skip_ws_solid (c : ascii) (s : string) :
  Loads.is_ws c = false -> Loads.skip_ws (String c s) = String c s.
Proof. intros H. cbn [Loads.skip_ws]. by rewrite H. Qed.


Lemma skip_ws_idem (s : string) : Loads.skip_ws (Loads.skip_ws s) = Loads.skip_ws s.
Proof.
  induction s as [|c s IH]; [done|]. cbn [Loads.skip_ws].
  destruct (Loads.is_ws c) eqn:E; [done|]. by apply skip_ws_solid.
Qed.









(** *** Numbers *)













(** *** Strings *)



(** *** Dictionaries *)



(** *** The steps of the reader *)










(** *** What a printed value starts with *)




(** *** Arrays and objects *)








(** *** Enough fuel *)








(** ** Where the section invariant holds *)

Lemma pdf_pages_well_formed (doc : list (result string)) :
  forall (page_num : nat) (acc found : list section),
    pdf_pages page_num doc acc = Ok found ->
    Forall well_formed acc -> Forall well_formed found.
Proof.
  induction doc as [|page doc IH]; intros page_num acc found Hrun Hacc; simpl in Hrun.
  { by injection Hrun as <-. }
  destruct page as [raw|exc]; [|done]. unfold mbind, result_bind in Hrun.
  destruct (Py.truthy (Py.strip raw)) eqn:E; [|by eapply IH].
  eapply IH; [exact Hrun|]. apply Forall_app. split; [done|].
  constructor; [|constructor]. split; [|done]. simpl. by apply truthy_nonempty.
Qed.

Lemma extract_pdf_well_formed (path : source_file) (found : list section) :
  _extract_pdf path = Ok found -> Forall well_formed found.
Proof.
  unfold _extract_pdf. destruct (pdf path) as [doc|exc]; [|done]. simpl.
  unfold mbind, result_bind.
  destruct (pdf_pages 1 doc []) as [secs|exc] eqn:E; [|done].
  intros [= <-]. eapply pdf_pages_well_formed; [exact E|constructor].
Qed.

Lemma rank_positive (element : node) : is_heading element = true -> (1 <= rank element)%Z.
Proof.
  unfold is_heading, rank, mem, HEADING_TAGS. simpl existsb.
  destruct (String.eqb (element_name element) "h1"); [done|].
  destruct (String.eqb (element_name element) "h2"); [done|].
  destruct (String.eqb (element_name element) "h3"); [done|].
  destruct (String.eqb (element_name element) "h4"); done.
Qed.

Lemma flushed_well_formed (h : string) (lvl : Z) (lines : list string) :
  (1 <= lvl)%Z -> Forall well_formed (flushed h lvl lines).
Proof.
  intros Hl. unfold flushed.
  destruct (Py.strip (Py.join Py.nl lines)) eqn:E; repeat constructor; done.
Qed.

Lemma sections_from_well_formed (elements : list node) :
  forall (h : string) (lvl : Z) (lines : list string),
    (1 <= lvl)%Z -> Forall well_formed (sections_from h lvl lines elements).
Proof.
  induction elements as [|element rest IH]; intros h lvl lines Hl; simpl.
  - by apply flushed_well_formed.
  - destruct (is_heading element) eqn:E; [|by apply IH].
    apply Forall_app. split; [by apply flushed_well_formed|].
    apply IH. by apply rank_positive.
Qed.

(** With a container, every section of the HTML extractor is well formed. *)
Lemma extract_html_well_formed (path : source_file) (soup : list node)
    (container : node) (found : list section) :
  html path = Ok soup ->
  find_container soup = Some container ->
  _extract_html path = Ok found ->
  Forall well_formed found.
Proof.
  intros Hsoup Hc. rewrite (extract_html_with_container path soup container Hsoup Hc).
  intros [= <-]. unfold or_whole_text.
  pose proof (sections_from_well_formed (considered container) (stem (name path)) 1 []
                ltac:(done)) as Hwf.
  destruct (sections_from _ _ _ _); [|done].
  destruct (Soup.element_text Py.nl container) eqn:E; repeat constructor; done.
Qed.

(** Every section of a control is well formed, at the level given or
    below it. *)
Lemma control_sections_well_formed (c : control) :
  forall lvl : Z,
    (1 <= lvl)%Z ->
    Forall (fun s => well_formed s /\ (lvl <= level s)%Z)
      (_extract_control_sections c lvl).
Proof.
  intros lvl Hl. rewrite extract_control_sections_spec. revert lvl Hl.
  induction c as [id title parts controls IH] using control_nested_ind.
  intros lvl Hl. simpl. apply Forall_app. split.
  - destruct (control_heading id title); [constructor|].
    destruct (control_content parts) eqn:E; [constructor|].
    repeat constructor; simpl; try done; lia.
  - induction IH as [|e controls He _ IHc]; simpl; [constructor|].
    apply Forall_app. split; [|done].
    eapply Forall_impl; [apply (He (lvl + 1)%Z); lia|].
    intros s [Hs Hlvl]. split; [done|lia].
Qed.

Lemma extract_catalog_well_formed (c : catalog) :
  Forall well_formed (_extract_catalog c).
Proof.
  unfold _extract_catalog.
  assert (H : forall (gs : list group) (acc : list section),
             Forall well_formed acc ->
             Forall well_formed
               (fold_left
                  (fun sections g =>
                     fold_left
                       (fun sections ctl => sections ++ _extract_control_sections ctl 2)
                       (group_controls g) sections)
                  gs acc)).
  { induction gs as [|g gs IH]; intros acc Hacc; simpl; [done|].
    apply IH. rewrite fold_left_extend. apply Forall_app. split; [done|].
    induction (group_controls g) as [|ctl ctls IHc]; simpl; [constructor|].
    apply Forall_app. split; [|done].
    eapply Forall_impl; [apply (control_sections_well_formed ctl 2); lia|].
    by intros s [Hs _]. }
  apply H. constructor.
Qed.

(** ** Failures that are, and are not, contained *)

Lemma record_outcome_filed (r : NormalizeResult) (nm status msg : string) :
  filed (record_outcome r nm status msg) = S (filed r).
Proof.
  unfold record_outcome, filed.
  destruct (String.eqb status "processed"); simpl; [rewrite length_app; simpl; lia|].
  destruct (String.eqb status "skipped"); simpl; [rewrite length_app; simpl; lia|].
  destruct (String.eqb status "unsupported"); simpl; rewrite length_app; simpl; lia.
Qed.

(** What the code does contain: when no visited file is one whose attempt
    lets an exception through, the run completes and every visited file is
    filed exactly once. *)
Lemma run_jobs_contained (e : env) (force progress_callback : bool) (jobs : list job) :
  (forall j, In j jobs -> attempt_exn e (job_file j) (job_output j) = None) ->
  forall (r : NormalizeResult) (w : world),
    exists (r' : NormalizeResult) (w' : world),
      run_jobs e force progress_callback jobs r w = (Ok r', w')
      /\ filed r' = filed r + List.length jobs.
Proof.
  induction jobs as [|j jobs IH]; intros Hjobs r w; simpl.
  { exists r, w. split; [done|lia]. }
  set (nm := name (job_file j)).
  set (wp := if progress_callback then record_call (Progress (job_key j) nm) w else w).
  assert (Hrest : forall j', In j' jobs ->
                     attempt_exn e (job_file j') (job_output j') = None).
  { intros j' Hj'. apply Hjobs. by right. }
  assert (Hstep : exists status msg w'',
             _normalize_file e (job_file j) (job_output j) (job_key j) force wp
             = (Ok (status, msg), w'')).
  { destruct (supported nm) eqn:Hsup.
    - assert (Hcase : force = false /\ normalized (job_output j) nm wp = true
                      \/ (force = true \/ normalized (job_output j) nm wp = false)).
      { destruct force; [by right; left|].
        destruct (normalized (job_output j) nm wp); [by left|by right; right]. }
      destruct Hcase as [[-> Hnorm] | Hatt].
      + rewrite normalize_file_skipped by done. by do 3 eexists.
      + destruct (normalize_file_attempted e (job_file j) (job_output j) (job_key j)
                    force wp Hsup Hatt)
          as (res & w'' & later & Hnf & _ & _ & _ & Hres).
        rewrite Hnf. destruct res as [[status msg]|exc]; [by do 3 eexists|].
        rewrite (Hjobs j (or_introl eq_refl)) in Hres. done.
    - rewrite normalize_file_unsupported_ext by done. by do 3 eexists. }
  destruct Hstep as (status & msg & w'' & ->).
  destruct (IH Hrest (record_outcome r nm status msg) w'') as (r' & w' & -> & Hcount).
  exists r', w'. split; [done|]. rewrite Hcount, record_outcome_filed. lia.
Qed.

Lemma normalize_all_contained (SERVICES : list service) (e : env)
    (source_dir : source_tree) (output_dir : path) (force progress_callback : bool)
    (w : world) :
  enumerable source_dir SERVICES = true ->
  (forall j, In j (jobs_of source_dir output_dir SERVICES) ->
             attempt_exn e (job_file j) (job_output j) = None) ->
  exists (r : NormalizeResult) (w' : world),
    normalize_all SERVICES e source_dir output_dir force progress_callback w = (Ok r, w')
    /\ filed r = List.length (jobs_of source_dir output_dir SERVICES).
Proof.
  intros Hen Hjobs. unfold normalize_all. rewrite walk_services_jobs by done.
  destruct (run_jobs_contained e force progress_callback _ Hjobs (mkResult [] [] [] []) w)
    as (r & w' & -> & Hcount).
  by exists r, w'.
Qed.

(** A JSON object without either key is unsupported, not an error. *)
Lemma object_without_keys_unsupported (path : source_file)
    (members : list (string * json)) :
  loaded path = Ok (JObject members) ->
  Json.get "catalog" members = None ->
  Json.get "profile" members = None ->
  _extract_oscal_json path
  = Raise (_UnsupportedOscalType
             ("not a recognized OSCAL catalog or profile: " +:+ name path)).
Proof.
  intros Hl Hc Hp. unfold _extract_oscal_json. rewrite Hl. simpl.
  unfold mbind, result_bind. rewrite Hc, Hp. reflexivity.
Qed.

(** Once its extraction is attempted, a JSON file holding an object without
    either key is filed as unsupported, and only the extractor was called. *)
Lemma object_without_keys_filed_unsupported (e : env) (path : source_file)
    (out : list string) (framework : string) (force : bool) (w : world)
    (members : list (string * json)) :
  extension (name path) = ".json" ->
  force = true \/ normalized out (name path) w = false ->
  loaded path = Ok (JObject members) ->
  Json.get "catalog" members = None ->
  Json.get "profile" members = None ->
  _normalize_file e path out framework force w
  = (Ok ("unsupported", name path), record_call (ExtractOscalJson (name path)) w).
Proof.
  intros Hext Hatt Hl Hc Hp.
  unfold _normalize_file. fold (extension (name path)). rewrite Hext.
  change (mem ".json" KNOWN_UNSUPPORTED) with false.
  change (negb (mem ".json" SUPPORTED_EXTENSIONS)) with false. cbv iota.
  fold (md_dest out (name path)) (json_dest out (name path)).
  assert (Hskip : negb force && exists_ (md_dest out (name path)) w
                  && exists_ (json_dest out (name path)) w = false).
  { destruct Hatt as [-> | Hn]; [done|]. unfold normalized in Hn.
    rewrite <- andb_assoc, Hn. apply andb_false_r. }
  rewrite Hskip. unfold extract.
  change (mem ".json" PDF_EXTENSIONS) with false.
  change (mem ".json" JSON_EXTENSIONS) with true. cbv iota.
  by rewrite (object_without_keys_unsupported path members Hl Hc Hp).
Qed.

(** C1 (the code departs from it).  A JSON file whose top level is the
    number 5 makes the membership test of [_extract_oscal_json] raise a
    [TypeError], which [_normalize_file] does not catch: the run over an
    enumerable source root ends with that exception, returns no result,
    and never reaches the PDF that follows.  With an empty object in its
    place the same run completes.  A failure to create the output
    directory escapes in the same way. *)
Theorem scalar_json_aborts_run :
  enumerable scalar_tree one_framework = true
  /\ normalize_all one_framework quiet scalar_tree ["out"] false false empty_world
     = (Raise (TypeError "argument of type 'int' is not iterable"),
        mkWorld ∅ [ExtractOscalJson "a.json"])
  /\ fst (normalize_all one_framework quiet object_tree ["out"] false false empty_world)
     = Ok (mkResult ["guide.pdf"] [] [] ["a.json"])
  /\ fst (normalize_all one_framework no_mkdir guide_tree ["out"] false false empty_world)
     = Raise (OSError "Permission denied").
Proof. split_and!; vm_compute; reflexivity. Qed.

(** C2 (the code departs from it).  Without any container the HTML
    extractor returns the document's text as one section without checking
    that it is non-empty: a file without markup gives a section with empty
    content, which is then written out as processed, whereas the same
    fallback for an empty container gives no section.  A profile id that is
    the empty string likewise gives a family section with empty content. *)
Theorem html_without_container_empty_section :
  find_container [] = None
  /\ _extract_html empty_html = Ok [mkSection "empty" 1 EmptyString]
  /\ fst (_normalize_file quiet empty_html ["out"; "nist"] "nist" false empty_world)
     = Ok ("processed", "empty.html")
  /\ _extract_html blank_body_html = Ok []
  /\ fst (_normalize_file quiet blank_body_html ["out"; "nist"] "nist" false empty_world)
     = Ok ("error", "no text content extracted")
  /\ _extract_profile empty_id_profile
     = [mkSection "Baseline" 1 ("Total controls: 1" +:+ Py.nl +:+ "Families: ");
        mkSection " Controls" 2 EmptyString].
Proof. split_and!; vm_compute; reflexivity. Qed.

(** C3 (the code departs from it).  A JSON file that holds [null] parses
    and has neither key, yet it is not filed as unsupported: the membership
    test raises a [TypeError] that leaves [_normalize_file]. *)
Theorem null_json_not_unsupported :
  _extract_oscal_json null_json
  = Raise (TypeError "argument of type 'NoneType' is not iterable")
  /\ _normalize_file quiet null_json ["out"; "nist"] "nist" false empty_world
     = (Raise (TypeError "argument of type 'NoneType' is not iterable"),
        mkWorld ∅ [ExtractOscalJson "null.json"])
  /\ _extract_oscal_json (json_file "list.json" (JArray [JString "catalog"]))
     = Raise (TypeError "list indices must be integers or slices, not str")
  /\ fst (_normalize_file quiet (json_file "object.json" (JObject [("title", JString "x")]))
            ["out"; "nist"] "nist" false empty_world)
     = Ok ("unsupported", "object.json").
Proof. split_and!; vm_compute; reflexivity. Qed.

(* ===================================================================== *)
(** * Further properties of the module                                    *)
(* ===================================================================== *)

(** ** One attempt, outcome by outcome *)

Lemma extract_extraction (f : source_file) (w : world) :
  extract (extension (name f)) f w
  = (extraction f, record_call (extractor_call (name f)) w).
Proof.
  unfold extract, extraction, extractor_call.
  destruct (mem (extension (name f)) PDF_EXTENSIONS); [done|].
  by destruct (mem (extension (name f)) JSON_EXTENSIONS).
Qed.

(** A supported file that is not skipped: what remains of
    [_normalize_file] after its three early returns. *)
Lemma normalize_file_attempt_tail (e : env) (f : source_file) (out : list string)
    (framework : string) (force : bool) (w : world) :
  supported (name f) = true ->
  force = true \/ normalized out (name f) w = false ->
  _normalize_file e f out framework force w
  = match extraction f with
    | Raise (_UnsupportedOscalType _) =>
        (Ok ("unsupported", name f), record_call (extractor_call (name f)) w)
    | Raise (RuntimeError m) =>
        (Ok ("error", m), record_call (extractor_call (name f)) w)
    | Raise exc => (Raise exc, record_call (extractor_call (name f)) w)
    | Ok [] =>
        (Ok ("error", "no text content extracted"),
         record_call (extractor_call (name f)) w)
    | Ok sections =>
        match mkdir e out (record_call (extractor_call (name f)) w) with
        | (Raise exc, w) => (Raise exc, w)
        | (Ok _, w) =>
            match
              write_both e sections framework (name f) (now e f)
                (md_dest out (name f)) (json_dest out (name f)) w
            with
            | (Raise (OSError m), w) => (Ok ("error", "write failed: " +:+ m), w)
            | (Raise exc, w) => (Raise exc, w)
            | (Ok _, w) => (Ok ("processed", name f), w)
            end
        end
    end.
Proof.
  intros Hsup Hatt.
  unfold supported in Hsup. unfold _normalize_file. fold (extension (name f)).
  destruct (mem (extension (name f)) KNOWN_UNSUPPORTED); [done|].
  cbn [negb andb] in Hsup. rewrite Hsup. cbn [negb].
  fold (md_dest out (name f)) (json_dest out (name f)).
  assert (Hskip : negb force && exists_ (md_dest out (name f)) w
                  && exists_ (json_dest out (name f)) w = false).
  { destruct Hatt as [-> | Hn]; [done|]. unfold normalized in Hn.
    rewrite <- andb_assoc, Hn. apply andb_false_r. }
  rewrite Hskip, extract_extraction. reflexivity.
Qed.

(** The three ways [_normalize_file] goes. *)
Lemma normalize_file_trichotomy (force : bool) (out : list string) (nm : string)
    (w : world) :
  supported nm = false
  \/ (supported nm = true /\ force = false /\ normalized out nm w = true)
  \/ (supported nm = true /\ (force = true \/ normalized out nm w = false)).
Proof.
  destruct (supported nm); [|by left]. right.
  destruct force; [by right; split; [|left]|].
  destruct (normalized out nm w); [by left|by right; split; [|right]].
Qed.

(** X1. Whenever [_normalize_file] returns, the status is one of
    "processed", "skipped", "unsupported" and "error", and the message is
    the name of the file unless the status is "error": the last branch of
    the chain in [normalize_all] only ever receives errors. *)
Theorem normalize_file_status (e : env) (f : source_file) (out : list string)
    (framework : string) (force : bool) (w w' : world) (status msg : string) :
  _normalize_file e f out framework force w = (Ok (status, msg), w') ->
  (status = "processed" \/ status = "skipped" \/ status = "unsupported")
  /\ msg = name f
  \/ status = "error".
Proof.
  intros Hrun.
  destruct (normalize_file_trichotomy force out (name f) w)
    as [Hs | [(Hs & -> & Hn) | (Hs & Hatt)]].
  - rewrite normalize_file_unsupported_ext in Hrun by done.
    injection Hrun as <- <- _. left. split; [by right; right|done].
  - rewrite normalize_file_skipped in Hrun by done.
    injection Hrun as <- <- _. left. split; [by right; left|done].
  - destruct (normalize_file_attempted e f out framework force w Hs Hatt)
      as (res & w2 & later & Hnf & _ & _ & _ & Hres).
    rewrite Hnf in Hrun. injection Hrun as -> _.
    destruct Hres as (_ & [(-> & -> & _) | [(-> & ->) | ->]]).
    + left. split; [by left|done].
    + left. split; [by right; right|done].
    + by right.
Qed.

Lemma normalize_file_status_witness :
  ("processed" = "processed" \/ "processed" = "skipped" \/ "processed" = "unsupported")
  /\ "guide.pdf" = name guide_pdf
  \/ "processed" = "error".
Proof.
  apply (normalize_file_status quiet guide_pdf ["out"; "nist"] "nist" false empty_world
           (snd (_normalize_file quiet guide_pdf ["out"; "nist"] "nist" false empty_world))
           "processed" "guide.pdf").
  vm_compute. reflexivity.
Defined.

(** X2. A failure of the reader behind an extractor is filed as an error
    that carries the cause, and leaves no artifact: a PDF that does not
    open or whose page does not read gives "pymupdf failed: ...", a JSON
    file that does not parse gives "JSON parse failed: ...", an HTML file
    that cannot be read gives "Could not read <name>: ...".  Only the call
    to the extractor is made. *)
Theorem reader_failure_is_filed (e : env) (f : source_file) (out : list string)
    (framework : string) (force : bool) (w : world) :
  supported (name f) = true ->
  force = true \/ normalized out (name f) w = false ->
  (forall exc,
      mem (extension (name f)) PDF_EXTENSIONS = true ->
      _extract_pdf f = Raise exc ->
      exists cause,
        exc = RuntimeError ("pymupdf failed: " +:+ cause)
        /\ _normalize_file e f out framework force w
           = (Ok ("error", "pymupdf failed: " +:+ cause),
              record_call (ExtractPdf (name f)) w))
  /\ (forall exc,
        mem (extension (name f)) PDF_EXTENSIONS = false ->
        mem (extension (name f)) JSON_EXTENSIONS = true ->
        loaded f = Raise exc ->
        _normalize_file e f out framework force w
        = (Ok ("error", "JSON parse failed: " +:+ str_exc exc),
           record_call (ExtractOscalJson (name f)) w))
  /\ (forall m,
        mem (extension (name f)) PDF_EXTENSIONS = false ->
        mem (extension (name f)) JSON_EXTENSIONS = false ->
        html f = Raise (OSError m) ->
        _normalize_file e f out framework force w
        = (Ok ("error", "Could not read " +:+ name f +:+ ": " +:+ m),
           record_call (ExtractHtml (name f)) w)).
Proof.
  intros Hsup Hatt.
  pose proof (normalize_file_attempt_tail e f out framework force w Hsup Hatt) as Htail.
  unfold extraction, extractor_call in Htail.
  split_and!.
  - intros exc Hpdf Hexc. rewrite Hpdf in Htail.
    assert (exists cause, exc = RuntimeError ("pymupdf failed: " +:+ cause))
      as (cause & ->).
    { unfold _extract_pdf in Hexc.
      destruct (pdf f ≫= _) as [secs|exc0]; [done|].
      injection Hexc as <-. by eexists. }
    exists cause. split; [done|]. by rewrite Htail, Hexc.
  - intros exc Hpdf Hjson Hload. rewrite Hpdf, Hjson in Htail.
    rewrite Htail. unfold _extract_oscal_json. by rewrite Hload.
  - intros m Hpdf Hjson Hread. rewrite Hpdf, Hjson in Htail.
    rewrite Htail. unfold _extract_html. by rewrite Hread.
Qed.

Lemma reader_failure_is_filed_witness :
  (exists cause,
      RuntimeError "pymupdf failed: cannot open broken document"
      = RuntimeError ("pymupdf failed: " +:+ cause)
      /\ _normalize_file quiet broken_pdf ["out"; "nist"] "nist" false empty_world
         = (Ok ("error", "pymupdf failed: " +:+ cause),
            record_call (ExtractPdf (name broken_pdf)) empty_world))
  /\ _normalize_file quiet bad_json ["out"; "nist"] "nist" false empty_world
     = (Ok ("error", "JSON parse failed: " +:+ str_exc (ValueError "Expecting value")),
        record_call (ExtractOscalJson (name bad_json)) empty_world)
  /\ _normalize_file quiet unreadable_html ["out"; "nist"] "nist" false empty_world
     = (Ok ("error", "Could not read " +:+ name unreadable_html +:+ ": "
                     +:+ "Permission denied"),
        record_call (ExtractHtml (name unreadable_html)) empty_world).
Proof.
  split_and!.
  - apply (proj1 (reader_failure_is_filed quiet broken_pdf ["out"; "nist"] "nist" false
                    empty_world eq_refl (or_intror eq_refl))
             (RuntimeError "pymupdf failed: cannot open broken document"));
      reflexivity.
  - apply (proj1 (proj2 (reader_failure_is_filed quiet bad_json ["out"; "nist"] "nist"
                           false empty_world eq_refl (or_intror eq_refl)))
             (ValueError "Expecting value")); reflexivity.
  - apply (proj2 (proj2 (reader_failure_is_filed quiet unreadable_html ["out"; "nist"]
                           "nist" false empty_world eq_refl (or_intror eq_refl)))
             "Permission denied"); reflexivity.
Defined.

Lemma flushed_nothing (h : string) (lvl : Z) : flushed h lvl [] = [].
Proof. reflexivity. Qed.

Lemma join_empty (sep : string) (l : list string) :
  Forall (fun s => Py.truthy s = true) l -> Py.join sep l = EmptyString -> l = [].
Proof.
  intros Hall Hj. destruct l as [|x l]; [done|].
  pose proof (join_truthy sep (x :: l) ltac:(done) Hall) as Ht.
  rewrite Hj in Ht. done.
Qed.

Lemma filter_truthy_all (l : list string) :
  Forall (fun s => Py.truthy s = true) (List.filter Py.truthy l).
Proof.
  apply Forall_forall. intros s Hs.
  by apply list_elem_of_In, filter_In in Hs as [_ Hs].
Qed.

(** Below an element without visible text nothing has visible text. *)
Lemma no_text_below (sep sep' : string) (container x : node) :
  Soup.element_text sep container = EmptyString ->
  In x (Soup.descendants container) ->
  Soup.element_text sep' x = EmptyString.
Proof.
  unfold Soup.element_text, Soup.get_text. simpl. rewrite !app_nil_r.
  intros Hc Hx. apply join_empty in Hc; [|apply filter_truthy_all].
  destruct (strings_split container x Hx) as (sa & sb & Hs).
  rewrite Hs, !List.map_app, !List.filter_app in Hc.
  apply app_eq_nil in Hc as [_ Hc]. apply app_eq_nil in Hc as [Hc _].
  by rewrite Hc.
Qed.

Lemma sections_from_no_text (elements : list node) :
  Forall (fun x => Soup.element_text " " x = EmptyString) elements ->
  forall (h : string) (lvl : Z), sections_from h lvl [] elements = [].
Proof.
  induction 1 as [|x elements Hx _ IH]; intros h lvl; cbn [sections_from]; [done|].
  destruct (is_heading x).
  - rewrite flushed_nothing. apply IH.
  - unfold line_of. rewrite Hx. apply IH.
Qed.

(** X3. An extraction that yields no section is filed as the error
    "no text content extracted" and writes nothing.  This is what happens
    to a PDF whose pages are all blank once trimmed, and to an HTML page
    whose content container has no visible text. *)
Theorem no_text_is_an_error (e : env) (f : source_file) (out : list string)
    (framework : string) (force : bool) (w : world) :
  supported (name f) = true ->
  force = true \/ normalized out (name f) w = false ->
  (extraction f = Ok [] ->
   _normalize_file e f out framework force w
   = (Ok ("error", "no text content extracted"),
      record_call (extractor_call (name f)) w))
  /\ (forall texts : list string,
        pdf f = Ok (List.map Ok texts) ->
        Forall (fun t => Py.strip t = EmptyString) texts ->
        _extract_pdf f = Ok [])
  /\ (forall (soup : list node) (container : node),
        html f = Ok soup ->
        find_container soup = Some container ->
        Soup.element_text Py.nl container = EmptyString ->
        _extract_html f = Ok []).
Proof.
  intros Hsup Hatt. split_and!.
  - intros Hex. rewrite normalize_file_attempt_tail by done. by rewrite Hex.
  - intros texts Hdoc Hblank. unfold _extract_pdf. rewrite Hdoc. simpl.
    unfold mbind, result_bind. rewrite pdf_pages_read. simpl.
    assert (List.filter page_has_text (enumerate 1 texts) = []) as ->; [|done].
    clear Hdoc. generalize 1. induction Hblank as [|t texts Ht _ IH]; intros n; simpl; [done|].
    unfold page_has_text at 1. simpl. rewrite Ht. simpl. apply IH.
  - intros soup container Hsoup Hc Hraw.
    rewrite (extract_html_with_container f soup container Hsoup Hc).
    rewrite sections_from_no_text.
    + unfold or_whole_text. by rewrite Hraw.
    + apply Forall_forall. intros x Hx. unfold considered in Hx.
      apply list_elem_of_In, filter_In in Hx as [Hx _].
      by apply (no_text_below Py.nl " " container).
Qed.

Lemma no_text_is_an_error_witness :
  _normalize_file quiet blank_pdf ["out"; "nist"] "nist" true empty_world
  = (Ok ("error", "no text content extracted"),
     record_call (extractor_call (name blank_pdf)) empty_world)
  /\ _extract_pdf blank_pdf = Ok []
  /\ _extract_html blank_body_html = Ok [].
Proof.
  split_and!.
  - apply (proj1 (no_text_is_an_error quiet blank_pdf ["out"; "nist"] "nist" true
                    empty_world eq_refl (or_introl eq_refl))).
    reflexivity.
  - apply (proj1 (proj2 (no_text_is_an_error quiet blank_pdf ["out"; "nist"] "nist" true
                           empty_world eq_refl (or_introl eq_refl)))
             ["  "; EmptyString]).
    + reflexivity.
    + repeat constructor.
  - apply (proj2 (proj2 (no_text_is_an_error quiet blank_body_html ["out"; "nist"]
                           "nist" true empty_world eq_refl (or_introl eq_refl)))
             [Tag "body" [] []] (Tag "body" [] [])); reflexivity.
Defined.

Lemma md_dest_not_json_dest (out : list string) (nm : string) :
  md_dest out nm <> json_dest out nm.
Proof.
  unfold md_dest, json_dest. intros H. apply app_inv_head in H.
  injection H as H. by apply md_is_not_json in H.
Qed.

(** X4. The two artifacts are not written together, and a write that
    fails part way leaves a cut file behind.  When the Markdown artifact
    is written and the JSON write fails, the file is filed as an error,
    yet the Markdown artifact stays behind with the whole rendered text,
    next to a JSON artifact that is as it was, if it could not be opened,
    or holds the start of the JSON text, if the write stopped part way; in
    this case both artifacts exist, so that a later run without force
    files the source as skipped and the cut artifact stays.  When the
    Markdown write fails, the JSON writer is not called, and no file but
    the Markdown artifact can have changed. *)
Theorem write_failure_leaves_markdown (e : env) (f : source_file) (out : list string)
    (framework : string) (force : bool) (w : world) (s : section)
    (more : list section) (m : string) (left_behind : option nat) :
  supported (name f) = true ->
  force = true \/ normalized out (name f) w = false ->
  extraction f = Ok (s :: more) ->
  mkdir_fault e out = None ->
  (write_fault e (md_dest out (name f)) = None ->
   write_fault e (json_dest out (name f)) = Some (m, left_behind) ->
   _normalize_file e f out framework force w
   = (Ok ("error", "write failed: " +:+ m),
      mkWorld
        (match left_behind with
         | None =>
             <[md_dest out (name f) :=
                 markdown_text (s :: more) framework (name f) (now e f)]> (files w)
         | Some n =>
             <[json_dest out (name f) :=
                 String.substring 0 n
                   (json_text (s :: more) framework (name f) (now e f))]>
               (<[md_dest out (name f) :=
                    markdown_text (s :: more) framework (name f) (now e f)]> (files w))
         end)
        (calls w ++ [extractor_call (name f); Mkdir out;
                     WriteMarkdown (md_dest out (name f));
                     WriteJson (json_dest out (name f))]))
   /\ (left_behind <> None ->
       forall (e' : env) (framework' : string) (w' : world),
         _normalize_file e f out framework force w
         = (Ok ("error", "write failed: " +:+ m), w') ->
         _normalize_file e' f out framework' false w'
         = (Ok ("skipped", name f), w')))
  /\ (write_fault e (md_dest out (name f)) = Some (m, left_behind) ->
      _normalize_file e f out framework force w
      = (Ok ("error", "write failed: " +:+ m),
         mkWorld
           (match left_behind with
            | None => files w
            | Some n =>
                <[md_dest out (name f) :=
                    String.substring 0 n
                      (markdown_text (s :: more) framework (name f) (now e f))]>
                  (files w)
            end)
           (calls w ++ [extractor_call (name f); Mkdir out;
                        WriteMarkdown (md_dest out (name f))]))).
Proof.
  intros Hsup Hatt Hex Hmk.
  pose proof (normalize_file_attempt_tail e f out framework force w Hsup Hatt) as Htail.
  rewrite Hex in Htail. unfold mkdir in Htail. rewrite Hmk in Htail.
  unfold write_both, _write_markdown, _write_json, write_text, record_call in Htail.
  simpl in Htail. split.
  - intros Hmd Hjs. rewrite Hmd in Htail. simpl in Htail. rewrite Hjs in Htail.
    assert (Hrun : _normalize_file e f out framework force w
                   = (Ok ("error", "write failed: " +:+ m),
                      mkWorld
                        (match left_behind with
                         | None =>
                             <[md_dest out (name f) :=
                                 markdown_text (s :: more) framework (name f)
                                   (now e f)]> (files w)
                         | Some n =>
                             <[json_dest out (name f) :=
                                 String.substring 0 n
                                   (json_text (s :: more) framework (name f)
                                      (now e f))]>
                               (<[md_dest out (name f) :=
                                    markdown_text (s :: more) framework (name f)
                                      (now e f)]> (files w))
                         end)
                        (calls w ++ [extractor_call (name f); Mkdir out;
                                     WriteMarkdown (md_dest out (name f));
                                     WriteJson (json_dest out (name f))]))).
    { rewrite Htail. destruct left_behind; by rewrite <- !app_assoc. }
    split; [exact Hrun|].
    intros Hleft e' framework' w' Hw'. rewrite Hrun in Hw'. injection Hw' as <-.
    destruct left_behind as [n|]; [|done].
    apply normalize_file_skipped; [done|].
    unfold normalized. apply andb_true_iff. split; apply exists_true; simpl.
    + rewrite lookup_insert_ne by (intros H; by apply (md_dest_not_json_dest out (name f))).
      rewrite lookup_insert_eq. eauto.
    + rewrite lookup_insert_eq. eauto.
  - intros Hmd. rewrite Hmd in Htail. rewrite Htail.
    destruct left_behind; by rewrite <- !app_assoc.
Qed.

Lemma write_failure_leaves_markdown_witness :
  (_normalize_file no_json_write guide_pdf ["out"; "nist"] "nist" false empty_world
   = (Ok ("error", "write failed: " +:+ "No space left on device"),
      mkWorld
        (<[json_dest ["out"; "nist"] (name guide_pdf) :=
             String.substring 0 40
               (json_text [mkSection "Page 1" 1 "hello"] "nist" (name guide_pdf)
                  (now no_json_write guide_pdf))]>
           (<[md_dest ["out"; "nist"] (name guide_pdf) :=
                markdown_text [mkSection "Page 1" 1 "hello"] "nist" (name guide_pdf)
                  (now no_json_write guide_pdf)]> (files empty_world)))
        (calls empty_world
         ++ [extractor_call (name guide_pdf); Mkdir ["out"; "nist"];
             WriteMarkdown (md_dest ["out"; "nist"] (name guide_pdf));
             WriteJson (json_dest ["out"; "nist"] (name guide_pdf))]))
   /\ (Some 40 <> None ->
       forall (e' : env) (framework' : string) (w' : world),
         _normalize_file no_json_write guide_pdf ["out"; "nist"] "nist" false empty_world
         = (Ok ("error", "write failed: " +:+ "No space left on device"), w') ->
         _normalize_file e' guide_pdf ["out"; "nist"] framework' false w'
         = (Ok ("skipped", name guide_pdf), w')))
  /\ _normalize_file read_only guide_pdf ["out"; "nist"] "nist" false empty_world
     = (Ok ("error", "write failed: " +:+ "Read-only file system"),
        mkWorld (files empty_world)
          (calls empty_world
           ++ [extractor_call (name guide_pdf); Mkdir ["out"; "nist"];
               WriteMarkdown (md_dest ["out"; "nist"] (name guide_pdf))])).
Proof.
  split.
  - apply (proj1 (write_failure_leaves_markdown no_json_write guide_pdf ["out"; "nist"]
                    "nist" false empty_world (mkSection "Page 1" 1 "hello") []
                    "No space left on device" (Some 40)
                    eq_refl (or_intror eq_refl) eq_refl eq_refl));
      reflexivity.
  - apply (proj2 (write_failure_leaves_markdown read_only guide_pdf ["out"; "nist"]
                    "nist" false empty_world (mkSection "Page 1" 1 "hello") []
                    "Read-only file system" None
                    eq_refl (or_intror eq_refl) eq_refl eq_refl)).
    reflexivity.
Defined.

(** X5. A file filed as processed has both artifacts, holding the Markdown
    and the JSON rendering of the very sections its extractor returned,
    under the name of the file, the key of the framework and the time read
    for the file; the calls made are the extractor, the creation of the
    output directory and the two writers, in this order. *)
Theorem processed_writes_both_renderings (e : env) (f : source_file)
    (out : list string) (framework : string) (force : bool) (w : world)
    (s : section) (more : list section) :
  supported (name f) = true ->
  force = true \/ normalized out (name f) w = false ->
  extraction f = Ok (s :: more) ->
  mkdir_fault e out = None ->
  write_fault e (md_dest out (name f)) = None ->
  write_fault e (json_dest out (name f)) = None ->
  _normalize_file e f out framework force w
  = (Ok ("processed", name f),
     mkWorld
       (<[json_dest out (name f) :=
            json_text (s :: more) framework (name f) (now e f)]>
          (<[md_dest out (name f) :=
               markdown_text (s :: more) framework (name f) (now e f)]> (files w)))
       (calls w ++ [extractor_call (name f); Mkdir out;
                    WriteMarkdown (md_dest out (name f));
                    WriteJson (json_dest out (name f))])).
Proof.
  intros Hsup Hatt Hex Hmk Hmd Hjs.
  rewrite normalize_file_attempt_tail by done.
  rewrite Hex. unfold mkdir. rewrite Hmk.
  unfold write_both, _write_markdown, _write_json, write_text, record_call.
  simpl. rewrite Hmd. simpl. rewrite Hjs. by rewrite <- !app_assoc.
Qed.

Lemma processed_writes_both_renderings_witness :
  _normalize_file quiet guide_pdf ["out"; "nist"] "nist" false empty_world
  = (Ok ("processed", name guide_pdf),
     mkWorld
       (<[json_dest ["out"; "nist"] (name guide_pdf) :=
            json_text [mkSection "Page 1" 1 "hello"] "nist" (name guide_pdf)
              (now quiet guide_pdf)]>
          (<[md_dest ["out"; "nist"] (name guide_pdf) :=
               markdown_text [mkSection "Page 1" 1 "hello"] "nist" (name guide_pdf)
                 (now quiet guide_pdf)]> (files empty_world)))
       (calls empty_world
        ++ [extractor_call (name guide_pdf); Mkdir ["out"; "nist"];
            WriteMarkdown (md_dest ["out"; "nist"] (name guide_pdf));
            WriteJson (json_dest ["out"; "nist"] (name guide_pdf))])).
Proof.
  apply (processed_writes_both_renderings quiet guide_pdf ["out"; "nist"] "nist" false
           empty_world (mkSection "Page 1" 1 "hello") []); reflexivity || (by right).
Defined.

(** X6. Artifacts are named after the stem alone.  Once a file has been
    processed, any other supported file of the same framework with the
    same stem (guide.pdf and guide.html, or the same name in another
    subdirectory) is, without force, filed as skipped and never
    extracted: its content is not normalized. *)
Theorem same_stem_is_skipped (e e' : env) (f f' : source_file) (out : list string)
    (framework framework' : string) (force : bool) (w w' : world) (msg : string) :
  _normalize_file e f out framework force w = (Ok ("processed", msg), w') ->
  supported (name f') = true ->
  stem (name f') = stem (name f) ->
  _normalize_file e' f' out framework' false w' = (Ok ("skipped", name f'), w').
Proof.
  intros Hrun Hsup' Hstem.
  assert (Hn : normalized out (name f) w' = true).
  { destruct (normalize_file_trichotomy force out (name f) w)
      as [Hs | [(Hs & -> & Hn) | (Hs & Hatt)]].
    - rewrite normalize_file_unsupported_ext in Hrun by done. done.
    - rewrite normalize_file_skipped in Hrun by done. done.
    - destruct (normalize_file_attempted e f out framework force w Hs Hatt)
        as (res & w2 & later & Hnf & _ & _ & _ & Hres).
      rewrite Hnf in Hrun. injection Hrun as -> ->.
      by destruct Hres as (_ & [(_ & _ & Hn) | [(? & _) | ?]]). }
  apply normalize_file_skipped; [done|].
  unfold normalized, md_dest, json_dest in *. by rewrite Hstem.
Qed.

Lemma same_stem_is_skipped_witness :
  _normalize_file quiet guide_html ["out"; "nist"] "nist" false after_first_run
  = (Ok ("skipped", name guide_html), after_first_run).
Proof.
  apply (same_stem_is_skipped quiet quiet guide_pdf guide_html ["out"; "nist"]
           "nist" "nist" false (record_call (Progress "nist" "guide.pdf") empty_world)
           after_first_run "guide.pdf"); vm_compute; reflexivity.
Defined.

(** ** What a run files and touches *)

Lemma normalize_file_outcome (e : env) (f : source_file) (out : list string)
    (framework : string) (force : bool) (w : world)
    (res : result (string * string)) (w' : world) :
  _normalize_file e f out framework force w = (res, w') ->
  keeps_files w w'
  /\ (forall p, p <> md_dest out (name f) -> p <> json_dest out (name f) ->
                files w' !! p = files w !! p)
  /\ (supported (name f) = false -> files w' = files w)
  /\ forall status msg,
       res = Ok (status, msg) ->
       status = "error"
       \/ msg = name f
          /\ (status = "processed" /\ supported (name f) = true
              /\ normalized out (name f) w' = true
              \/ status = "skipped" /\ force = false /\ supported (name f) = true
                 /\ normalized out (name f) w' = true
              \/ status = "unsupported").
Proof.
  intros Hrun.
  assert (Hrefl : keeps_files w w) by (by intros p).
  destruct (normalize_file_trichotomy force out (name f) w)
    as [Hs | [(Hs & -> & Hn) | (Hs & Hatt)]].
  - rewrite normalize_file_unsupported_ext in Hrun by done.
    injection Hrun as <- <-. split_and!; try done.
    intros status msg [= <- <-]. right. split; [done|]. by right; right.
  - rewrite normalize_file_skipped in Hrun by done.
    injection Hrun as <- <-. split_and!; try done; try congruence.
    intros status msg [= <- <-]. right. split; [done|]. right; left. done.
  - destruct (normalize_file_attempted e f out framework force w Hs Hatt)
      as (res0 & w0 & later & Hnf & _ & Hframe & Hkeep & Hres).
    rewrite Hnf in Hrun. injection Hrun as -> ->.
    split_and!; try done; try congruence.
    intros status msg ->.
    destruct Hres as (_ & [(-> & -> & Hn) | [(-> & ->) | ->]]).
    + right. split; [done|]. by left.
    + right. split; [done|]. by right; right.
    + by left.
Qed.

Lemma Permutation_snoc_middle {A : Type} (l1 l2 : list A) (x : A) :
  Permutation (l1 ++ x :: l2) ((l1 ++ l2) ++ [x]).
Proof.
  rewrite <- app_assoc. apply Permutation_app_head. apply Permutation_cons_append.
Qed.

Lemma record_outcome_names (r : NormalizeResult) (nm status msg : string) :
  status = "error"
  \/ msg = nm /\ (status = "processed" \/ status = "skipped" \/ status = "unsupported") ->
  Permutation (names (record_outcome r nm status msg)) (names r ++ [nm]).
Proof.
  unfold names.
  intros [-> | (-> & [-> | [-> | ->]])]; unfold record_outcome; simpl.
  - rewrite List.map_app. simpl. by rewrite <- !app_assoc.
  - rewrite <- app_assoc. apply Permutation_snoc_middle.
  - apply (Permutation_trans
             (l' := (processed r ++ skipped r)
                    ++ nm :: unsupported r ++ List.map fst (errors r)));
      [by rewrite <- !app_assoc|].
    apply (Permutation_trans (Permutation_snoc_middle _ _ _)).
    by rewrite <- !app_assoc.
  - apply (Permutation_trans
             (l' := (processed r ++ skipped r ++ unsupported r)
                    ++ nm :: List.map fst (errors r)));
      [by rewrite <- !app_assoc|].
    apply (Permutation_trans (Permutation_snoc_middle _ _ _)).
    by rewrite <- !app_assoc.
Qed.

Lemma run_jobs_names (e : env) (force progress_callback : bool) (jobs : list job) :
  forall (r : NormalizeResult) (w : world) (r' : NormalizeResult) (w' : world),
    run_jobs e force progress_callback jobs r w = (Ok r', w') ->
    Permutation (names r') (names r ++ List.map (fun j => name (job_file j)) jobs).
Proof.
  induction jobs as [|j jobs IH]; intros r w r' w' Hrun; simpl in Hrun.
  - injection Hrun as <- <-. simpl. by rewrite app_nil_r.
  - destruct (_normalize_file _ _ _ _ _ _) as [[[status msg]|exc] w1] eqn:Hnf; [|done].
    apply normalize_file_outcome in Hnf as (_ & _ & _ & Hout).
    specialize (Hout status msg eq_refl).
    apply IH in Hrun. rewrite Hrun. simpl.
    rewrite record_outcome_names.
    + by rewrite <- app_assoc.
    + destruct Hout as [? | (? & [(? & _) | [(? & _) | ?]])]; auto.
Qed.

Lemma insert_entry_In (x y : entry) (l : list entry) :
  In y (insert_entry x l) <-> y = x \/ In y l.
Proof.
  induction l as [|z l IH]; simpl; [intuition congruence|].
  destruct (path_leb _ _); simpl; [intuition congruence|].
  rewrite IH. intuition congruence.
Qed.

Lemma sorted_entries_In (y : entry) (l : list entry) :
  In y (sorted_entries l) <-> In y l.
Proof.
  induction l as [|x l IH]; simpl; [done|].
  rewrite insert_entry_In, IH. intuition congruence.
Qed.

(** Each job stands for an entry the loops get to. *)
Lemma jobs_of_visited (source_dir : source_tree) (output_dir : list string)
    (services : list service) (j : job) :
  In j (jobs_of source_dir output_dir services) ->
  exists (svc : service) (x : entry),
    visited source_dir services svc x
    /\ j = mkJob (output_dir ++ [subdir svc]) (key svc) (file x).
Proof.
  unfold visited.
  induction services as [|svc services IH]; simpl; [done|].
  destruct (mem (subdir svc) SKIP_SUBDIRS) eqn:Hskip.
  { intros Hj. destruct (IH Hj) as (svc' & x & (? & ?) & ?). exists svc', x. auto. }
  destruct (source_dir (subdir svc)) as [[found|exc]|] eqn:Hdir.
  - intros Hj. apply in_app_or in Hj as [Hj | Hj].
    + apply in_map_iff in Hj as (x & <- & Hx).
      apply filter_In in Hx as [Hx Hel]. apply (proj1 (sorted_entries_In _ _)) in Hx.
      unfold eligible in Hel.
      apply andb_true_iff in Hel as [Hfile Hign].
      apply negb_true_iff, orb_false_iff in Hign as [Hign Hdot].
      exists svc, x. split; [|done].
      split_and!; [by left|done|by exists found|done|done|done].
    + destruct (IH Hj) as (svc' & x & (? & ?) & ?). exists svc', x. auto.
  - intros Hj. destruct (IH Hj) as (svc' & x & (? & ?) & ?). exists svc', x. auto.
  - intros Hj. destruct (IH Hj) as (svc' & x & (? & ?) & ?). exists svc', x. auto.
Qed.

(** X7. A run that returns has filed every file it got to exactly once:
    the names over the four lists of its result are, up to order, the
    names of the eligible files of the frameworks walked.  The property
    [total] leaves the unsupported ones out of its count. *)
Theorem every_visited_file_filed_once (SERVICES : list service) (e : env)
    (source_dir : source_tree) (output_dir : list string)
    (force progress_callback : bool) (w : world) (r : NormalizeResult) (w' : world) :
  normalize_all SERVICES e source_dir output_dir force progress_callback w = (Ok r, w') ->
  Permutation (names r)
    (List.map (fun j => name (job_file j)) (jobs_of source_dir output_dir SERVICES))
  /\ total r + List.length (unsupported r)
     = List.length (jobs_of source_dir output_dir SERVICES).
Proof.
  intros Hrun.
  pose proof (normalize_all_enumerable _ _ _ _ _ _ _ _ _ Hrun) as Hen.
  unfold normalize_all in Hrun. rewrite walk_services_jobs in Hrun by done.
  apply run_jobs_names in Hrun. simpl in Hrun.
  split; [done|].
  apply Permutation_length in Hrun.
  rewrite List.length_map in Hrun. rewrite <- Hrun.
  unfold names, total. rewrite !List.length_app, List.length_map. lia.
Qed.

Lemma every_visited_file_filed_once_witness :
  Permutation (names (mkResult ["guide.pdf"] [] [] ["a.json"; "bundle.zip"]))
    (List.map (fun j => name (job_file j)) (jobs_of mixed_tree ["out"] one_framework))
  /\ total (mkResult ["guide.pdf"] [] [] ["a.json"; "bundle.zip"])
     + List.length (unsupported (mkResult ["guide.pdf"] [] [] ["a.json"; "bundle.zip"]))
     = List.length (jobs_of mixed_tree ["out"] one_framework).
Proof.
  apply (every_visited_file_filed_once one_framework quiet mixed_tree ["out"] false false
           empty_world (mkResult ["guide.pdf"] [] [] ["a.json"; "bundle.zip"])
           (snd (normalize_all one_framework quiet mixed_tree ["out"] false false
                   empty_world))).
  vm_compute. reflexivity.
Defined.

(** X8. Nothing else is filed: every name in a list of the result is the
    name of a regular file found under the source directory of a
    framework of the registry that is not excluded, and is neither an
    ignored name nor a hidden one. *)
Theorem only_eligible_files_filed (SERVICES : list service) (e : env)
    (source_dir : source_tree) (output_dir : list string)
    (force progress_callback : bool) (w : world) (r : NormalizeResult) (w' : world)
    (nm : string) :
  normalize_all SERVICES e source_dir output_dir force progress_callback w = (Ok r, w') ->
  In nm (names r) ->
  exists (svc : service) (x : entry),
    visited source_dir SERVICES svc x /\ name (file x) = nm.
Proof.
  intros Hrun Hnm.
  pose proof (normalize_all_enumerable _ _ _ _ _ _ _ _ _ Hrun) as Hen.
  unfold normalize_all in Hrun. rewrite walk_services_jobs in Hrun by done.
  apply run_jobs_names in Hrun. simpl in Hrun.
  apply (Permutation_in _ Hrun) in Hnm.
  apply in_map_iff in Hnm as (j & <- & Hj).
  destruct (jobs_of_visited _ _ _ _ Hj) as (svc & x & Hv & ->).
  by exists svc, x.
Qed.

Lemma only_eligible_files_filed_witness :
  exists (svc : service) (x : entry),
    visited mixed_tree one_framework svc x /\ name (file x) = "bundle.zip".
Proof.
  apply (only_eligible_files_filed one_framework quiet mixed_tree ["out"] false false
           empty_world (mkResult ["guide.pdf"] [] [] ["a.json"; "bundle.zip"])
           (snd (normalize_all one_framework quiet mixed_tree ["out"] false false
                   empty_world))).
  - vm_compute. reflexivity.
  - vm_compute. auto.
Defined.

Lemma walk_services_skip (e : env) (source_dir : source_tree) (output_dir : list string)
    (force progress_callback : bool) (svc : service) (before after : list service) :
  mem (subdir svc) SKIP_SUBDIRS = true \/ source_dir (subdir svc) = None ->
  forall (r : NormalizeResult) (w : world),
    walk_services e source_dir output_dir force progress_callback
      (before ++ svc :: after) r w
    = walk_services e source_dir output_dir force progress_callback
        (before ++ after) r w.
Proof.
  intros Hsvc. induction before as [|s before IH]; intros r w; simpl.
  - destruct Hsvc as [-> | Hnone]; [done|].
    destruct (mem _ _); [done|]. by rewrite Hnone.
  - destruct (mem (subdir s) SKIP_SUBDIRS); [apply IH|].
    destruct (source_dir (subdir s)) as [[found|exc]|]; [|done|apply IH].
    destruct (walk_files _ _ _ _ _ _ _ _) as [[r1|exc] w1]; [apply IH|done].
Qed.

(** X9. A framework of the registry that is excluded, or whose source
    directory does not exist, has no part in a run: the run gives the
    result and the world it gives without this framework.  The directory
    of an excluded framework is not even listed, so that a failure to
    list it cannot stop the run. *)
Theorem excluded_framework_has_no_part (e : env) (source_dir : source_tree)
    (output_dir : list string) (force progress_callback : bool) (svc : service)
    (before after : list service) (w : world) :
  mem (subdir svc) SKIP_SUBDIRS = true \/ source_dir (subdir svc) = None ->
  normalize_all (before ++ svc :: after) e source_dir output_dir force
    progress_callback w
  = normalize_all (before ++ after) e source_dir output_dir force progress_callback w.
Proof. intros Hsvc. by apply walk_services_skip. Qed.

Lemma excluded_framework_has_no_part_witness :
  normalize_all with_stigs quiet (stigs_unlistable guide_tree) ["out"] false true
    empty_world
  = normalize_all one_framework quiet (stigs_unlistable guide_tree) ["out"] false true
      empty_world.
Proof.
  apply (excluded_framework_has_no_part quiet (stigs_unlistable guide_tree) ["out"]
           false true (mkService "disa" "DISA STIGs" "disa-stigs") [] one_framework
           empty_world).
  left. reflexivity.
Defined.

Lemma keeps_files_progress (b : bool) (c : call) (w w' : world) :
  keeps_files (if b then record_call c w else w) w' -> keeps_files w w'.
Proof. by destruct b. Qed.

(** A run of visits deletes nothing and changes nothing but artifacts of
    supported files among its jobs, whatever its result. *)
Lemma run_jobs_frame (e : env) (force progress_callback : bool) (jobs : list job) :
  forall (r : NormalizeResult) (w : world) (res : result NormalizeResult) (w' : world),
    run_jobs e force progress_callback jobs r w = (res, w') ->
    keeps_files w w'
    /\ forall p,
         files w' !! p <> files w !! p ->
         exists j,
           In j jobs /\ supported (name (job_file j)) = true
           /\ (p = md_dest (job_output j) (name (job_file j))
               \/ p = json_dest (job_output j) (name (job_file j))).
Proof.
  induction jobs as [|j jobs IH]; intros r w res w' Hrun; simpl in Hrun.
  - injection Hrun as <- <-. split; [by intros p|done].
  - destruct (_normalize_file _ _ _ _ _ _) as [res1 w1] eqn:Hnf.
    apply normalize_file_outcome in Hnf as (Hkeep & Hframe & Hunsup & _).
    apply keeps_files_progress in Hkeep. rewrite files_progress in Hframe, Hunsup.
    assert (Hhere : forall p,
               files w1 !! p <> files w !! p ->
               supported (name (job_file j)) = true
               /\ (p = md_dest (job_output j) (name (job_file j))
                   \/ p = json_dest (job_output j) (name (job_file j)))).
    { intros p Hp. split.
      - destruct (supported (name (job_file j))) eqn:Hs; [done|].
        destruct Hp. by rewrite Hunsup.
      - destruct (decide (p = md_dest (job_output j) (name (job_file j))));
          [by left|].
        destruct (decide (p = json_dest (job_output j) (name (job_file j))));
          [by right|].
        destruct Hp. by apply Hframe. }
    destruct res1 as [[status msg]|exc].
    + apply IH in Hrun as (Hkeep' & Hrest). split.
      * by apply (keeps_files_trans w w1 w').
      * intros p Hp.
        destruct (decide (files w1 !! p = files w !! p)) as [Heq | Hne].
        -- rewrite <- Heq in Hp. destruct (Hrest p Hp) as (j' & Hj' & ?).
           exists j'. split; [by right|done].
        -- exists j. split; [by left|]. by apply Hhere.
    + injection Hrun as <- <-. split; [done|].
      intros p Hp. exists j. split; [by left|]. by apply Hhere.
Qed.

Lemma visited_cons (source_dir : source_tree) (svc0 : service)
    (services : list service) (svc : service) (x : entry) :
  visited source_dir services svc x -> visited source_dir (svc0 :: services) svc x.
Proof. intros (Hin & Hrest). split; [by right|done]. Qed.

Lemma eligible_visited (source_dir : source_tree) (services : list service)
    (svc : service) (found : list entry) (x : entry) :
  mem (subdir svc) SKIP_SUBDIRS = false ->
  source_dir (subdir svc) = Some (Ok found) ->
  In x (List.filter eligible (sorted_entries found)) ->
  visited source_dir (svc :: services) svc x.
Proof.
  intros Hskip Hdir Hx.
  apply filter_In in Hx as [Hx Hel]. apply (proj1 (sorted_entries_In _ _)) in Hx.
  unfold eligible in Hel. apply andb_true_iff in Hel as [Hfile Hign].
  apply negb_true_iff, orb_false_iff in Hign as [Hign Hdot].
  split_and!; [by left|done|by exists found|done|done|done].
Qed.

Lemma walk_services_frame (e : env) (source_dir : source_tree)
    (output_dir : list string) (force progress_callback : bool)
    (services : list service) :
  forall (r : NormalizeResult) (w : world) (res : result NormalizeResult) (w' : world),
    walk_services e source_dir output_dir force progress_callback services r w
    = (res, w') ->
    keeps_files w w'
    /\ forall p,
         files w' !! p <> files w !! p ->
         exists (svc : service) (x : entry),
           visited source_dir services svc x
           /\ supported (name (file x)) = true
           /\ (p = md_dest (output_dir ++ [subdir svc]) (name (file x))
               \/ p = json_dest (output_dir ++ [subdir svc]) (name (file x))).
Proof.
  induction services as [|svc services IH]; intros r w res w' Hrun; simpl in Hrun.
  { injection Hrun as <- <-. split; [by intros p|done]. }
  assert (Hlater : forall r1 w1,
             walk_services e source_dir output_dir force progress_callback services r1 w1
             = (res, w') ->
             keeps_files w1 w'
             /\ forall p,
                  files w' !! p <> files w1 !! p ->
                  exists (svc' : service) (x : entry),
                    visited source_dir (svc :: services) svc' x
                    /\ supported (name (file x)) = true
                    /\ (p = md_dest (output_dir ++ [subdir svc']) (name (file x))
                        \/ p = json_dest (output_dir ++ [subdir svc']) (name (file x)))).
  { intros r1 w1 Hrest. apply IH in Hrest as (Hkeep & Hrest). split; [done|].
    intros p Hp. destruct (Hrest p Hp) as (svc' & x & Hv & ?).
    exists svc', x. split; [by apply visited_cons|done]. }
  destruct (mem (subdir svc) SKIP_SUBDIRS) eqn:Hskip; [by apply (Hlater r w)|].
  destruct (source_dir (subdir svc)) as [[found|exc]|] eqn:Hdir;
    [| injection Hrun as <- <-; split; [by intros p|done] | by apply (Hlater r w)].
  rewrite walk_files_jobs in Hrun.
  destruct (run_jobs _ _ _ _ _ _) as [res1 w1] eqn:Hjobs.
  apply run_jobs_frame in Hjobs as (Hkeep & Hhere).
  assert (Hhere' : forall p,
             files w1 !! p <> files w !! p ->
             exists (svc' : service) (x : entry),
               visited source_dir (svc :: services) svc' x
               /\ supported (name (file x)) = true
               /\ (p = md_dest (output_dir ++ [subdir svc']) (name (file x))
                   \/ p = json_dest (output_dir ++ [subdir svc']) (name (file x)))).
  { intros p Hp. destruct (Hhere p Hp) as (j & Hj & Hs & Hp').
    apply in_map_iff in Hj as (x & <- & Hx).
    exists svc, x. split; [by apply (eligible_visited _ _ _ found)|done]. }
  destruct res1 as [r1|exc].
  - destruct (Hlater r1 w1 Hrun) as (Hkeep' & Hrest). split.
    + by apply (keeps_files_trans w w1 w').
    + intros p Hp.
      destruct (decide (files w1 !! p = files w !! p)) as [Heq | Hne].
      * rewrite <- Heq in Hp. by apply Hrest.
      * by apply Hhere'.
  - injection Hrun as <- <-. done.
Qed.

Lemma run_jobs_artifacts (e : env) (force progress_callback : bool) (jobs : list job) :
  forall (r : NormalizeResult) (w : world) (r' : NormalizeResult) (w' : world),
    run_jobs e force progress_callback jobs r w = (Ok r', w') ->
    (force = true -> skipped r' = skipped r)
    /\ forall nm,
         In nm (processed r') \/ In nm (skipped r') ->
         (In nm (processed r) \/ In nm (skipped r))
         \/ exists j,
              In j jobs /\ name (job_file j) = nm /\ supported nm = true
              /\ normalized (job_output j) nm w' = true.
Proof.
  induction jobs as [|j jobs IH]; intros r w r' w' Hrun; simpl in Hrun.
  - injection Hrun as <- <-. split; [done|]. intros nm Hnm. by left.
  - destruct (_normalize_file _ _ _ _ _ _) as [[[status msg]|exc] w1] eqn:Hnf; [|done].
    apply normalize_file_outcome in Hnf as (_ & _ & _ & Hout).
    specialize (Hout status msg eq_refl).
    pose proof (run_jobs_frame _ _ _ _ _ _ _ _ Hrun) as (Hkeep & _).
    apply IH in Hrun as (Hforce & Hrest).
    rewrite record_outcome_processed, record_outcome_skipped in Hrest.
    rewrite record_outcome_skipped in Hforce.
    split.
    + intros Hf. rewrite (Hforce Hf).
      destruct Hout as [-> | (_ & [(-> & _) | [(_ & Hoff & _) | ->]])];
        [done|done|congruence|done].
    + intros nm Hnm. destruct (Hrest nm Hnm) as [Hold | (j' & Hj' & Hfound)].
      * assert (Hcases : (In nm (processed r) \/ In nm (skipped r))
                         \/ nm = msg
                            /\ (status = "processed" \/ status = "skipped")).
        { destruct Hold as [Hold | Hold].
          - destruct (String.eqb_spec status "processed") as [-> | _]; [|by left; left].
            apply in_app_or in Hold as [Hold | [<- | []]]; [by left; left|].
            right. split; [done|by left].
          - destruct (String.eqb_spec status "skipped") as [-> | _]; [|by left; right].
            apply in_app_or in Hold as [Hold | [<- | []]]; [by left; right|].
            right. split; [done|by right]. }
        destruct Hcases as [Hcases | (-> & Hst)]; [by left|].
        right. exists j. split; [by left|].
        destruct Hout as [-> | (-> & [(_ & Hs & Hn) | [(_ & _ & Hs & Hn) | ->]])].
        -- by destruct Hst.
        -- split_and!; [done|done|]. by apply (normalized_kept _ _ w1).
        -- split_and!; [done|done|]. by apply (normalized_kept _ _ w1).
        -- by destruct Hst.
      * right. exists j'. split; [by right|done].
Qed.

(** X10. In the result of a run, a name filed as processed or as skipped
    is the name of a supported file the run got to, and both artifacts of
    this file exist when the run ends.  With force, no file is filed as
    skipped. *)
Theorem processed_and_skipped_have_artifacts (SERVICES : list service) (e : env)
    (source_dir : source_tree) (output_dir : list string)
    (force progress_callback : bool) (w : world) (r : NormalizeResult) (w' : world) :
  normalize_all SERVICES e source_dir output_dir force progress_callback w = (Ok r, w') ->
  (force = true -> skipped r = [])
  /\ forall nm,
       In nm (processed r) \/ In nm (skipped r) ->
       exists (svc : service) (x : entry),
         visited source_dir SERVICES svc x /\ name (file x) = nm
         /\ supported nm = true
         /\ normalized (output_dir ++ [subdir svc]) nm w' = true.
Proof.
  intros Hrun.
  pose proof (normalize_all_enumerable _ _ _ _ _ _ _ _ _ Hrun) as Hen.
  unfold normalize_all in Hrun. rewrite walk_services_jobs in Hrun by done.
  apply run_jobs_artifacts in Hrun as (Hforce & Hall). split; [done|].
  intros nm Hnm.
  destruct (Hall nm Hnm) as [[[] | []] | (j & Hj & Hname & Hs & Hn)].
  destruct (jobs_of_visited _ _ _ _ Hj) as (svc & x & Hv & ->).
  by exists svc, x.
Qed.

Lemma processed_and_skipped_have_artifacts_witness :
  (true = true -> skipped (mkResult ["guide.pdf"] [] [] ["a.json"; "bundle.zip"]) = [])
  /\ forall nm,
       In nm (processed (mkResult ["guide.pdf"] [] [] ["a.json"; "bundle.zip"]))
       \/ In nm (skipped (mkResult ["guide.pdf"] [] [] ["a.json"; "bundle.zip"])) ->
       exists (svc : service) (x : entry),
         visited mixed_tree one_framework svc x /\ name (file x) = nm
         /\ supported nm = true
         /\ normalized (["out"] ++ [subdir svc]) nm
              (snd (normalize_all one_framework quiet mixed_tree ["out"] true false
                      empty_world))
            = true.
Proof.
  apply (processed_and_skipped_have_artifacts one_framework quiet mixed_tree ["out"]
           true false empty_world).
  vm_compute. reflexivity.
Defined.

(** X11. A run deletes no file of the output tree, and the only files it
    creates or changes are the Markdown and JSON artifacts of supported
    files it got to, in the output directory of their framework.  This
    holds for a run that returns as for one that stops on an exception. *)
Theorem run_touches_only_artifacts (SERVICES : list service) (e : env)
    (source_dir : source_tree) (output_dir : list string)
    (force progress_callback : bool) (w : world) (res : result NormalizeResult)
    (w' : world) (p : list string) :
  normalize_all SERVICES e source_dir output_dir force progress_callback w = (res, w') ->
  (is_Some (files w !! p) -> is_Some (files w' !! p))
  /\ (files w' !! p <> files w !! p ->
      exists (svc : service) (x : entry),
        visited source_dir SERVICES svc x
        /\ supported (name (file x)) = true
        /\ (p = md_dest (output_dir ++ [subdir svc]) (name (file x))
            \/ p = json_dest (output_dir ++ [subdir svc]) (name (file x)))).
Proof.
  intros Hrun. apply walk_services_frame in Hrun as (Hkeep & Hframe).
  split; [apply Hkeep|apply Hframe].
Qed.

Lemma run_touches_only_artifacts_witness :
  (is_Some (files empty_world !! ["out"; "nist"; "guide.md"]) ->
   is_Some (files after_first_run !! ["out"; "nist"; "guide.md"]))
  /\ (files after_first_run !! ["out"; "nist"; "guide.md"]
      <> files empty_world !! ["out"; "nist"; "guide.md"] ->
      exists (svc : service) (x : entry),
        visited guide_tree one_framework svc x
        /\ supported (name (file x)) = true
        /\ (["out"; "nist"; "guide.md"]
            = md_dest (["out"] ++ [subdir svc]) (name (file x))
            \/ ["out"; "nist"; "guide.md"]
               = json_dest (["out"] ++ [subdir svc]) (name (file x)))).
Proof.
  apply (run_touches_only_artifacts one_framework quiet guide_tree ["out"] false true
           empty_world (Ok (mkResult ["guide.pdf"] [] [] []))).
  vm_compute. reflexivity.
Defined.

(** ** What the extractors return *)

Lemma pdf_pages_level_one (doc : list (result string)) :
  forall (page_num : nat) (acc found : list section),
    pdf_pages page_num doc acc = Ok found ->
    Forall (fun s => well_formed s /\ level s = 1%Z) acc ->
    Forall (fun s => well_formed s /\ level s = 1%Z) found.
Proof.
  induction doc as [|page doc IH]; intros page_num acc found Hrun Hacc; simpl in Hrun.
  { by injection Hrun as <-. }
  destruct page as [raw|exc]; [|done]. unfold mbind, result_bind in Hrun.
  destruct (Py.truthy (Py.strip raw)) eqn:E; [|by eapply IH].
  eapply IH; [exact Hrun|]. apply Forall_app. split; [done|].
  constructor; [|constructor]. split; [|done].
  split; [|done]. simpl. by apply truthy_nonempty.
Qed.

Lemma rank_at_most_four (element : node) : (rank element <= 4)%Z.
Proof.
  unfold rank.
  destruct (String.eqb (element_name element) "h1"); [done|].
  destruct (String.eqb (element_name element) "h2"); [done|].
  destruct (String.eqb (element_name element) "h3"); [done|].
  destruct (String.eqb (element_name element) "h4"); done.
Qed.

Lemma sections_from_levels (elements : list node) :
  forall (h : string) (lvl : Z) (lines : list string),
    (1 <= lvl <= 4)%Z ->
    Forall (fun s => well_formed s /\ (level s <= 4)%Z)
      (sections_from h lvl lines elements).
Proof.
  assert (Hflush : forall h lvl lines,
             (1 <= lvl <= 4)%Z ->
             Forall (fun s => well_formed s /\ (level s <= 4)%Z) (flushed h lvl lines)).
  { intros h lvl lines Hl. unfold flushed.
    destruct (Py.strip (Py.join Py.nl lines)) eqn:E; [constructor|].
    constructor; [|constructor]. split; [split; simpl; [done|lia]|simpl; lia]. }
  induction elements as [|element rest IH]; intros h lvl lines Hl; simpl.
  - by apply Hflush.
  - destruct (is_heading element) eqn:E; [|by apply IH].
    apply Forall_app. split; [by apply Hflush|].
    apply IH. split; [by apply rank_positive|apply rank_at_most_four].
Qed.

Lemma control_sections_headed (c : control) :
  forall lvl : Z,
    (1 <= lvl)%Z ->
    Forall (fun s => well_formed s /\ (lvl <= level s)%Z /\ heading s <> EmptyString)
      (control_sections c lvl).
Proof.
  induction c as [id title parts controls IH] using control_nested_ind.
  intros lvl Hl. simpl. apply Forall_app. split.
  - destruct (control_heading id title); [constructor|].
    destruct (control_content parts) eqn:E; [constructor|].
    constructor; [|constructor]. split_and!; simpl; try done; lia.
  - induction IH as [|e controls He _ IHc]; simpl; [constructor|].
    apply Forall_app. split; [|done].
    eapply Forall_impl; [apply (He (lvl + 1)%Z); lia|].
    intros s (Hs & Hlvl & Hh). split_and!; [done|lia|done].
Qed.

Lemma extract_catalog_flat (c : catalog) :
  _extract_catalog c
  = flat_map (fun g => flat_map (fun ctl => control_sections ctl 2) (group_controls g))
      (groups c).
Proof.
  unfold _extract_catalog.
  assert (H : forall (gs : list group) (acc : list section),
             fold_left
               (fun sections g =>
                  fold_left
                    (fun sections ctl => sections ++ _extract_control_sections ctl 2)
                    (group_controls g) sections)
               gs acc
             = acc ++ flat_map
                        (fun g =>
                           flat_map (fun ctl => control_sections ctl 2)
                             (group_controls g))
                        gs).
  { induction gs as [|g gs IH]; intros acc; simpl; [by rewrite app_nil_r|].
    rewrite IH, fold_left_extend, <- app_assoc. do 2 f_equal.
    induction (group_controls g) as [|ctl ctls IHc]; simpl; [done|].
    by rewrite IHc, extract_control_sections_spec. }
  apply H.
Qed.

(** X12. Sections carry text.  Every section of the PDF extractor has
    non-empty content and level 1; with a content container, every
    section of the HTML extractor has non-empty content and a level from
    1 to 4; every section of a catalog has non-empty content, a non-empty
    heading and a level of 2 or more. *)
Theorem extracted_sections_carry_text (f : source_file) (found : list section) :
  (_extract_pdf f = Ok found ->
   Forall (fun s => well_formed s /\ level s = 1%Z) found)
  /\ (forall (soup : list node) (container : node),
        html f = Ok soup ->
        find_container soup = Some container ->
        _extract_html f = Ok found ->
        Forall (fun s => well_formed s /\ (level s <= 4)%Z) found)
  /\ (forall c : catalog,
        Forall (fun s => well_formed s /\ (2 <= level s)%Z /\ heading s <> EmptyString)
          (_extract_catalog c)).
Proof.
  split_and!.
  - unfold _extract_pdf. destruct (pdf f) as [doc|exc]; [|done]. simpl.
    unfold mbind, result_bind.
    destruct (pdf_pages 1 doc []) as [secs|exc] eqn:E; [|done].
    intros [= <-]. eapply pdf_pages_level_one; [exact E|constructor].
  - intros soup container Hsoup Hc.
    rewrite (extract_html_with_container f soup container Hsoup Hc).
    intros [= <-]. unfold or_whole_text.
    pose proof (sections_from_levels (considered container) (stem (name f)) 1 []
                  ltac:(lia)) as Hwf.
    destruct (sections_from _ _ _ _); [|done].
    destruct (Soup.element_text Py.nl container) eqn:E; [constructor|].
    constructor; [|constructor]. split; [split; simpl; [done|lia]|simpl; lia].
  - intros c. rewrite extract_catalog_flat.
    induction (groups c) as [|g gs IH]; simpl; [constructor|].
    apply Forall_app. split; [|done].
    induction (group_controls g) as [|ctl ctls IHc]; simpl; [constructor|].
    apply Forall_app. split; [|done].
    apply (control_sections_headed ctl 2). lia.
Qed.

Lemma extracted_sections_carry_text_witness :
  Forall (fun s => well_formed s /\ level s = 1%Z) [mkSection "Page 1" 1 "hello"]
  /\ Forall (fun s => well_formed s /\ (level s <= 4)%Z) [mkSection "guide" 1 "Hello"].
Proof.
  split.
  - apply (proj1 (extracted_sections_carry_text guide_pdf [mkSection "Page 1" 1 "hello"])).
    reflexivity.
  - apply (proj1 (proj2 (extracted_sections_carry_text guide_html
                           [mkSection "guide" 1 "Hello"]))
             [Tag "body" [] [Tag "p" [] [Text "Hello"]]]
             (Tag "body" [] [Tag "p" [] [Text "Hello"]])); reflexivity.
Defined.

Lemma control_sections_deeper (c : control) :
  forall lvl k : Z,
    control_sections c (lvl + k) = List.map (deeper k) (control_sections c lvl).
Proof.
  induction c as [id title parts controls IH] using control_nested_ind.
  intros lvl k. simpl. rewrite List.map_app. f_equal.
  - destruct (control_heading id title); [done|].
    by destruct (control_content parts).
  - induction IH as [|e controls He _ IHc]; simpl; [done|].
    rewrite List.map_app, <- IHc. f_equal.
    replace (lvl + k + 1)%Z with (lvl + 1 + k)%Z by lia. apply He.
Qed.

(** X13. A catalog is read group by group and, in a group, control by
    control, each control at level 2: its sections are those of the
    controls one after the other.  The level a control is extracted at
    only offsets the levels of its sections: headings and contents are the
    same at every level, and an enhancement sits one level below the
    control that holds it. *)
Theorem extract_catalog_group_by_group :
  (forall c : catalog,
      _extract_catalog c
      = flat_map
          (fun g => flat_map (fun ctl => _extract_control_sections ctl 2)
                      (group_controls g))
          (groups c))
  /\ (forall (c : control) (lvl k : Z),
        _extract_control_sections c (lvl + k)
        = List.map (deeper k) (_extract_control_sections c lvl))
  /\ (forall (id title : option string) (parts : list part)
             (before after : list control) (enhancement : control) (lvl : Z),
        exists (above below : list section),
          _extract_control_sections
            (Control id title parts (before ++ enhancement :: after)) lvl
          = above ++ List.map (deeper 1) (_extract_control_sections enhancement lvl)
            ++ below).
Proof.
  split_and!.
  - intros c. rewrite extract_catalog_flat.
    induction (groups c) as [|g gs IH]; simpl; [done|]. f_equal; [|done].
    induction (group_controls g) as [|ctl ctls IHc]; simpl; [done|].
    by rewrite IHc, extract_control_sections_spec.
  - intros c lvl k. rewrite !extract_control_sections_spec.
    apply control_sections_deeper.
  - intros id title parts before after enhancement lvl.
    rewrite !extract_control_sections_spec. simpl.
    rewrite flat_map_app. simpl. rewrite control_sections_deeper.
    exists ((match control_heading id title, control_content parts with
             | String _ _, String _ _ =>
                 [mkSection (control_heading id title) lvl (control_content parts)]
             | _, _ => []
             end)
            ++ flat_map (fun enhancement => control_sections enhancement (lvl + 1))
                 before),
           (flat_map (fun enhancement => control_sections enhancement (lvl + 1)) after).
    by rewrite <- !app_assoc.
Qed.

(** X14. An object with a catalog key is read as a catalog whatever else
    it holds, a profile key included.  When the catalog has no groups the
    extractor returns no section, controls placed directly under the
    catalog are not read, and the file is filed as an error for lack of
    text instead of being reported as unsupported. *)
Theorem catalog_without_groups_is_an_error (e : env) (f : source_file)
    (out : list string) (framework : string) (force : bool) (w : world)
    (members cat : list (string * json)) :
  extension (name f) = ".json" ->
  force = true \/ normalized out (name f) w = false ->
  loaded f = Ok (JObject members) ->
  Json.get "catalog" members = Some (JObject cat) ->
  Json.get "groups" cat = None ->
  _extract_oscal_json f = Ok []
  /\ _normalize_file e f out framework force w
     = (Ok ("error", "no text content extracted"),
        record_call (ExtractOscalJson (name f)) w).
Proof.
  intros Hext Hatt Hl Hcat Hgroups.
  assert (Hex : _extract_oscal_json f = Ok []).
  { unfold _extract_oscal_json. rewrite Hl. simpl.
    unfold mbind, result_bind. rewrite Hcat. simpl.
    unfold catalog_of, Json.as_catalog, Json.list_field.
    unfold Json.get in Hgroups.
    assert (Hnone : Json.get_with
                      (fun v => match v with
                                | JArray items => Some (List.map Json.as_group items)
                                | _ => None
                                end) "groups" cat = None).
    { clear -Hgroups.
      induction cat as [|[k v] cat IH]; cbn [Json.get_with] in *; [done|].
      destruct (String.eqb "groups" k); [done|by apply IH]. }
    by rewrite Hnone. }
  split; [done|].
  assert (Hsup : supported (name f) = true) by (unfold supported; by rewrite Hext).
  rewrite normalize_file_attempt_tail by done.
  unfold extraction, extractor_call. rewrite Hext.
  change (mem ".json" PDF_EXTENSIONS) with false.
  change (mem ".json" JSON_EXTENSIONS) with true. cbv iota.
  by rewrite Hex.
Qed.

Lemma catalog_without_groups_is_an_error_witness :
  _extract_oscal_json flat_catalog = Ok []
  /\ _normalize_file quiet flat_catalog ["out"; "nist"] "nist" false empty_world
     = (Ok ("error", "no text content extracted"),
        record_call (ExtractOscalJson (name flat_catalog)) empty_world).
Proof.
  apply (catalog_without_groups_is_an_error quiet flat_catalog ["out"; "nist"] "nist"
           false empty_world
           [("catalog",
             JObject
               [("controls",
                 JArray
                   [JObject
                      [("id", JString "ac-1"); ("title", JString "Policy");
                       ("parts",
                        JArray [JObject [("name", JString "statement");
                                         ("prose", JString "Do X.")]])]])]);
            ("profile", JObject [])]
           [("controls",
             JArray
               [JObject
                  [("id", JString "ac-1"); ("title", JString "Policy");
                   ("parts",
                    JArray [JObject [("name", JString "statement");
                                     ("prose", JString "Do X.")]])]])]);
    reflexivity || (by right).
Defined.

(** ** The Markdown text *)

Lemma heading_marks_repeat (lvl : Z) :
  Py.repeat_string "#" (Z.to_nat (Z.min (lvl + 1) 6)) = heading_marks lvl.
Proof.
  unfold heading_marks.
  destruct (Z.ltb_spec lvl 0) as [Hneg|Hpos].
  { replace (Z.to_nat (Z.min (lvl + 1) 6)) with 0%nat by lia. done. }
  destruct (Z.eqb_spec lvl 0) as [-> | H0]; [done|].
  destruct (Z.eqb_spec lvl 1) as [-> | H1]; [done|].
  destruct (Z.eqb_spec lvl 2) as [-> | H2]; [done|].
  destruct (Z.eqb_spec lvl 3) as [-> | H3]; [done|].
  destruct (Z.eqb_spec lvl 4) as [-> | H4]; [done|].
  replace (Z.min (lvl + 1) 6) with 6%Z by lia. done.
Qed.

Lemma markdown_text_blocks (sections : list section)
    (framework source_file extracted_at : string) :
  markdown_text sections framework source_file extracted_at
  = Py.join Py.nl
      (markdown_front framework source_file extracted_at
       ++ flat_map markdown_block sections).
Proof.
  unfold markdown_text, markdown_front. f_equal.
  rewrite (fold_left_extend
             (fun s =>
                [Py.repeat_string "#" (Z.to_nat (Z.min (level s + 1) 6)) +:+ " "
                 +:+ heading s; EmptyString; content s; EmptyString])).
  f_equal. induction sections as [|s sections IH]; [done|].
  cbn [flat_map]. rewrite IH. unfold markdown_block.
  by rewrite heading_marks_repeat.
Qed.

(** X15. The Markdown text is the front matter and the title followed by
    four lines for each section, in order: the heading line, a blank line,
    the content, a blank line.  The heading line has one hash more than
    the level of the section, six at most and none below level 0, then a
    space and the heading.  Hence sections at level 5 or deeper, such as
    those of enhancements nested three deep in a catalog, all get six
    hashes, and two lists of sections that differ only in such levels give
    the same Markdown text. *)
Theorem markdown_caps_heading_depth :
  (forall (sections : list section) (framework source_file extracted_at : string),
      markdown_text sections framework source_file extracted_at
      = Py.join Py.nl
          (markdown_front framework source_file extracted_at
           ++ flat_map markdown_block sections))
  /\ (heading_marks (-1) = EmptyString /\ heading_marks 0 = "#"
      /\ heading_marks 4 = "#####" /\ heading_marks 5 = "######"
      /\ forall lvl : Z, (5 <= lvl)%Z -> heading_marks lvl = "######")
  /\ (forall (sections sections' : list section)
             (framework source_file extracted_at : string),
        Forall2 same_but_deep sections sections' ->
        markdown_text sections framework source_file extracted_at
        = markdown_text sections' framework source_file extracted_at).
Proof.
  split_and!; try done.
  - apply markdown_text_blocks.
  - intros lvl Hl. unfold heading_marks.
    destruct (Z.ltb_spec lvl 0); [lia|].
    destruct (Z.eqb_spec lvl 0); [lia|]. destruct (Z.eqb_spec lvl 1); [lia|].
    destruct (Z.eqb_spec lvl 2); [lia|]. destruct (Z.eqb_spec lvl 3); [lia|].
    destruct (Z.eqb_spec lvl 4); [lia|]. done.
  - intros sections sections' framework source_file extracted_at Hsame.
    rewrite !markdown_text_blocks. do 2 f_equal.
    induction Hsame as [|s s' l l' (Hh & Hc & Hl) _ IH]; simpl; [done|].
    rewrite IH. unfold markdown_block. rewrite Hh, Hc.
    assert (heading_marks (level s) = heading_marks (level s')) as ->; [|done].
    destruct Hl as [-> | [H5 H5']]; [done|].
    rewrite <- !heading_marks_repeat.
    replace (Z.min (level s + 1) 6) with 6%Z by lia.
    by replace (Z.min (level s' + 1) 6) with 6%Z by lia.
Qed.

Lemma markdown_caps_heading_depth_witness :
  markdown_text [mkSection "AC-2(1)(a)(i)" 5 "Do X."] "nist" "catalog.json" "t"
  = markdown_text [mkSection "AC-2(1)(a)(i)" 7 "Do X."] "nist" "catalog.json" "t".
Proof.
  apply (proj2 (proj2 markdown_caps_heading_depth)
           [mkSection "AC-2(1)(a)(i)" 5 "Do X."] [mkSection "AC-2(1)(a)(i)" 7 "Do X."]).
  constructor; [|constructor]. split_and!; [reflexivity|reflexivity|].
  right. simpl. lia.
Defined.

(** ** Pages without block content *)

Lemma sections_from_no_lines (elements : list node) :
  Forall (fun x => is_heading x = false -> line_of x = []) elements ->
  forall (h : string) (lvl : Z), sections_from h lvl [] elements = [].
Proof.
  induction 1 as [|x elements Hx _ IH]; intros h lvl; cbn [sections_from]; [done|].
  destruct (is_heading x) eqn:E.
  - rewrite flushed_nothing. apply IH.
  - rewrite (Hx eq_refl). apply IH.
Qed.

(** X16. Headings alone make no section.  When no block-content element
    of the container has visible text, the walk returns nothing, whatever
    the headings, and the extractor falls back on the whole visible text
    of the container, headings included, as one section at level 1 under
    the stem of the file name. *)
Theorem headings_alone_make_no_section (f : source_file) (soup : list node)
    (container : node) :
  html f = Ok soup ->
  find_container soup = Some container ->
  (forall x, In x (Soup.descendants container) ->
             is_block_content x = true -> Soup.element_text " " x = EmptyString) ->
  Soup.element_text Py.nl container <> EmptyString ->
  _extract_html f
  = Ok [mkSection (stem (name f)) 1 (Soup.element_text Py.nl container)].
Proof.
  intros Hsoup Hc Hblocks Hraw.
  rewrite (extract_html_with_container f soup container Hsoup Hc).
  rewrite sections_from_no_lines.
  - unfold or_whole_text. by destruct (Soup.element_text Py.nl container).
  - apply Forall_forall. intros x Hx Hh. unfold considered in Hx.
    apply list_elem_of_In, filter_In in Hx as [Hx Hkind].
    rewrite Hh in Hkind. simpl in Hkind.
    unfold line_of. by rewrite (Hblocks x Hx Hkind).
Qed.

Lemma headings_alone_make_no_section_witness :
  _extract_html headings_only
  = Ok [mkSection (stem (name headings_only)) 1
          (Soup.element_text Py.nl
             (Tag "body" [] [Tag "h1" [] [Text "Title"]; Tag "div" [] [Text "Some text"]]))].
Proof.
  apply (headings_alone_make_no_section headings_only
           [Tag "body" [] [Tag "h1" [] [Text "Title"]; Tag "div" [] [Text "Some text"]]]
           (Tag "body" [] [Tag "h1" [] [Text "Title"]; Tag "div" [] [Text "Some text"]])).
  - reflexivity.
  - reflexivity.
  - intros x Hx. simpl in Hx.
    destruct Hx as [<- | [<- | [<- | [<- | []]]]]; vm_compute; congruence.
  - vm_compute. congruence.
Defined.

(** ** Progress reports *)

Lemma reports_app (l1 l2 : list call) : reports (l1 ++ l2) = reports l1 ++ reports l2.
Proof. apply flat_map_app. Qed.

Lemma reports_extractor_call (nm : string) : reports [extractor_call nm] = [].
Proof.
  unfold extractor_call.
  destruct (mem (extension nm) PDF_EXTENSIONS); [done|].
  by destruct (mem (extension nm) JSON_EXTENSIONS).
Qed.

(** A visit reports nothing by itself. *)
Lemma normalize_file_reports (e : env) (f : source_file) (out : list string)
    (framework : string) (force : bool) (w : world)
    (res : result (string * string)) (w' : world) :
  _normalize_file e f out framework force w = (res, w') ->
  reports (calls w') = reports (calls w).
Proof.
  intros Hrun.
  destruct (normalize_file_trichotomy force out (name f) w)
    as [Hs | [(Hs & -> & Hn) | (Hs & Hatt)]].
  - rewrite normalize_file_unsupported_ext in Hrun by done. by injection Hrun as <- <-.
  - rewrite normalize_file_skipped in Hrun by done. by injection Hrun as <- <-.
  - rewrite normalize_file_attempt_tail in Hrun by done.
    assert (Hquiet : forall later : list call,
               reports later = [] ->
               reports ((calls w ++ [extractor_call (name f)]) ++ later)
               = reports (calls w)).
    { intros later Hl.
      by rewrite !reports_app, reports_extractor_call, Hl, !app_nil_r. }
    destruct (extraction f) as [[|s more]|exc].
    + injection Hrun as <- <-. simpl. by rewrite <- (Hquiet []), app_nil_r.
    + unfold mkdir in Hrun.
      destruct (mkdir_fault e out) as [m|].
      { injection Hrun as <- <-. simpl. by apply (Hquiet [Mkdir out]). }
      unfold write_both, _write_markdown, _write_json, write_text, record_call in Hrun.
      simpl in Hrun.
      destruct (write_fault e (md_dest out (name f))) as [[m [n|]]|].
      { injection Hrun as <- <-. simpl. rewrite <- app_assoc.
        by apply (Hquiet [Mkdir out; WriteMarkdown (md_dest out (name f))]). }
      { injection Hrun as <- <-. simpl. rewrite <- app_assoc.
        by apply (Hquiet [Mkdir out; WriteMarkdown (md_dest out (name f))]). }
      simpl in Hrun.
      destruct (write_fault e (json_dest out (name f))) as [[m [n|]]|];
        injection Hrun as <- <-; simpl; rewrite <- !app_assoc;
        rewrite (app_assoc (calls w));
        by apply (Hquiet [Mkdir out; WriteMarkdown (md_dest out (name f));
                          WriteJson (json_dest out (name f))]).
    + destruct exc; injection Hrun as <- <-; simpl;
        by rewrite <- (Hquiet []), app_nil_r.
Qed.

Lemma run_jobs_reports (e : env) (force progress_callback : bool) (jobs : list job) :
  forall (r : NormalizeResult) (w : world) (r' : NormalizeResult) (w' : world),
    run_jobs e force progress_callback jobs r w = (Ok r', w') ->
    reports (calls w')
    = reports (calls w)
      ++ (if progress_callback
          then List.map (fun j => (job_key j, name (job_file j))) jobs
          else []).
Proof.
  induction jobs as [|j jobs IH]; intros r w r' w' Hrun; simpl in Hrun.
  - injection Hrun as <- <-. destruct progress_callback; by rewrite app_nil_r.
  - destruct (_normalize_file _ _ _ _ _ _) as [[[status msg]|exc] w1] eqn:Hnf; [|done].
    apply normalize_file_reports in Hnf. apply IH in Hrun. rewrite Hrun, Hnf.
    destruct progress_callback; simpl; [|done].
    rewrite reports_app. simpl. by rewrite <- app_assoc.
Qed.

(** X17. With a progress callback, a run that returns has called it
    exactly once for each eligible file of the frameworks walked, with the
    key of the framework and the name of the file, in the order of the
    visits; files that turn out unsupported, skipped or in error are
    reported like the others.  Without a callback nothing is reported. *)
Theorem progress_reported_once_per_file (SERVICES : list service) (e : env)
    (source_dir : source_tree) (output_dir : list string)
    (force progress_callback : bool) (w : world) (r : NormalizeResult) (w' : world) :
  normalize_all SERVICES e source_dir output_dir force progress_callback w = (Ok r, w') ->
  reports (calls w')
  = reports (calls w)
    ++ (if progress_callback
        then List.map (fun j => (job_key j, name (job_file j)))
               (jobs_of source_dir output_dir SERVICES)
        else []).
Proof.
  intros Hrun.
  pose proof (normalize_all_enumerable _ _ _ _ _ _ _ _ _ Hrun) as Hen.
  unfold normalize_all in Hrun. rewrite walk_services_jobs in Hrun by done.
  by apply run_jobs_reports in Hrun.
Qed.

Lemma progress_reported_once_per_file_witness :
  reports (calls (snd (normalize_all one_framework quiet mixed_tree ["out"] false true
                         empty_world)))
  = reports (calls empty_world)
    ++ List.map (fun j => (job_key j, name (job_file j)))
         (jobs_of mixed_tree ["out"] one_framework).
Proof.
  apply (progress_reported_once_per_file one_framework quiet mixed_tree ["out"] false
           true empty_world (mkResult ["guide.pdf"] [] [] ["a.json"; "bundle.zip"])).
  vm_compute. reflexivity.
Defined.

(** ** Around the container *)

Lemma all_descendants (soup : list node) (c : node) :
  In c (Soup.all soup) -> incl (Soup.descendants c) (Soup.all soup).
Proof.
  unfold Soup.all. intros Hc x Hx.
  apply in_flat_map in Hc as (k & Hk & [<- | Hc]).
  - apply in_flat_map. exists k. split; [done|by right].
  - apply in_flat_map. exists k. split; [done|]. right.
    destruct (descendants_split k c Hc) as (pre & post & ->).
    apply in_or_app. right. right. apply in_or_app. by left.
Qed.

Lemma find_none_incl {A : Type} (p : A -> bool) (l l' : list A) :
  List.find p l = None -> incl l' l -> List.find p l' = None.
Proof.
  intros Hnone Hincl. induction l' as [|x l' IH]; simpl; [done|].
  rewrite (find_none p l Hnone x (Hincl x (or_introl eq_refl))).
  apply IH. intros y Hy. apply Hincl. by right.
Qed.

Lemma all_alone (c : node) : Soup.all [c] = c :: Soup.descendants c.
Proof. unfold Soup.all. simpl. by rewrite app_nil_r. Qed.

Lemma find_alone (p : node -> bool) (soup : list node) (c : node) :
  Soup.find p soup = Some c -> Soup.find p [c] = Some c.
Proof.
  unfold Soup.find. intros Hc. apply find_some in Hc as [_ Hp].
  rewrite all_alone. simpl. by rewrite Hp.
Qed.

Lemma find_alone_none (p q : node -> bool) (soup : list node) (c : node) :
  Soup.find p soup = None -> Soup.find q soup = Some c -> Soup.find p [c] = None.
Proof.
  unfold Soup.find. intros Hnone Hc. apply find_some in Hc as [Hin _].
  apply (find_none_incl p (Soup.all soup)); [done|].
  rewrite all_alone. intros x [<- | Hx]; [done|]. by apply (all_descendants soup c).
Qed.

(** The container of a page is the container of itself taken alone. *)
Lemma find_container_alone (soup : list node) (c : node) :
  find_container soup = Some c -> find_container [c] = Some c.
Proof.
  unfold find_container, or_else.
  destruct (Soup.find (Soup.named "main") soup) as [m|] eqn:Hmain.
  { intros [= ->]. by rewrite (find_alone _ _ _ Hmain). }
  destruct (Soup.find (Soup.has_attr "role" "main") soup) as [m|] eqn:Hrole.
  { intros [= ->]. rewrite (find_alone_none _ _ _ _ Hmain Hrole).
    by rewrite (find_alone _ _ _ Hrole). }
  destruct (Soup.find (Soup.named "article") soup) as [m|] eqn:Harticle.
  { intros [= ->]. rewrite (find_alone_none _ _ _ _ Hmain Harticle).
    rewrite (find_alone_none _ _ _ _ Hrole Harticle).
    by rewrite (find_alone _ _ _ Harticle). }
  intros Hbody. rewrite (find_alone_none _ _ _ _ Hmain Hbody).
  rewrite (find_alone_none _ _ _ _ Hrole Hbody).
  rewrite (find_alone_none _ _ _ _ Harticle Hbody).
  by rewrite (find_alone _ _ _ Hbody).
Qed.

(** X19. What lies outside the content container has no effect: a page
    gives the sections that its container gives as a page of its own
    under a name with the same stem.  Menus, site headings and footers
    around a [<main>] element never reach the output. *)
Theorem outside_the_container_ignored (f f' : source_file) (soup : list node)
    (container : node) :
  html f = Ok soup ->
  find_container soup = Some container ->
  html f' = Ok [container] ->
  stem (name f') = stem (name f) ->
  _extract_html f = _extract_html f'.
Proof.
  intros Hsoup Hc Hsoup' Hstem.
  rewrite (extract_html_with_container f soup container Hsoup Hc).
  rewrite (extract_html_with_container f' [container] container Hsoup'
             (find_container_alone soup container Hc)).
  by rewrite Hstem.
Qed.

Lemma outside_the_container_ignored_witness :
  _extract_html page_with_menu = _extract_html main_alone.
Proof.
  apply (outside_the_container_ignored page_with_menu main_alone
           [Tag "html" []
              [Tag "body" []
                 [Tag "nav" [] [Tag "li" [] [Text "Menu"]];
                  Tag "h1" [] [Text "Site"];
                  main_hello;
                  Tag "footer" [] [Tag "p" [] [Text "Contact"]]]]]
           main_hello); reflexivity.
Defined.
